(** * DGFacade Python workers: dispatch, framing and sample handlers

    A shallow embedding of the Python side of DGFacade:
    - [dgfacade_worker.py]: the socket worker (frame codec, command router,
      cached-instance execute path);
    - [dg_handler.py]: the [DGHandler] base class and its lifecycle;
    - [dg_gateway.py]: the Py4J delegate ([DGPythonDelegate.executeHandler]);
    - [handlers/transform_handler.py], [handlers/echo_handler.py].

    Python values are modelled by [pyval]; a [str] is its sequence of code
    points; exceptions are values of [exn] carried by [outcome]; mutable
    process state (handler caches, cached instances, sockets, counters) is
    passed explicitly.  Only subclasses of Python's [Exception] are modelled:
    that is what every [except Exception] of the sources catches. *)

From Stdlib.Strings Require Import String Ascii Byte.
From Stdlib Require Import ZArith NArith List Bool Lia.
Import ListNotations.

Set Warnings "-register-all".

(** ** Python strings *)

(** A [str] is a sequence of Unicode code points ([0 .. 0x10FFFF], lone
    surrogates included, as in CPython). *)
Definition pystr : Type := list N.

(** ASCII literals of the sources. *)
Definition lit (s : string) : pystr :=
  map N_of_ascii (list_ascii_of_string s).

Fixpoint str_eqb (a b : pystr) : bool :=
  match a, b with
  | [], [] => true
  | x :: a', y :: b' => N.eqb x y && str_eqb a' b'
  | _, _ => false
  end.

Fixpoint digits_of_uint (d : Decimal.uint) : pystr :=
  match d with
  | Decimal.Nil => []
  | Decimal.D0 d' => 48%N :: digits_of_uint d'
  | Decimal.D1 d' => 49%N :: digits_of_uint d'
  | Decimal.D2 d' => 50%N :: digits_of_uint d'
  | Decimal.D3 d' => 51%N :: digits_of_uint d'
  | Decimal.D4 d' => 52%N :: digits_of_uint d'
  | Decimal.D5 d' => 53%N :: digits_of_uint d'
  | Decimal.D6 d' => 54%N :: digits_of_uint d'
  | Decimal.D7 d' => 55%N :: digits_of_uint d'
  | Decimal.D8 d' => 56%N :: digits_of_uint d'
  | Decimal.D9 d' => 57%N :: digits_of_uint d'
  end.

(** [str(n)] of a non-negative [int]. *)
Definition str_of_N (n : N) : pystr := digits_of_uint (N.to_uint n).

(** [str(z)] of an [int]. *)
Definition str_of_Z (z : Z) : pystr :=
  if (z <? 0)%Z then 45%N :: str_of_N (Z.abs_N z) else str_of_N (Z.abs_N z).

(** ** Exceptions and outcomes *)

(** The exception classes the sources name or can meet; [OtherError] is any
    other subclass of [Exception], by its class name. *)
Inductive exc_class : Type :=
| JSONDecodeError
| TypeError
| AttributeError
| ImportError
| ModuleNotFoundError
| ValueError
| UnboundLocalError
| UnicodeEncodeError
| UnicodeDecodeError
| StructError
| NotImplementedError
| OtherError (name : pystr).

(** [type(e).__name__]. *)
Definition class_name (c : exc_class) : pystr :=
  match c with
  | JSONDecodeError => lit "JSONDecodeError"
  | TypeError => lit "TypeError"
  | AttributeError => lit "AttributeError"
  | ImportError => lit "ImportError"
  | ModuleNotFoundError => lit "ModuleNotFoundError"
  | ValueError => lit "ValueError"
  | UnboundLocalError => lit "UnboundLocalError"
  | UnicodeEncodeError => lit "UnicodeEncodeError"
  | UnicodeDecodeError => lit "UnicodeDecodeError"
  | StructError => lit "error"
  | NotImplementedError => lit "NotImplementedError"
  | OtherError name => name
  end.

(** An exception instance: its class and [str(e)]. *)
Record exn : Type := Exn { exn_class : exc_class; exn_msg : pystr }.

Inductive outcome (A : Type) : Type :=
| Returns (a : A)
| Raises (e : exn).
Arguments Returns {A} a.
Arguments Raises {A} e.

Definition is_class (c : exc_class) (e : exn) : bool :=
  match c, exn_class e with
  | JSONDecodeError, JSONDecodeError => true
  | ModuleNotFoundError, ModuleNotFoundError => true
  | AttributeError, AttributeError => true
  | _, _ => false
  end.

(** ** Python values *)

(** The values that flow through the dispatch code: what [json.loads] can
    produce, plus [PyObj], any other object (not JSON-serializable).  A float
    is kept as a token (0 for zero): no source function computes with one. *)
Inductive pyval : Type :=
| PyNone
| PyBool (b : bool)
| PyInt (z : Z)
| PyFloat (token : N)
| PyStr (s : pystr)
| PyList (items : list pyval)
| PyDict (entries : list (pystr * pyval))
| PyObj (id : N).

(** A [dict] with [str] keys, in insertion order; every operation below keeps
    keys unique. *)
Definition pydict : Type := list (pystr * pyval).

(** [d.get(k)] / [d[k]]. *)
Fixpoint dict_get (k : pystr) (d : pydict) : option pyval :=
  match d with
  | [] => None
  | (k', v) :: d' => if str_eqb k k' then Some v else dict_get k d'
  end.

(** [k in d]. *)
Definition dict_mem (k : pystr) (d : pydict) : bool :=
  match dict_get k d with Some _ => true | None => false end.

(** [d.get(k, default)]. *)
Definition dict_get_default (k : pystr) (default : pyval) (d : pydict) : pyval :=
  match dict_get k d with Some v => v | None => default end.

(** [d[k] = v]: overwrite in place, or append a new key. *)
Fixpoint dict_set (k : pystr) (v : pyval) (d : pydict) : pydict :=
  match d with
  | [] => [(k, v)]
  | (k', v') :: d' =>
      if str_eqb k k' then (k', v) :: d' else (k', v') :: dict_set k v d'
  end.

(** [d.update(other)]. *)
Definition dict_update (d other : pydict) : pydict :=
  fold_left (fun acc kv => dict_set (fst kv) (snd kv) acc) other d.

(** [len(d)]. *)
Definition dict_len (d : pydict) : Z := Z.of_nat (length d).

(** [v == s] for a [str] constant [s]. *)
Definition eq_str (v : pyval) (s : pystr) : bool :=
  match v with PyStr t => str_eqb t s | _ => false end.

(** Truth value of a value ([if v], [v or w]). *)
Definition py_truthy (v : pyval) : bool :=
  match v with
  | PyNone => false
  | PyBool b => b
  | PyInt z => negb (z =? 0)%Z
  | PyFloat token => negb (token =? 0)%N
  | PyStr s => match s with [] => false | _ => true end
  | PyList items => match items with [] => false | _ => true end
  | PyDict entries => match entries with [] => false | _ => true end
  | PyObj _ => true
  end.

(** [x.get(k, default)] on an arbitrary value: only a [dict] has [get]. *)
Definition py_get (x : pyval) (k : pystr) (default : pyval) : outcome pyval :=
  match x with
  | PyDict d => Returns (dict_get_default k default d)
  | _ => Raises (Exn AttributeError (lit "object has no attribute 'get'"))
  end.

(** ** UTF-8 ([str.encode("utf-8")], [bytes.decode("utf-8")]) *)

Definition byte_of_N (n : N) : byte :=
  match Byte.of_N n with Some b => b | None => x00 end.

Definition encode_codepoint (cp : N) : option (list byte) :=
  if (cp <? 0x80)%N then Some [byte_of_N cp]
  else if (cp <? 0x800)%N then
    Some [byte_of_N (0xC0 + cp / 64); byte_of_N (0x80 + cp mod 64)]
  else if ((0xD800 <=? cp) && (cp <=? 0xDFFF))%N then None
  else if (cp <? 0x10000)%N then
    Some [byte_of_N (0xE0 + cp / 4096); byte_of_N (0x80 + (cp / 64) mod 64);
          byte_of_N (0x80 + cp mod 64)]
  else if (cp <? 0x110000)%N then
    Some [byte_of_N (0xF0 + cp / 262144); byte_of_N (0x80 + (cp / 4096) mod 64);
          byte_of_N (0x80 + (cp / 64) mod 64); byte_of_N (0x80 + cp mod 64)]
  else None.

(** [s.encode("utf-8")]: strict, a surrogate raises [UnicodeEncodeError]. *)
Fixpoint utf8_encode (s : pystr) : outcome (list byte) :=
  match s with
  | [] => Returns []
  | cp :: s' =>
      match encode_codepoint cp with
      | None => Raises (Exn UnicodeEncodeError (lit "surrogates not allowed"))
      | Some bs =>
          match utf8_encode s' with
          | Returns rest => Returns (bs ++ rest)
          | Raises e => Raises e
          end
      end
  end.

Definition is_cont (b : byte) : bool :=
  ((0x80 <=? Byte.to_N b) && (Byte.to_N b <? 0xC0))%N.

Definition cont_bits (b : byte) : N := (Byte.to_N b - 0x80)%N.

Definition decode_error : exn :=
  Exn UnicodeDecodeError (lit "invalid utf-8").

(** One more decoded code point in front of the rest, if the rest decodes. *)
Definition emit (cp : N) (rest : outcome pystr) : outcome pystr :=
  match rest with
  | Returns s => Returns (cp :: s)
  | Raises e => Raises e
  end.

(** [b.decode("utf-8")]: strict (no overlong forms, no surrogates, nothing
    above U+10FFFF). *)
Fixpoint utf8_decode (bs : list byte) : outcome pystr :=
  match bs with
  | [] => Returns []
  | b0 :: r0 =>
      let n0 := Byte.to_N b0 in
      if (n0 <? 0x80)%N then emit n0 (utf8_decode r0)
      else if (n0 <? 0xC0)%N then Raises decode_error
      else
        match r0 with
        | [] => Raises decode_error
        | b1 :: r1 =>
            if negb (is_cont b1) then Raises decode_error
            else if (n0 <? 0xE0)%N then
              let cp := ((n0 - 0xC0) * 64 + cont_bits b1)%N in
              if (cp <? 0x80)%N then Raises decode_error
              else emit cp (utf8_decode r1)
            else
              match r1 with
              | [] => Raises decode_error
              | b2 :: r2 =>
                  if negb (is_cont b2) then Raises decode_error
                  else if (n0 <? 0xF0)%N then
                    let cp := ((n0 - 0xE0) * 4096 + cont_bits b1 * 64
                               + cont_bits b2)%N in
                    if ((cp <? 0x800) || ((0xD800 <=? cp) && (cp <=? 0xDFFF)))%N
                    then Raises decode_error
                    else emit cp (utf8_decode r2)
                  else
                    match r2 with
                    | [] => Raises decode_error
                    | b3 :: r3 =>
                        if negb (is_cont b3) then Raises decode_error
                        else if (n0 <? 0xF8)%N then
                          let cp := ((n0 - 0xF0) * 262144 + cont_bits b1 * 4096
                                     + cont_bits b2 * 64 + cont_bits b3)%N in
                          if ((cp <? 0x10000) || (0x110000 <=? cp))%N
                          then Raises decode_error
                          else emit cp (utf8_decode r3)
                        else Raises decode_error
                    end
              end
        end
  end.

(** ** [hashlib.sha256] (FIPS 180-4) *)

Module SHA256.

Local Open Scope Z_scope.

Definition add32 (x y : Z) : Z := (x + y) mod 2 ^ 32.

Definition rotr (n x : Z) : Z :=
  (Z.lor (Z.shiftr x n) (Z.shiftl x (32 - n))) mod 2 ^ 32.

Definition Ch (x y z : Z) : Z :=
  Z.lxor (Z.land x y) (Z.land (Z.lnot x) z).

Definition Maj (x y z : Z) : Z :=
  Z.lxor (Z.lxor (Z.land x y) (Z.land x z)) (Z.land y z).

Definition Sigma0 (x : Z) : Z := Z.lxor (Z.lxor (rotr 2 x) (rotr 13 x)) (rotr 22 x).
Definition Sigma1 (x : Z) : Z := Z.lxor (Z.lxor (rotr 6 x) (rotr 11 x)) (rotr 25 x).
Definition sigma0 (x : Z) : Z := Z.lxor (Z.lxor (rotr 7 x) (rotr 18 x)) (Z.shiftr x 3).
Definition sigma1 (x : Z) : Z := Z.lxor (Z.lxor (rotr 17 x) (rotr 19 x)) (Z.shiftr x 10).

(** The first 64 primes. *)
Definition primes : list Z :=
  [2; 3; 5; 7; 11; 13; 17; 19; 23; 29; 31; 37; 41; 43; 47; 53; 59; 61; 67; 71;
   73; 79; 83; 89; 97; 101; 103; 107; 109; 113; 127; 131; 137; 139; 149; 151;
   157; 163; 167; 173; 179; 181; 191; 193; 197; 199; 211; 223; 227; 229; 233;
   239; 241; 251; 257; 263; 269; 271; 277; 281; 283; 293; 307; 311].

(** The integer cube root of [x], found bit by bit from bit [n - 1] down. *)
Fixpoint cube_root (n : nat) (x r : Z) : Z :=
  match n with
  | O => r
  | S n' =>
      let c := r + 2 ^ Z.of_nat n' in
      if c * c * c <=? x then cube_root n' x c else cube_root n' x r
  end.

(** The round constants: the first 32 bits of the fractional parts of the
    cube roots of the first 64 primes. *)
Definition K : list Z :=
  map (fun q => cube_root 40 (q * 2 ^ 96) 0 mod 2 ^ 32) primes.

(** The eight working variables / chaining values. *)
Record state : Type := State { ha : Z; hb : Z; hc : Z; hd : Z; he : Z; hf : Z; hg : Z; hh : Z }.

(** The first 32 bits of the fractional part of the square root of [q]. *)
Definition sqrt_frac (q : Z) : Z := Z.sqrt (q * 2 ^ 64) mod 2 ^ 32.

(** The initial hash value, from the first eight primes. *)
Definition H0 : state :=
  State (sqrt_frac 2) (sqrt_frac 3) (sqrt_frac 5) (sqrt_frac 7)
        (sqrt_frac 11) (sqrt_frac 13) (sqrt_frac 17) (sqrt_frac 19).

Definition be64 (n : Z) : list Z :=
  map (fun i => (n / 2 ^ (8 * i)) mod 256) [7; 6; 5; 4; 3; 2; 1; 0].

(** Padding: a 1 bit, zeros up to 56 mod 64, the bit length on 64 bits. *)
Definition pad (msg : list Z) : list Z :=
  let len := Z.of_nat (length msg) in
  msg ++ [0x80] ++ repeat 0 (Z.to_nat ((55 - len) mod 64)) ++ be64 (8 * len).

Fixpoint words (fuel : nat) (bs : list Z) : list Z :=
  match fuel, bs with
  | S fuel', b0 :: b1 :: b2 :: b3 :: rest =>
      (b0 * 2 ^ 24 + b1 * 2 ^ 16 + b2 * 2 ^ 8 + b3) :: words fuel' rest
  | _, _ => []
  end.

(** The message schedule: 16 block words extended to 64. *)
Fixpoint schedule (n : nat) (w : list Z) : list Z :=
  match n with
  | O => w
  | S n' =>
      let t := length w in
      let wt := add32 (add32 (sigma1 (nth (t - 2) w 0)) (nth (t - 7) w 0))
                      (add32 (sigma0 (nth (t - 15) w 0)) (nth (t - 16) w 0)) in
      schedule n' (w ++ [wt])
  end.

Definition round (s : state) (kw : Z * Z) : state :=
  let T1 := add32 (add32 (add32 (hh s) (Sigma1 (he s)))
                         (add32 (Ch (he s) (hf s) (hg s)) (fst kw))) (snd kw) in
  let T2 := add32 (Sigma0 (ha s)) (Maj (ha s) (hb s) (hc s)) in
  State (add32 T1 T2) (ha s) (hb s) (hc s) (add32 (hd s) T1) (he s) (hf s) (hg s).

Definition compress (h : state) (block : list Z) : state :=
  let w := schedule 48 (words 16 block) in
  let s := fold_left round (combine K w) h in
  State (add32 (ha h) (ha s)) (add32 (hb h) (hb s)) (add32 (hc h) (hc s))
        (add32 (hd h) (hd s)) (add32 (he h) (he s)) (add32 (hf h) (hf s))
        (add32 (hg h) (hg s)) (add32 (hh h) (hh s)).

Fixpoint blocks (fuel : nat) (bs : list Z) : list (list Z) :=
  match fuel, bs with
  | S fuel', _ :: _ => firstn 64 bs :: blocks fuel' (skipn 64 bs)
  | _, _ => []
  end.

Definition digest_state (msg : list byte) : state :=
  let padded := pad (map (fun b => Z.of_N (Byte.to_N b)) msg) in
  fold_left compress (blocks (length padded) padded) H0.

Definition hex_digit (n : Z) : N :=
  if n <? 10 then Z.to_N (48 + n) else Z.to_N (87 + n).

Definition hex_word (w : Z) : pystr :=
  [hex_digit ((w / 2 ^ 28) mod 16); hex_digit ((w / 2 ^ 24) mod 16);
   hex_digit ((w / 2 ^ 20) mod 16); hex_digit ((w / 2 ^ 16) mod 16);
   hex_digit ((w / 2 ^ 12) mod 16); hex_digit ((w / 2 ^ 8) mod 16);
   hex_digit ((w / 2 ^ 4) mod 16); hex_digit (w mod 16)].

(** [hashlib.sha256(msg).hexdigest()]. *)
Definition hexdigest (msg : list byte) : pystr :=
  let s := digest_state msg in
  hex_word (ha s) ++ hex_word (hb s) ++ hex_word (hc s) ++ hex_word (hd s) ++
  hex_word (he s) ++ hex_word (hf s) ++ hex_word (hg s) ++ hex_word (hh s).

End SHA256.

(** ** handlers/transform_handler.py *)

Module TransformPythonHandler.

(** [_sha256(text)]. *)
Definition _sha256 (text : pystr) : outcome pydict :=
  match utf8_encode text with
  | Raises e => Raises e
  | Returns bytes =>
      let digest := SHA256.hexdigest bytes in
      Returns [(lit "hash", PyStr digest);
               (lit "algorithm", PyStr (lit "SHA-256"));
               (lit "inputLength", PyInt (Z.of_nat (length text)))]
  end.

(** [_json_flatten(data, prefix)] returns this [dict] around its [items]. *)
Definition flatten_result (items : pydict) : pydict :=
  [(lit "flattened", PyDict items); (lit "keyCount", PyInt (dict_len items))].

(** [f"{new_key}[{i}]"]. *)
Definition index_key (new_key : pystr) (i : nat) : pystr :=
  new_key ++ lit "[" ++ str_of_N (N.of_nat i) ++ lit "]".

(** [f"{prefix}.{k}" if prefix else k]. *)
Definition join_key (prefix k : pystr) : pystr :=
  match prefix with
  | [] => k
  | _ => prefix ++ lit "." ++ k
  end.

(** The body of [_json_flatten], by recursion on the nested value.  [items]
    is the local accumulator; each recursive call returns the whole result
    [dict] ([flatten_result]), which the caller hands to [items.update]. *)
Fixpoint _json_flatten_rec (data : pyval) (prefix : pystr) {struct data} : pydict :=
  match data with
  | PyDict entries =>
      flatten_result
        ((fix each_entry (entries : pydict) (items : pydict) {struct entries} : pydict :=
            match entries with
            | [] => items
            | (k, v) :: rest =>
                let new_key := join_key prefix k in
                each_entry rest
                  match v with
                  | PyDict _ => dict_update items (_json_flatten_rec v new_key)
                  | PyList l =>
                      (fix each_elem (l : list pyval) (i : nat) (items : pydict)
                           {struct l} : pydict :=
                         match l with
                         | [] => items
                         | item :: l' =>
                             each_elem l' (S i)
                               match item with
                               | PyDict _ =>
                                   dict_update items
                                     (_json_flatten_rec item (index_key new_key i))
                               | _ => dict_set (index_key new_key i) item items
                               end
                         end) l O items
                  | _ => dict_set new_key v items
                  end
            end) entries [])
  | _ => []
  end.

(** [_json_flatten(data, prefix="")] on a [dict]. *)
Definition _json_flatten (data : pydict) (prefix : pystr) : pydict :=
  _json_flatten_rec (PyDict data) prefix.

End TransformPythonHandler.

(** ** Library functions left to the Python runtime *)

(** The [json] module, [repr] of containers and [traceback.format_exc] are
    not code of this repository: the dispatch code is embedded over any
    runtime that provides them. *)
Class PyRuntime : Type := {
  (** [json.loads(s)] for a [str] [s]; failure is [JSONDecodeError]. *)
  json_loads_str : pystr -> outcome pyval;
  (** [json.dumps(v)]; failure is [TypeError] (an object that is not
      serializable). *)
  json_dumps : pyval -> outcome pystr;
  (** [str(v)] of a list, dict, float or other object. *)
  repr_other : pyval -> pystr;
  (** [traceback.format_exc()] while the exception is being handled. *)
  format_exc : exn -> pystr;
  (** [round((time.time() - start_time) * 1000, 2)]: a reading of the clock. *)
  elapsed_ms : pyval
}.

Section Builtins.
Context {rt : PyRuntime}.

(** [json.loads(v)]: anything that is not [str], [bytes] or [bytearray] is a
    [TypeError]. *)
Definition json_loads (v : pyval) : outcome pyval :=
  match v with
  | PyStr s => json_loads_str s
  | _ =>
      Raises (Exn TypeError
                (lit "the JSON object must be str, bytes or bytearray"))
  end.

(** [str(v)], also what an f-string field [{v}] formats to. *)
Definition py_str (v : pyval) : pystr :=
  match v with
  | PyNone => lit "None"
  | PyBool true => lit "True"
  | PyBool false => lit "False"
  | PyInt z => str_of_Z z
  | PyStr s => s
  | _ => repr_other v
  end.

End Builtins.

(** ** [struct.pack(">I", n)] and [struct.unpack(">I", b)] *)

Definition byte_val (b : byte) : Z := Z.of_N (Byte.to_N b).

Definition pack_I (n : Z) : outcome (list byte) :=
  if ((0 <=? n) && (n <? 2 ^ 32))%Z then
    Returns [byte_of_N (Z.to_N (n / 2 ^ 24));
             byte_of_N (Z.to_N ((n / 2 ^ 16) mod 256));
             byte_of_N (Z.to_N ((n / 2 ^ 8) mod 256));
             byte_of_N (Z.to_N (n mod 256))]
  else Raises (Exn StructError (lit "argument out of range")).

Definition unpack_I (bs : list byte) : outcome Z :=
  match bs with
  | [b0; b1; b2; b3] =>
      Returns (byte_val b0 * 2 ^ 24 + byte_val b1 * 2 ^ 16
               + byte_val b2 * 2 ^ 8 + byte_val b3)%Z
  | _ => Raises (Exn StructError (lit "unpack requires a buffer of 4 bytes"))
  end.

(** ** A connected socket *)

(** What the transport does with one [sendall]: it takes the whole
    buffer, or [sendall] raises (an [OSError]) after the transport took only
    the first [taken] bytes, fewer than the buffer holds. *)
Inductive delivery : Type :=
| Delivered
| Broken (taken : nat) (e : exn).

(** The bytes still to arrive, as the segments in which the transport
    delivers them ([[]]: the peer has closed); the buffer sizes asked of
    [recv] so far; what went out at each [sendall]; whether [close] was
    called; what the transport does with the next calls of [sendall] (once
    the list is used up it takes every buffer). *)
Record socket : Type := Socket {
  incoming : list (list byte);
  recv_log : list Z;
  sent : list (list byte);
  closed : bool;
  deliveries : list delivery
}.

(** [conn.recv(bufsize)]: at most [bufsize] bytes of the next segment;
    [b""] once the peer has closed. *)
Definition recv (bufsize : Z) (conn : socket) : list byte * socket :=
  match incoming conn with
  | [] =>
      ([], Socket [] (recv_log conn ++ [bufsize]) (sent conn) (closed conn)
                  (deliveries conn))
  | seg :: rest =>
      let n := Z.to_nat bufsize in
      (firstn n seg,
       Socket (match skipn n seg with [] => rest | more => more :: rest end)
              (recv_log conn ++ [bufsize]) (sent conn) (closed conn)
              (deliveries conn))
  end.

(** [conn.sendall(data)]: all of [data] goes out, or the call raises after
    part of it went out. *)
Definition sendall (data : list byte) (conn : socket) : outcome unit * socket :=
  match deliveries conn with
  | Broken taken e :: later =>
      (Raises e,
       Socket (incoming conn) (recv_log conn)
              (sent conn ++ [firstn (Nat.min taken (Nat.pred (length data))) data])
              (closed conn) later)
  | fate =>
      (Returns tt,
       Socket (incoming conn) (recv_log conn) (sent conn ++ [data]) (closed conn)
              (tl fate))
  end.

(** [conn.close()]. *)
Definition close (conn : socket) : socket :=
  Socket (incoming conn) (recv_log conn) (sent conn) true (deliveries conn).

Definition len (bs : list byte) : Z := Z.of_nat (length bs).

(* ------------------------------------------------------------------ *)
(** ** dgfacade_worker.py *)

Module Worker.

(** A handler class under the [DGHandlerBase] contract.  An instance's
    attributes are one value [self]; each method returns or raises and
    leaves the attributes in a new state. *)
Record handler_class : Type := HandlerClass {
  (** [cls()] *)
  new : outcome pyval;
  (** [construct(self, config)] *)
  construct : pyval -> pyval -> outcome unit * pyval;
  (** [execute(self, request, app_properties)] *)
  execute : pyval -> pyval -> pyval -> outcome pyval * pyval;
  (** [cleanup(self)] *)
  cleanup : pyval -> outcome unit * pyval
}.

(** [DGHandlerBase]: [construct] stores [config or {}] in the instance,
    [execute] must be overridden, [cleanup] does nothing. *)
Definition DGHandlerBase : handler_class :=
  HandlerClass
    (Returns (PyDict []))
    (fun config self =>
       (Returns tt,
        PyDict (dict_set (lit "config")
                         (if py_truthy config then config else PyDict [])
                         (match self with PyDict attrs => attrs | _ => [] end))))
    (fun _ _ self =>
       (Raises (Exn NotImplementedError (lit "Handler must implement execute()")),
        self))
    (fun self => (Returns tt, self)).

(** A live handler instance: its class and its attributes. *)
Record instance : Type := Instance { cls : handler_class; self : pyval }.

(** Method calls the worker makes on handler instances, by cache key. *)
Inductive call : Type :=
| CallConstruct (key : pystr)
| CallExecute (key : pystr)
| CallCleanup (key : pystr).

(** The process: the module-level handler cache and the calls made so far. *)
Record process : Type := Process {
  _handler_cache : list (pystr * instance);
  calls : list call
}.

(** What the process was started with. *)
Record environment : Type := Environment {
  (** the global set from [--worker-id] *)
  WORKER_ID : Z;
  (** the global loaded from [DGFACADE_PROPERTIES] *)
  APP_PROPERTIES : pyval;
  (** [datetime.now(timezone.utc).isoformat()] *)
  utc_now_isoformat : pystr;
  (** [getattr(importlib.import_module(module_name), class_name)] *)
  import_attr : pyval -> pyval -> outcome handler_class
}.

Fixpoint cache_get (key : pystr) (c : list (pystr * instance)) : option instance :=
  match c with
  | [] => None
  | (k, i) :: c' => if str_eqb key k then Some i else cache_get key c'
  end.

Fixpoint cache_set (key : pystr) (i : instance) (c : list (pystr * instance))
  : list (pystr * instance) :=
  match c with
  | [] => [(key, i)]
  | (k, i') :: c' =>
      if str_eqb key k then (k, i) :: c' else (k, i') :: cache_set key i c'
  end.

Section Dispatch.
Context {rt : PyRuntime} (env : environment).

(** [get_handler_instance(module_name, class_name)]; the instance is
    returned by reference, here its cache key. *)
Definition get_handler_instance (module_name class_name : pyval) (p : process)
  : outcome pystr * process :=
  let cache_key := py_str module_name ++ lit "." ++ py_str class_name in
  match cache_get cache_key (_handler_cache p) with
  | Some _ => (Returns cache_key, p)
  | None =>
      let wrap (e : exn) :=
        Exn ImportError
            (lit "Cannot load handler " ++ cache_key ++ lit ": " ++ exn_msg e) in
      match import_attr env module_name class_name with
      | Raises e => (Raises (wrap e), p)
      | Returns c =>
          match new c with
          | Raises e => (Raises (wrap e), p)
          | Returns attrs =>
              (Returns cache_key,
               Process (cache_set cache_key (Instance c attrs) (_handler_cache p))
                       (calls p))
          end
      end
  end.

(** A method call on the instance cached under [key]: the call is recorded,
    the method runs on the instance's attributes and leaves them updated. *)
Definition invoke {A : Type} (key : pystr) (what : call)
    (method : handler_class -> pyval -> outcome A * pyval) (p : process)
  : outcome A * process :=
  match cache_get key (_handler_cache p) with
  | None =>
      (Raises (Exn AttributeError (lit "no such instance")), p)
  | Some i =>
      let (r, attrs) := method (cls i) (self i) in
      (r, Process (cache_set key (Instance (cls i) attrs) (_handler_cache p))
                  (calls p ++ [what]))
  end.

(** Lines 147-153: "Ensure result is a proper dict". *)
Definition ensure_proper_dict (result : pyval) : pydict :=
  let result :=
    match result with
    | PyDict d => d
    | _ =>
        [(lit "status", PyStr (lit "SUCCESS"));
         (lit "data", PyDict [(lit "result", PyStr (py_str result))])]
    end in
  let result :=
    if negb (dict_mem (lit "status") result)
    then dict_set (lit "status") (PyStr (lit "SUCCESS")) result
    else result in
  if negb (dict_mem (lit "data") result)
     && eq_str (dict_get_default (lit "status") PyNone result) (lit "SUCCESS")
  then dict_set (lit "data") (PyDict []) result
  else result.

(** The [except Exception as e] response of [handle_execute]. *)
Definition failed_response (handler_module handler_class : pyval) (e : exn) : pydict :=
  [(lit "status", PyStr (lit "ERROR"));
   (lit "error_message",
    PyStr (lit "Python handler " ++ py_str handler_module ++ lit "."
           ++ py_str handler_class ++ lit " failed: " ++ exn_msg e));
   (lit "traceback", PyStr (format_exc e))].

(** [handle_execute(data)]. *)
Definition handle_execute (data : pydict) (p : process) : outcome pydict * process :=
  let handler_module := dict_get_default (lit "handler_module") (PyStr []) data in
  let handler_class := dict_get_default (lit "handler_class") (PyStr []) data in
  let request_json := dict_get_default (lit "request_json") (PyStr (lit "{}")) data in
  let config_json := dict_get_default (lit "config_json") (PyStr (lit "{}")) data in
  let invalid (e : exn) : outcome pydict :=
    (* [except json.JSONDecodeError as e] *)
    if is_class JSONDecodeError e then
      Returns [(lit "status", PyStr (lit "ERROR"));
               (lit "error_message", PyStr (lit "Invalid JSON input: " ++ exn_msg e))]
    else Raises e in
  match json_loads request_json with
  | Raises e => (invalid e, p)
  | Returns request =>
      match json_loads config_json with
      | Raises e => (invalid e, p)
      | Returns config =>
          (* [try:] *)
          match get_handler_instance handler_module handler_class p with
          | (Raises e, p1) =>
              (* [except Exception as e]; in [finally], [handler] is unbound:
                 [handler.cleanup()] raises [UnboundLocalError], which the
                 inner [except Exception: pass] swallows. *)
              (Returns (failed_response handler_module handler_class e), p1)
          | (Returns handler, p1) =>
              let (response, p3) :=
                match invoke handler (CallConstruct handler)
                             (fun c => construct c config) p1 with
                | (Raises e, p2) =>
                    (failed_response handler_module handler_class e, p2)
                | (Returns _, p2) =>
                    match invoke handler (CallExecute handler)
                                 (fun c => execute c request (APP_PROPERTIES env)) p2 with
                    | (Raises e, p3) =>
                        (failed_response handler_module handler_class e, p3)
                    | (Returns result, p3) => (ensure_proper_dict result, p3)
                    end
                end in
              (* [finally: try: handler.cleanup() except Exception: pass] *)
              let (_, p4) := invoke handler (CallCleanup handler) cleanup p3 in
              (Returns response, p4)
          end
      end
  end.

(** [handle_request(data)]. *)
Definition handle_request (data : pyval) (p : process) : outcome pydict * process :=
  match data with
  | PyDict d =>
      let command := dict_get_default (lit "command") (PyStr []) d in
      if eq_str command (lit "ping") then
        (Returns [(lit "status", PyStr (lit "pong"));
                  (lit "timestamp", PyStr (utc_now_isoformat env));
                  (lit "worker_id", PyInt (WORKER_ID env))], p)
      else if eq_str command (lit "execute") then handle_execute d p
      else if eq_str command (lit "shutdown") then
        (Returns [(lit "status", PyStr (lit "shutdown_ack"))], p)
      else
        (Returns [(lit "status", PyStr (lit "ERROR"));
                  (lit "error_message",
                   PyStr (lit "Unknown command: " ++ py_str command))], p)
  | _ =>
      (* [data.get] on a value that is not a [dict] *)
      (Raises (Exn AttributeError (lit "object has no attribute 'get'")), p)
  end.

(** The [while remaining > 0] loop of [read_message]. *)
Inductive received : Type :=
| Complete (chunks : list (list byte))
| PeerClosed
| OutOfFuel.

Fixpoint recv_loop (fuel : nat) (remaining : Z) (chunks : list (list byte))
    (conn : socket) : received * socket :=
  if (remaining >? 0)%Z then
    match fuel with
    | O => (OutOfFuel, conn)
    | S fuel' =>
        let (chunk, conn') := recv (Z.min remaining 65536) conn in
        match chunk with
        | [] => (PeerClosed, conn')
        | _ => recv_loop fuel' (remaining - len chunk) (chunks ++ [chunk]) conn'
        end
    end
  else (Complete chunks, conn).

(** [read_message(conn)]; Python's [None] is [PyNone].  The loop runs at
    most [msg_len] times, each turn receiving at least one byte. *)
Definition read_message (conn : socket) : outcome pyval * socket :=
  let (raw_len, conn1) := recv 4 conn in
  if (len raw_len <? 4)%Z then (Returns PyNone, conn1)
  else
    match unpack_I raw_len with
    | Raises e => (Raises e, conn1)
    | Returns msg_len =>
        if ((msg_len <=? 0) || (msg_len >? 50 * 1024 * 1024))%Z
        then (Returns PyNone, conn1)
        else
          match recv_loop (Z.to_nat msg_len) msg_len [] conn1 with
          | (Complete chunks, conn2) =>
              match utf8_decode (concat chunks) with
              | Raises e => (Raises e, conn2)
              | Returns text => (json_loads_str text, conn2)
              end
          | (_, conn2) => (Returns PyNone, conn2)
          end
    end.

(** [write_message(conn, data)]. *)
Definition write_message (conn : socket) (data : pyval) : outcome unit * socket :=
  match json_dumps data with
  | Raises e => (Raises e, conn)
  | Returns text =>
      match utf8_encode text with
      | Raises e => (Raises e, conn)
      | Returns payload =>
          match pack_I (len payload) with
          | Raises e => (Raises e, conn)
          | Returns prefix => sendall (prefix ++ payload) conn
          end
      end
  end.

(** [handle_connection(conn, addr)]: the returned [bool] is whether the
    server keeps running. *)
Definition handle_connection (conn : socket) (p : process) : bool * socket * process :=
  let failed (e : exn) (conn : socket) (p : process) :=
    (* [except Exception as e] *)
    let (_, conn') :=
      write_message conn
        (PyDict [(lit "status", PyStr (lit "ERROR"));
                 (lit "error_message", PyStr (exn_msg e))]) in
    (true, conn', p) in
  let '(keep_running, conn', p') :=
    match read_message conn with
    | (Raises e, conn1) => failed e conn1 p
    | (Returns PyNone, conn1) => (true, conn1, p)
    | (Returns data, conn1) =>
        match handle_request data p with
        | (Raises e, p1) => failed e conn1 p1
        | (Returns response, p1) =>
            match write_message conn1 (PyDict response) with
            | (Raises e, conn2) => failed e conn2 p1
            | (Returns _, conn2) =>
                match py_get data (lit "command") PyNone with
                | Raises e => failed e conn2 p1
                | Returns command =>
                    if eq_str command (lit "shutdown")
                    then (false, conn2, p1)
                    else (true, conn2, p1)
                end
            end
        end
    end in
  (* [finally: conn.close()] *)
  (keep_running, close conn', p').

End Dispatch.

End Worker.

(* ------------------------------------------------------------------ *)
(** ** dg_handler.py *)

Module DGHandler.

Inductive HandlerStatus : Type :=
| CREATED | STARTING | READY | EXECUTING | STOPPING | STOPPED | FAILED.

(** A handler instance: the three attributes [DGHandler.__init__] sets,
    and whatever else a subclass keeps ([fields]). *)
Record instance : Type := Instance {
  _status : HandlerStatus;
  _request : pyval;
  _app_properties : pyval;
  fields : pyval
}.

Definition set_status (s : HandlerStatus) (self : instance) : instance :=
  Instance s (_request self) (_app_properties self) (fields self).

Definition set_request (r : pyval) (self : instance) : instance :=
  Instance (_status self) r (_app_properties self) (fields self).

Definition set_app_properties (a : pyval) (self : instance) : instance :=
  Instance (_status self) (_request self) a (fields self).

(** [DGHandler.__init__(self)]. *)
Definition __init__ : instance := Instance CREATED PyNone PyNone PyNone.

(** A concrete subclass of [DGHandler].  A method is a function of the
    instance that returns or raises and leaves the instance in a new state;
    [None] for [start], [execute] or [stop] means the subclass inherits
    [DGHandler]'s. *)
Record handler_class : Type := HandlerClass {
  (** [cls()] *)
  new : outcome instance;
  get_request_type : instance -> outcome pyval * instance;
  (** [compute(self, request)] *)
  compute : pyval -> instance -> outcome pyval * instance;
  start_override : option (pyval -> instance -> outcome unit * instance);
  execute_override : option (instance -> outcome pyval * instance);
  stop_override : option (pyval -> instance -> outcome unit * instance)
}.

(** [DGHandler.start(self, request)]. *)
Definition start (request : pyval) (self : instance) : outcome unit * instance :=
  let self := set_status STARTING self in
  let self := set_request request self in
  (Returns tt, set_status READY self).

(** [DGHandler.stop(self, response)]. *)
Definition stop (response : pyval) (self : instance) : outcome unit * instance :=
  (Returns tt, set_status STOPPED self).

Section Execute.
Context {rt : PyRuntime}.

(** [DGHandler.execute(self)] of an instance of class [c]. *)
Definition execute (c : handler_class) (self : instance) : outcome pyval * instance :=
  let self := set_status EXECUTING self in
  let on_exception (e : exn) (self : instance) : outcome pyval * instance :=
    (* [except Exception as e] *)
    let self := set_status FAILED self in
    match py_get (_request self) (lit "requestId") (PyStr (lit "unknown")) with
    | Raises e' => (Raises e', self)
    | Returns request_id =>
        match get_request_type c self with
        | (Raises e', self') => (Raises e', self')
        | (Returns handler_type, self') =>
            (Returns (PyDict
               [(lit "status", PyStr (lit "ERROR"));
                (lit "requestId", request_id);
                (lit "handlerType", handler_type);
                (lit "errorCode", PyStr (class_name (exn_class e)));
                (lit "errorMessage", PyStr (exn_msg e));
                (lit "stackTrace", PyStr (format_exc e));
                (lit "executionTimeMs", elapsed_ms)]), self')
        end
    end in
  match compute c (_request self) self with
  | (Raises e, self1) => on_exception e self1
  | (Returns result, self1) =>
      match py_get (_request self1) (lit "requestId") (PyStr (lit "unknown")) with
      | Raises e => on_exception e self1
      | Returns request_id =>
          match get_request_type c self1 with
          | (Raises e, self2) => on_exception e self2
          | (Returns handler_type, self2) =>
              (Returns (PyDict
                 [(lit "status", PyStr (lit "SUCCESS"));
                  (lit "requestId", request_id);
                  (lit "handlerType", handler_type);
                  (lit "result", result);
                  (lit "executionTimeMs", elapsed_ms)]),
               set_status STOPPED self2)
          end
      end
  end.

(** Method resolution on an instance of class [c]. *)
Definition call_start (c : handler_class) : pyval -> instance -> outcome unit * instance :=
  match start_override c with Some m => m | None => start end.

Definition call_execute (c : handler_class) : instance -> outcome pyval * instance :=
  match execute_override c with Some m => m | None => execute c end.

Definition call_stop (c : handler_class) : pyval -> instance -> outcome unit * instance :=
  match stop_override c with Some m => m | None => stop end.

(** The [app_properties] property and [get_property(key, default)]. *)
Definition get_property (key : pystr) (default : pyval) (self : instance) : outcome pyval :=
  py_get (if py_truthy (_app_properties self) then _app_properties self else PyDict [])
         key default.

End Execute.

End DGHandler.

(* ------------------------------------------------------------------ *)
(** ** handlers/echo_handler.py *)

Module EchoPythonHandler.

(** What [platform], [os] and [datetime] answer in the worker process. *)
Record host : Type := Host {
  python_version : pystr;
  platform : pystr;
  DG_WORKER_ID : option pystr;
  getpid : Z;
  utc_now_isoformat : pystr
}.

Section Echo.
Context {rt : PyRuntime} (h : host).

Definition get_request_type (self : DGHandler.instance)
  : outcome pyval * DGHandler.instance :=
  (Returns (PyStr (lit "PYTHON_ECHO")), self).

Definition compute (request : pyval) (self : DGHandler.instance)
  : outcome pyval * DGHandler.instance :=
  match py_get request (lit "payload") (PyDict []) with
  | Raises e => (Raises e, self)
  | Returns payload =>
      match py_get request (lit "requestId") (PyStr (lit "unknown")) with
      | Raises e => (Raises e, self)
      | Returns request_id =>
          match py_get request (lit "correlationId") PyNone with
          | Raises e => (Raises e, self)
          | Returns correlation_id =>
              match DGHandler.get_property (lit "dgfacade.app-name")
                      (PyStr (lit "DGFacade")) self with
              | Raises e => (Raises e, self)
              | Returns app_name =>
                  match DGHandler.get_property (lit "dgfacade.version")
                          (PyStr (lit "unknown")) self with
                  | Raises e => (Raises e, self)
                  | Returns version =>
                      (Returns (PyDict
                         [(lit "echo", payload);
                          (lit "source", PyStr (lit "PYTHON_PY4J"));
                          (lit "pythonVersion", PyStr (python_version h));
                          (lit "platform", PyStr (platform h));
                          (lit "workerId",
                           PyStr (match DG_WORKER_ID h with
                                  | Some w => w
                                  | None => lit "unknown"
                                  end));
                          (lit "pid", PyInt (getpid h));
                          (lit "timestamp", PyStr (utc_now_isoformat h));
                          (lit "requestId", request_id);
                          (lit "correlationId", correlation_id);
                          (lit "appName", app_name);
                          (lit "version", version)]), self)
                  end
              end
          end
      end
  end.

(** The class: [start], [execute] and [stop] are inherited. *)
Definition class : DGHandler.handler_class :=
  DGHandler.HandlerClass (Returns DGHandler.__init__) get_request_type compute
                         None None None.

End Echo.

End EchoPythonHandler.

(* ------------------------------------------------------------------ *)
(** ** dg_gateway.py *)

Module DGPythonDelegate.

(** The lifecycle calls the delegate makes on handler instances. *)
Inductive call : Type := CallStart | CallExecute | CallStop.

(** The delegate object, and the lifecycle calls it has made so far. *)
Record delegate : Type := Delegate {
  _handler_cache : list (pystr * DGHandler.handler_class);
  _requests_handled : Z;
  _errors : Z;
  calls : list call
}.

Definition record_call (what : call) (d : delegate) : delegate :=
  Delegate (_handler_cache d) (_requests_handled d) (_errors d) (calls d ++ [what]).

Fixpoint cache_get (key : pystr) (c : list (pystr * DGHandler.handler_class))
  : option DGHandler.handler_class :=
  match c with
  | [] => None
  | (k, x) :: c' => if str_eqb key k then Some x else cache_get key c'
  end.

Fixpoint cache_set (key : pystr) (x : DGHandler.handler_class)
    (c : list (pystr * DGHandler.handler_class))
  : list (pystr * DGHandler.handler_class) :=
  match c with
  | [] => [(key, x)]
  | (k, x') :: c' =>
      if str_eqb key k then (k, x) :: c' else (k, x') :: cache_set key x c'
  end.

(** [s.rsplit(".", 1)] when it has two parts: [s] cut at its last dot. *)
Fixpoint rsplit_dot (s : pystr) : option (pystr * pystr) :=
  match s with
  | [] => None
  | c :: s' =>
      match rsplit_dot s' with
      | Some (a, b) => Some (c :: a, b)
      | None => if (c =? 46)%N then Some ([], s') else None
      end
  end.

Section Delegate.
Context {rt : PyRuntime}.
(** [getattr(importlib.import_module(module_path), class_name)]. *)
Variable import_attr : pystr -> pystr -> outcome DGHandler.handler_class.

(** [_load_class(fully_qualified_name)]. *)
Definition _load_class (fully_qualified_name : pystr) (d : delegate)
  : outcome DGHandler.handler_class * delegate :=
  match cache_get fully_qualified_name (_handler_cache d) with
  | Some c => (Returns c, d)
  | None =>
      match rsplit_dot fully_qualified_name with
      | None =>
          (Raises (Exn ImportError
                     (lit "Invalid Python class name: '" ++ fully_qualified_name
                      ++ lit "'. Expected format: 'module.path.ClassName'")), d)
      | Some (module_path, class_name) =>
          match import_attr module_path class_name with
          | Raises e =>
              if is_class ModuleNotFoundError e then
                (Raises (Exn ImportError
                           (lit "Cannot find module '" ++ module_path ++ lit "': "
                            ++ exn_msg e
                            ++ lit ". Check PYTHONPATH includes the handler directory.")),
                 d)
              else if is_class AttributeError e then
                (Raises (Exn ImportError
                           (lit "Module '" ++ module_path ++ lit "' has no class '"
                            ++ class_name ++ lit "': " ++ exn_msg e)), d)
              else (Raises e, d)
          | Returns c =>
              (Returns c,
               Delegate (cache_set fully_qualified_name c (_handler_cache d))
                        (_requests_handled d) (_errors d) (calls d))
          end
      end
  end.

(** [json.loads(app_properties_json) if app_properties_json else {}]. *)
Definition load_app_props (app_properties_json : pystr) : outcome pyval :=
  match app_properties_json with
  | [] => Returns (PyDict [])
  | _ => json_loads_str app_properties_json
  end.

(** The local variables of [executeHandler] that its [except] block reads. *)
Record locals : Type := Locals {
  request_dict : option pyval;
  handler : option (DGHandler.handler_class * DGHandler.instance)
}.

(** One run of [executeHandler]: what it returns to the caller, the
    response [dict] given to the final [json.dumps], the handler instance as
    the run left it (if one was constructed), and the delegate afterwards. *)
Record run : Type := Run {
  returned : outcome pystr;
  response : option pydict;
  handler_instance : option DGHandler.instance;
  after : delegate
}.

(** The [except Exception as e] block of [executeHandler]. *)
Definition on_exception (python_class_name : pystr) (e : exn) (l : locals)
    (d : delegate) : run :=
  let d := Delegate (_handler_cache d) (_requests_handled d) (_errors d + 1) (calls d) in
  let error_response :=
    [(lit "status", PyStr (lit "ERROR"));
     (lit "requestId", PyStr (lit "unknown"));
     (lit "handlerType", PyStr python_class_name);
     (lit "errorCode", PyStr (class_name (exn_class e)));
     (lit "errorMessage", PyStr (exn_msg e));
     (lit "stackTrace", PyStr (format_exc e))] in
  (* [if 'request_dict' in dir(): ...], inside [try ... except Exception: pass] *)
  let error_response :=
    match request_dict l with
    | Some r =>
        match py_get r (lit "requestId") (PyStr (lit "unknown")) with
        | Returns request_id => dict_set (lit "requestId") request_id error_response
        | Raises _ => error_response
        end
    | None => error_response
    end in
  (* [if handler_instance is not None: try: stop(error_response) except ...] *)
  let '(inst, d) :=
    match handler l with
    | Some (c, self) =>
        let (_, self') := DGHandler.call_stop c (PyDict error_response) self in
        (Some self', record_call CallStop d)
    | None => (None, d)
    end in
  Run (json_dumps (PyDict error_response)) (Some error_response) inst d.

(** [executeHandler(python_class_name, dg_request_json, app_properties_json)]
    with everything a run leaves behind. *)
Definition executeHandler_run (python_class_name dg_request_json app_properties_json : pystr)
    (d : delegate) : run :=
  let failed := on_exception python_class_name in
  (* 1. Parse inputs *)
  match json_loads_str dg_request_json with
  | Raises e => failed e (Locals None None) d
  | Returns request_dict =>
      let l := Locals (Some request_dict) None in
      match load_app_props app_properties_json with
      | Raises e => failed e l d
      | Returns app_props =>
          match py_get request_dict (lit "requestType") (PyStr (lit "UNKNOWN")) with
          | Raises e => failed e l d
          | Returns _ =>
              match py_get request_dict (lit "requestId") (PyStr (lit "unknown")) with
              | Raises e => failed e l d
              | Returns _ =>
                  (* 2. Load and instantiate the handler class *)
                  match _load_class python_class_name d with
                  | (Raises e, d1) => failed e l d1
                  | (Returns c, d1) =>
                      match DGHandler.new c with
                      | Raises e => failed e l d1
                      | Returns self =>
                          (* 3. Inject app properties *)
                          let self := DGHandler.set_app_properties app_props self in
                          (* 4. Lifecycle: start *)
                          let (started, self) := DGHandler.call_start c request_dict self in
                          let d2 := record_call CallStart d1 in
                          match started with
                          | Raises e => failed e (Locals (Some request_dict) (Some (c, self))) d2
                          | Returns _ =>
                              (* 5. Lifecycle: execute *)
                              let (executed, self) := DGHandler.call_execute c self in
                              let d3 := record_call CallExecute d2 in
                              match executed with
                              | Raises e =>
                                  failed e (Locals (Some request_dict) (Some (c, self))) d3
                              | Returns response_dict =>
                                  (* 6. Lifecycle: stop *)
                                  let (stopped, self) :=
                                    DGHandler.call_stop c response_dict self in
                                  let d4 := record_call CallStop d3 in
                                  let l := Locals (Some request_dict) (Some (c, self)) in
                                  match stopped with
                                  | Raises e => failed e l d4
                                  | Returns _ =>
                                      let d5 :=
                                        Delegate (_handler_cache d4)
                                                 (_requests_handled d4 + 1)
                                                 (_errors d4) (calls d4) in
                                      match py_get response_dict (lit "status")
                                                   (PyStr (lit "?")) with
                                      | Raises e => failed e l d5
                                      | Returns _ =>
                                          match json_dumps response_dict with
                                          | Raises e => failed e l d5
                                          | Returns text =>
                                              Run (Returns text)
                                                  (match response_dict with
                                                   | PyDict r => Some r
                                                   | _ => None
                                                   end)
                                                  (Some self) d5
                                          end
                                      end
                                  end
                              end
                          end
                      end
                  end
              end
          end
      end
  end.

(** [executeHandler]: the returned value and the delegate afterwards. *)
Definition executeHandler (python_class_name dg_request_json app_properties_json : pystr)
    (d : delegate) : outcome pystr * delegate :=
  let r := executeHandler_run python_class_name dg_request_json app_properties_json d in
  (returned r, after r).

End Delegate.

End DGPythonDelegate.

(* ------------------------------------------------------------------ *)
(** ** handlers/transform_handler.py: the handler class *)

(** Text functions of the Python runtime that the transforms call:
    [str.upper], [str.lower], [str.isspace] (which [str.split()] cuts at)
    and [re.findall(r"\b\w+\b", s)] follow the Unicode database of the
    interpreter; [v[::-1]] on a [dict] or another object raises an exception
    whose class depends on the Python version. *)
Class TextRuntime : Type := {
  str_upper : pystr -> pystr;
  str_lower : pystr -> pystr;
  isspace : N -> bool;
  findall_words : pystr -> list pystr;
  slice_error : pyval -> exn
}.

Module Transform.

(** [needle in haystack], for a [str] needle. *)
Fixpoint starts_with (needle s : pystr) : bool :=
  match needle, s with
  | [], _ => true
  | _ :: _, [] => false
  | x :: needle', y :: s' => N.eqb x y && starts_with needle' s'
  end.

Fixpoint is_substring (needle s : pystr) : bool :=
  starts_with needle s
  || match s with
     | [] => false
     | _ :: s' => is_substring needle s'
     end.

(** [needle in x] for a [str] [needle]: a key of a [dict], an element of a
    [list], a substring of a [str]; anything else is not iterable. *)
Definition py_contains (needle : pystr) (x : pyval) : outcome bool :=
  match x with
  | PyDict d => Returns (dict_mem needle d)
  | PyList l => Returns (existsb (fun v => eq_str v needle) l)
  | PyStr s => Returns (is_substring needle s)
  | _ => Raises (Exn TypeError (lit "argument is not iterable"))
  end.

Section Handler.
Context {rt : PyRuntime} {tx : TextRuntime}.

Definition get_request_type (self : DGHandler.instance)
  : outcome pyval * DGHandler.instance :=
  (Returns (PyStr (lit "PYTHON_TRANSFORM")), self).

(** [start(self, request)]. *)
Definition start (request : pyval) (self : DGHandler.instance)
  : outcome unit * DGHandler.instance :=
  (* [super().start(request)] *)
  let (_, self) := DGHandler.start request self in
  match py_get request (lit "payload") (PyDict []) with
  | Raises e => (Raises e, self)
  | Returns payload =>
      match py_contains (lit "operation") payload with
      | Raises e => (Raises e, self)
      | Returns true => (Returns tt, self)
      | Returns false =>
          (Raises (Exn ValueError
                     (lit "Missing 'operation' in payload. Supported: "
                      ++ lit "UPPERCASE, LOWERCASE, REVERSE, WORD_COUNT, SHA256, "
                      ++ lit "WORD_FREQ, JSON_FLATTEN")), self)
      end
  end.

(** [text.split()]: the maximal runs of characters that are not
    whitespace; [word] is the run being read. *)
Fixpoint split_from (s word : pystr) : list pystr :=
  match s with
  | [] => match word with [] => [] | _ => [word] end
  | c :: s' =>
      if isspace c
      then match word with [] => split_from s' [] | _ => word :: split_from s' [] end
      else split_from s' (word ++ [c])
  end.

Definition split (text : pystr) : list pystr := split_from text [].

(** [text.count("\n")]. *)
Definition count_newlines (text : pystr) : nat :=
  length (filter (N.eqb 10) text).

(** [_word_count(text)]. *)
Definition _word_count (text : pystr) : pydict :=
  let words := split text in
  [(lit "wordCount", PyInt (Z.of_nat (length words)));
   (lit "charCount", PyInt (Z.of_nat (length text)));
   (lit "lineCount",
    PyInt (Z.of_nat (count_newlines text)
           + match text with [] => 0 | _ => 1 end))].

(** [Counter(words)]: the words in order of first occurrence, each with
    its number of occurrences. *)
Fixpoint bump (w : pystr) (freq : list (pystr * nat)) : list (pystr * nat) :=
  match freq with
  | [] => [(w, 1%nat)]
  | (w', n) :: freq' =>
      if str_eqb w w' then (w', S n) :: freq' else (w', n) :: bump w freq'
  end.

Definition Counter (words : list pystr) : list (pystr * nat) :=
  fold_left (fun freq w => bump w freq) words [].

(** [freq.most_common(n)]: by decreasing count, entries of equal count in
    the order of the counter.  The entries are inserted from the last to the
    first, each before the entries that do not have a larger count. *)
Fixpoint insert_by_count (x : pystr * nat) (sorted : list (pystr * nat))
  : list (pystr * nat) :=
  match sorted with
  | [] => [x]
  | y :: sorted' =>
      if (snd y <=? snd x)%nat then x :: y :: sorted'
      else y :: insert_by_count x sorted'
  end.

Definition most_common (n : nat) (freq : list (pystr * nat)) : list (pystr * nat) :=
  firstn n (fold_right insert_by_count [] freq).

(** [_word_freq(text)]. *)
Definition _word_freq (text : pystr) : pydict :=
  let words := findall_words (str_lower text) in
  let freq := Counter words in
  let top_10 := most_common 10 freq in
  [(lit "totalWords", PyInt (Z.of_nat (length words)));
   (lit "uniqueWords", PyInt (Z.of_nat (length freq)));
   (lit "topWords",
    PyList (map (fun wc => PyDict [(lit "word", PyStr (fst wc));
                                   (lit "count", PyInt (Z.of_nat (snd wc)))])
                top_10))].

(** The attribute errors of a method that only [str] has. *)
Definition no_attribute (method : string) : exn :=
  Exn AttributeError (lit "object has no attribute '" ++ lit method ++ lit "'").

(** [text[::-1]]. *)
Definition reversed (text : pyval) : outcome pyval :=
  match text with
  | PyStr s => Returns (PyStr (rev s))
  | PyList l => Returns (PyList (rev l))
  | PyDict _ | PyObj _ => Raises (slice_error text)
  | _ => Raises (Exn TypeError (lit "object is not subscriptable"))
  end.

(** The entry of [operations] under [operation], called. *)
Definition run_operation (operation : pystr) (text data : pyval)
  : option (outcome pydict) :=
  if str_eqb operation (lit "UPPERCASE") then
    Some match text with
         | PyStr s => Returns [(lit "result", PyStr (str_upper s)); (lit "original", text)]
         | _ => Raises (no_attribute "upper")
         end
  else if str_eqb operation (lit "LOWERCASE") then
    Some match text with
         | PyStr s => Returns [(lit "result", PyStr (str_lower s)); (lit "original", text)]
         | _ => Raises (no_attribute "lower")
         end
  else if str_eqb operation (lit "REVERSE") then
    Some match reversed text with
         | Returns r => Returns [(lit "result", r); (lit "original", text)]
         | Raises e => Raises e
         end
  else if str_eqb operation (lit "WORD_COUNT") then
    Some match text with
         | PyStr s => Returns (_word_count s)
         | _ => Raises (no_attribute "split")
         end
  else if str_eqb operation (lit "SHA256") then
    Some match text with
         | PyStr s => TransformPythonHandler._sha256 s
         | _ => Raises (no_attribute "encode")
         end
  else if str_eqb operation (lit "WORD_FREQ") then
    Some match text with
         | PyStr s => Returns (_word_freq s)
         | _ => Raises (no_attribute "lower")
         end
  else if str_eqb operation (lit "JSON_FLATTEN") then
    Some match data with
         | PyDict d => Returns (TransformPythonHandler._json_flatten d [])
         | _ => Raises (no_attribute "items")
         end
  else None.

(** [compute(self, request)]. *)
Definition compute (request : pyval) (self : DGHandler.instance)
  : outcome pyval * DGHandler.instance :=
  let result : outcome pyval :=
    match py_get request (lit "payload") (PyDict []) with
    | Raises e => Raises e
    | Returns payload =>
        match py_get payload (lit "operation") (PyStr []) with
        | Raises e => Raises e
        | Returns (PyStr name) =>
            let operation := str_upper name in
            match py_get payload (lit "text") (PyStr []) with
            | Raises e => Raises e
            | Returns text =>
                match py_get payload (lit "data") (PyDict []) with
                | Raises e => Raises e
                | Returns data =>
                    match run_operation operation text data with
                    | None =>
                        Raises (Exn ValueError
                                  (lit "Unknown operation: '" ++ operation
                                   ++ lit "'. Supported: "
                                   ++ lit "JSON_FLATTEN, LOWERCASE, REVERSE, SHA256, "
                                   ++ lit "UPPERCASE, WORD_COUNT, WORD_FREQ"))
                    | Some (Raises e) => Raises e
                    | Some (Returns result) =>
                        Returns (PyDict (dict_set (lit "operation") (PyStr operation)
                                                  result))
                    end
                end
            end
        | Returns _ => Raises (no_attribute "upper")
        end
    end in
  (result, self).

(** The class: [start] is overridden, [execute] and [stop] are inherited. *)
Definition class : DGHandler.handler_class :=
  DGHandler.HandlerClass (Returns DGHandler.__init__) get_request_type compute
                         (Some start) None None.

End Handler.

End Transform.

(* ------------------------------------------------------------------ *)
(** ** dgfacade_worker.py: startup and the accept loop *)

Module WorkerMain.

(** What [server.accept()] does on one turn of the loop of [main]: it
    returns a connection, times out after one second ([socket.timeout]),
    raises some other exception, or the process receives
    [KeyboardInterrupt]. *)
Inductive accept : Type :=
| Accepted (conn : socket)
| TimedOut
| AcceptFailed (e : exn)
| Interrupted.

(** The loop of [main] as far as it was observed: the connections handled,
    in order and as [handle_connection] left them; the turns of [accept] not
    reached; whether the loop was left; the process. *)
Record served : Type := Served {
  handled : list socket;
  unserved : list accept;
  exited : bool;
  process_after : Worker.process
}.

Section Main.
Context {rt : PyRuntime}.

(** [load_app_properties()]; the argument is the environment variable
    DGFACADE_PROPERTIES, if it is set.  The result is the new value of the
    global [APP_PROPERTIES]. *)
Definition load_app_properties (DGFACADE_PROPERTIES : option pystr) : outcome pyval :=
  let props_json :=
    match DGFACADE_PROPERTIES with Some s => s | None => lit "{}" end in
  match json_loads_str props_json with
  | Returns props => Returns props
  | Raises e =>
      if is_class JSONDecodeError e then Returns (PyDict []) else Raises e
  end.

(** [while running: ...] of [main]. *)
Fixpoint serve (env : Worker.environment) (turns : list accept) (p : Worker.process)
  : served :=
  match turns with
  | [] => Served [] [] false p
  | Accepted conn :: rest =>
      let '(running, conn', p') := Worker.handle_connection env conn p in
      if running then
        let r := serve env rest p' in
        Served (conn' :: handled r) (unserved r) (exited r) (process_after r)
      else Served [conn'] rest true p'
  | TimedOut :: rest => serve env rest p            (* [continue] *)
  | AcceptFailed _ :: rest => serve env rest p      (* logged, [time.sleep(0.1)] *)
  | Interrupted :: rest => Served [] rest true p    (* [break] *)
  end.

End Main.

End WorkerMain.

(* ------------------------------------------------------------------ *)
(** ** A reference runtime

    An executable [PyRuntime] for running the embedding on concrete inputs:
    [json.dumps] with its default separators and [ensure_ascii], and a strict
    [json.loads], both over JSON whose floats are non-negative with at most
    two decimals. *)

Module RefRuntime.

Definition hex_nibble (n : N) : N :=
  if (n <? 10)%N then (48 + n)%N else (87 + n)%N.

(** ["\\u{0:04x}".format(n)] *)
Definition u_escape (n : N) : pystr :=
  [92; 117; hex_nibble ((n / 4096) mod 16); hex_nibble ((n / 256) mod 16);
   hex_nibble ((n / 16) mod 16); hex_nibble (n mod 16)]%N.

Definition escape_char (c : N) : pystr :=
  if (c =? 34)%N then [92; 34]%N
  else if (c =? 92)%N then [92; 92]%N
  else if (c =? 10)%N then [92; 110]%N
  else if (c =? 13)%N then [92; 114]%N
  else if (c =? 9)%N then [92; 116]%N
  else if (c =? 8)%N then [92; 98]%N
  else if (c =? 12)%N then [92; 102]%N
  else if ((32 <=? c) && (c <=? 126))%N then [c]
  else if (c <? 0x10000)%N then u_escape c
  else
    let n := (c - 0x10000)%N in
    u_escape (0xD800 + (n / 1024) mod 1024) ++ u_escape (0xDC00 + n mod 1024).

Definition quote (s : pystr) : pystr :=
  34%N :: flat_map escape_char s ++ [34%N].

(** Here the float token [t] is the float [t / 100]: [repr] gives its
    shortest decimal form, with at least one digit after the point. *)
Definition float_repr (t : N) : pystr :=
  str_of_N (t / 100) ++ [46%N; (48 + (t mod 100) / 10)%N]
  ++ (if ((t mod 10) =? 0)%N then [] else [(48 + t mod 10)%N]).

Fixpoint dumps (v : pyval) : option pystr :=
  match v with
  | PyNone => Some (lit "null")
  | PyBool true => Some (lit "true")
  | PyBool false => Some (lit "false")
  | PyInt z => Some (str_of_Z z)
  | PyFloat t => Some (float_repr t)
  | PyStr s => Some (quote s)
  | PyList items =>
      match
        (fix each (items : list pyval) (first : bool) : option pystr :=
           match items with
           | [] => Some []
           | x :: rest =>
               match dumps x, each rest false with
               | Some sx, Some sr =>
                   Some ((if first then [] else lit ", ") ++ sx ++ sr)
               | _, _ => None
               end
           end) items true
      with
      | Some body => Some (lit "[" ++ body ++ lit "]")
      | None => None
      end
  | PyDict entries =>
      match
        (fix each (entries : list (pystr * pyval)) (first : bool) : option pystr :=
           match entries with
           | [] => Some []
           | (k, x) :: rest =>
               match dumps x, each rest false with
               | Some sx, Some sr =>
                   Some ((if first then [] else lit ", ")
                         ++ quote k ++ lit ": " ++ sx ++ sr)
               | _, _ => None
               end
           end) entries true
      with
      | Some body => Some (lit "{" ++ body ++ lit "}")
      | None => None
      end
  | PyObj _ => None
  end.

Definition is_ws (c : N) : bool :=
  ((c =? 32) || (c =? 9) || (c =? 10) || (c =? 13))%N.

Fixpoint skip_ws (s : pystr) : pystr :=
  match s with
  | c :: s' => if is_ws c then skip_ws s' else s
  | [] => []
  end.

Definition is_digit (c : N) : bool := ((48 <=? c) && (c <=? 57))%N.

Fixpoint take_digits (s : pystr) (acc : N) : N * pystr :=
  match s with
  | c :: s' =>
      if is_digit c then take_digits s' (10 * acc + (c - 48))%N else (acc, s)
  | [] => (acc, [])
  end.

(** A number: an optional sign, then 0 or a digit string with no leading 0;
    after it either nothing more (an [int]) or, for a non-negative number, a
    point and one or two digits (the float tokens above).  Other floats are
    outside the reference runtime. *)
Definition parse_number (negative : bool) (s : pystr) : option (pyval * pystr) :=
  match s with
  | c :: s' =>
      if is_digit c then
        let (n, rest) :=
          if (c =? 48)%N then (0%N, s') else take_digits s' (c - 48)%N in
        let int := PyInt (if negative then - Z.of_N n else Z.of_N n) in
        let ends (rest : pystr) : bool :=
          match rest with
          | d :: _ => negb (is_digit d || (d =? 46) || (d =? 101) || (d =? 69))%N
          | [] => true
          end in
        match rest with
        | 46%N :: a :: rest' =>
            if negative || negb (is_digit a) then None
            else
              match rest' with
              | b :: rest'' =>
                  if is_digit b then
                    if ends rest''
                    then Some (PyFloat (100 * n + 10 * (a - 48) + (b - 48)), rest'')
                    else None
                  else if ends rest'
                  then Some (PyFloat (100 * n + 10 * (a - 48)), rest')
                  else None
              | [] => Some (PyFloat (100 * n + 10 * (a - 48)), [])
              end
        | _ => if ends rest then Some (int, rest) else None
        end
      else None
  | [] => None
  end.

Definition hex_value (c : N) : option N :=
  if is_digit c then Some (c - 48)%N
  else if ((97 <=? c) && (c <=? 102))%N then Some (c - 87)%N
  else if ((65 <=? c) && (c <=? 70))%N then Some (c - 55)%N
  else None.

Definition parse_hex4 (s : pystr) : option (N * pystr) :=
  match s with
  | a :: b :: c :: d :: rest =>
      match hex_value a, hex_value b, hex_value c, hex_value d with
      | Some x, Some y, Some z, Some w =>
          Some (x * 4096 + y * 256 + z * 16 + w, rest)%N
      | _, _, _, _ => None
      end
  | _ => None
  end.

(** The characters of a string literal after its opening quote. *)
Fixpoint parse_chars (fuel : nat) (s : pystr) : option (pystr * pystr) :=
  match fuel with
  | O => None
  | S fuel' =>
      let emit (c : N) (rest : pystr) :=
        match parse_chars fuel' rest with
        | Some (cs, rest') => Some (c :: cs, rest')
        | None => None
        end in
      match s with
      | [] => None
      | c :: s' =>
          if (c =? 34)%N then Some ([], s')
          else if (c <? 32)%N then None
          else if (c =? 92)%N then
            match s' with
            | [] => None
            | e :: s'' =>
                if (e =? 34)%N then emit 34%N s''
                else if (e =? 92)%N then emit 92%N s''
                else if (e =? 47)%N then emit 47%N s''
                else if (e =? 98)%N then emit 8%N s''
                else if (e =? 102)%N then emit 12%N s''
                else if (e =? 110)%N then emit 10%N s''
                else if (e =? 114)%N then emit 13%N s''
                else if (e =? 116)%N then emit 9%N s''
                else if (e =? 117)%N then
                  match parse_hex4 s'' with
                  | None => None
                  | Some (hi, r) =>
                      let pair :=
                        if ((0xD800 <=? hi) && (hi <=? 0xDBFF))%N then
                          match r with
                          | 92%N :: 117%N :: r' =>
                              match parse_hex4 r' with
                              | Some (lo, r'') =>
                                  if ((0xDC00 <=? lo) && (lo <=? 0xDFFF))%N
                                  then Some (0x10000 + (hi - 0xD800) * 1024
                                             + (lo - 0xDC00), r'')%N
                                  else None
                              | None => None
                              end
                          | _ => None
                          end
                        else None in
                      match pair with
                      | Some (cp, r'') => emit cp r''
                      | None => emit hi r
                      end
                  end
                else None
            end
          else emit c s'
      end
  end.

Definition expect (w : pystr) (v : pyval) (s : pystr) : option (pyval * pystr) :=
  if str_eqb (firstn (length w) s) w then Some (v, skipn (length w) s) else None.

Fixpoint parse_value (fuel : nat) (s : pystr) : option (pyval * pystr) :=
  match fuel with
  | O => None
  | S fuel' =>
      match skip_ws s with
      | [] => None
      | c :: s' =>
          if (c =? 110)%N then expect (lit "null") PyNone (c :: s')
          else if (c =? 116)%N then expect (lit "true") (PyBool true) (c :: s')
          else if (c =? 102)%N then expect (lit "false") (PyBool false) (c :: s')
          else if (c =? 34)%N then
            match parse_chars (S (length s')) s' with
            | Some (cs, rest) => Some (PyStr cs, rest)
            | None => None
            end
          else if (c =? 45)%N then parse_number true s'
          else if is_digit c then parse_number false (c :: s')
          else if (c =? 91)%N then
            match skip_ws s' with
            | 93%N :: rest => Some (PyList [], rest)
            | _ =>
                (fix elements (n : nat) (s : pystr) (acc : list pyval)
                   : option (pyval * pystr) :=
                   match n with
                   | O => None
                   | S n' =>
                       match parse_value fuel' s with
                       | None => None
                       | Some (v, rest) =>
                           match skip_ws rest with
                           | 44%N :: rest' => elements n' rest' (acc ++ [v])
                           | 93%N :: rest' => Some (PyList (acc ++ [v]), rest')
                           | _ => None
                           end
                       end
                   end) fuel' s' []
            end
          else if (c =? 123)%N then
            match skip_ws s' with
            | 125%N :: rest => Some (PyDict [], rest)
            | _ =>
                (fix members (n : nat) (s : pystr) (acc : pydict)
                   : option (pyval * pystr) :=
                   match n with
                   | O => None
                   | S n' =>
                       match skip_ws s with
                       | 34%N :: s1 =>
                           match parse_chars (S (length s1)) s1 with
                           | None => None
                           | Some (k, s2) =>
                               match skip_ws s2 with
                               | 58%N :: s3 =>
                                   match parse_value fuel' s3 with
                                   | None => None
                                   | Some (v, rest) =>
                                       match skip_ws rest with
                                       | 44%N :: rest' =>
                                           members n' rest' (dict_set k v acc)
                                       | 125%N :: rest' =>
                                           Some (PyDict (dict_set k v acc), rest')
                                       | _ => None
                                       end
                                   end
                               | _ => None
                               end
                           end
                       | _ => None
                       end
                   end) fuel' s' []
            end
          else None
      end
  end.

Definition loads (s : pystr) : outcome pyval :=
  match parse_value (S (length s)) s with
  | Some (v, rest) =>
      match skip_ws rest with
      | [] => Returns v
      | _ => Raises (Exn JSONDecodeError (lit "Extra data"))
      end
  | None => Raises (Exn JSONDecodeError (lit "Expecting value"))
  end.

#[export] Instance runtime : PyRuntime := {
  json_loads_str := loads;
  json_dumps v :=
    match dumps v with
    | Some s => Returns s
    | None => Raises (Exn TypeError (lit "Object is not JSON serializable"))
    end;
  repr_other _ := lit "<object>";
  format_exc e :=
    lit "Traceback (most recent call last): " ++ class_name (exn_class e)
    ++ lit ": " ++ exn_msg e;
  elapsed_ms := PyFloat 37
}.

End RefRuntime.

(* ------------------------------------------------------------------ *)
(** ** Sample processes

    Concrete environments on which the embedding runs: a worker whose import
    path holds one handler under the [DGHandlerBase] contract, and a gateway
    whose import path holds [handlers.echo_handler]. *)

Module Samples.

Import RefRuntime.

(** A [DGHandlerBase] subclass whose [execute] answers
    [{"seen": request}], with neither [status] nor [data]. *)
Definition Reflect : Worker.handler_class :=
  Worker.HandlerClass
    (Worker.new Worker.DGHandlerBase)
    (Worker.construct Worker.DGHandlerBase)
    (fun request _ self => (Returns (PyDict [(lit "seen", request)]), self))
    (Worker.cleanup Worker.DGHandlerBase).

Definition worker_env : Worker.environment :=
  Worker.Environment 7 (PyDict [(lit "dgfacade.app-name", PyStr (lit "DGFacade"))])
    (lit "2025-01-01T00:00:00+00:00")
    (fun module_name class_name =>
       if eq_str module_name (lit "handlers.reflect") then
         if eq_str class_name (lit "Reflect") then Returns Reflect
         else Raises (Exn AttributeError (lit "module has no such attribute"))
       else Raises (Exn ModuleNotFoundError (lit "No module named that")))%Z.

Definition fresh_process : Worker.process := Worker.Process [] [].

Definition host : EchoPythonHandler.host :=
  EchoPythonHandler.Host (lit "3.11.4") (lit "Linux") (Some (lit "1")) 4242
                         (lit "2025-01-01T00:00:00+00:00").

Definition gateway_import (module_path class_name : pystr)
  : outcome DGHandler.handler_class :=
  if str_eqb module_path (lit "handlers.echo_handler") then
    if str_eqb class_name (lit "EchoPythonHandler")
    then Returns (EchoPythonHandler.class host)
    else Raises (Exn AttributeError (lit "module has no such attribute"))
  else Raises (Exn ModuleNotFoundError (lit "No module named that")).

(** [EchoPythonHandler] with a [stop] that raises. *)
Definition StopRaises : DGHandler.handler_class :=
  DGHandler.HandlerClass (Returns DGHandler.__init__)
    EchoPythonHandler.get_request_type (EchoPythonHandler.compute host)
    None None
    (Some (fun _ self =>
             (Raises (Exn (OtherError (lit "RuntimeError")) (lit "stop failed")), self))).

Definition gateway_import_faulty (module_path class_name : pystr)
  : outcome DGHandler.handler_class :=
  if str_eqb module_path (lit "handlers.faulty") then
    if str_eqb class_name (lit "StopRaises") then Returns StopRaises
    else Raises (Exn AttributeError (lit "module has no such attribute"))
  else Raises (Exn ModuleNotFoundError (lit "No module named that")).

(** [EchoPythonHandler] with a [start] that, after [DGHandler.start],
    refuses a request that has no [payload]. *)
Definition RequiresPayload : DGHandler.handler_class :=
  DGHandler.HandlerClass (Returns DGHandler.__init__)
    EchoPythonHandler.get_request_type (EchoPythonHandler.compute host)
    (Some (fun request self =>
             let (_, self) := DGHandler.start request self in
             match request with
             | PyDict r =>
                 if dict_mem (lit "payload") r then (Returns tt, self)
                 else (Raises (Exn ValueError (lit "Missing 'payload'")), self)
             | _ => (Raises (Exn AttributeError (lit "object has no attribute 'get'")), self)
             end))
    None None.

Definition echo_name : pystr := lit "handlers.echo_handler.EchoPythonHandler".

Definition gateway_import_sample (module_path class_name : pystr)
  : outcome DGHandler.handler_class :=
  if str_eqb module_path (lit "handlers.sample") then
    if str_eqb class_name (lit "RequiresPayload") then Returns RequiresPayload
    else Raises (Exn AttributeError (lit "module has no such attribute"))
  else Raises (Exn ModuleNotFoundError (lit "No module named that")).

Definition fresh_delegate : DGPythonDelegate.delegate :=
  DGPythonDelegate.Delegate [] 0 0 [].

(** The JSON text of a value, as the reference [json.dumps] writes it. *)
Definition json_text (v : pyval) : pystr :=
  match dumps v with Some s => s | None => [] end.

(** The request [{"requestId": "r-42", "payload": {"a": 1}}]. *)
Definition request_r42 : pystr :=
  json_text (PyDict [(lit "requestId", PyStr (lit "r-42"));
                     (lit "payload", PyDict [(lit "a", PyInt 1)])]).

Definition fresh_socket (segments : list (list byte)) : socket :=
  Socket segments [] [] false [].

End Samples.

(* ------------------------------------------------------------------ *)
(** ** Vocabulary of the statements below *)

(** A lower-case hexadecimal digit. *)
Definition is_hex (c : N) : bool :=
  (((48 <=? c) && (c <=? 57)) || ((97 <=? c) && (c <=? 102)))%N.

(** The [hash] entry of what [_sha256] returned. *)
Definition hash_of (r : outcome pydict) : option pyval :=
  match r with
  | Returns d => dict_get (lit "hash") d
  | Raises _ => None
  end.

(** The bytes a socket has still to deliver. *)
Definition stream (conn : socket) : list byte := concat (incoming conn).

(** No segment of the stream is empty ([recv] returns [b""] only when the
    peer has closed). *)
Definition well_segmented (conn : socket) : Prop :=
  Forall (fun seg => seg <> []) (incoming conn).

(** The other end of a connection on which nothing was received yet: each
    [sendall] of [conn] arrives there as one segment. *)
Definition peer (conn : socket) : socket := Socket (sent conn) [] [] false [].

(** How many [cleanup] calls the worker has made. *)
Definition count_cleanup (l : list Worker.call) : nat :=
  length (filter (fun c => match c with Worker.CallCleanup _ => true | _ => false end) l).

(** How many [stop] calls the delegate has made. *)
Definition count_stop (l : list DGPythonDelegate.call) : nat :=
  length (filter (fun c => match c with DGPythonDelegate.CallStop => true | _ => false end) l).

(** The request id an ERROR response is expected to carry: the parsed
    request's [requestId] when the body parsed to an object that has one,
    ["unknown"] otherwise. *)
Definition expected_request_id {rt : PyRuntime} (dg_request_json : pystr) : pyval :=
  match json_loads_str dg_request_json with
  | Returns (PyDict r) => dict_get_default (lit "requestId") (PyStr (lit "unknown")) r
  | _ => PyStr (lit "unknown")
  end.


(** The response the [try]/[except] of [handle_execute] builds from the
    outcomes of [construct] and [execute], before the [finally] block runs. *)
Definition built_response {rt : PyRuntime} (env : Worker.environment)
    (handler_module handler_class : pyval) (handler : pystr)
    (config request : pyval) (p1 : Worker.process) : pydict :=
  match Worker.invoke handler (Worker.CallConstruct handler)
                      (fun c => Worker.construct c config) p1 with
  | (Raises e, _) => Worker.failed_response handler_module handler_class e
  | (Returns _, p2) =>
      match Worker.invoke handler (Worker.CallExecute handler)
              (fun c => Worker.execute c request (Worker.APP_PROPERTIES env)) p2 with
      | (Raises e, _) => Worker.failed_response handler_module handler_class e
      | (Returns result, _) => Worker.ensure_proper_dict result
      end
  end.

(** The ERROR response of the delegate for exception [e], once the request
    body [request] was parsed to an object. *)
Definition delegate_error_response {rt : PyRuntime} (python_class_name : pystr)
    (e : exn) (request : pydict) : pydict :=
  [(lit "status", PyStr (lit "ERROR"));
   (lit "requestId", dict_get_default (lit "requestId") (PyStr (lit "unknown")) request);
   (lit "handlerType", PyStr python_class_name);
   (lit "errorCode", PyStr (class_name (exn_class e)));
   (lit "errorMessage", PyStr (exn_msg e));
   (lit "stackTrace", PyStr (format_exc e))].

(** A frame as [write_message] builds it: four bytes that unpack to the
    number of bytes that follow. *)
Definition is_frame (buffer : list byte) : Prop :=
  exists prefix payload,
    buffer = prefix ++ payload /\ unpack_I prefix = Returns (len payload).

(** The frame of a document: the buffer [write_message] hands to [sendall]. *)
Definition frame_of {rt : PyRuntime} (data : pyval) (buffer : list byte) : Prop :=
  exists text payload prefix,
    json_dumps data = Returns text
    /\ utf8_encode text = Returns payload
    /\ pack_I (len payload) = Returns prefix
    /\ buffer = prefix ++ payload.

(** The connection's stream starts with the frame of [payload], followed by
    [rest]; the frame's four-byte prefix arrives in one piece, the remainder
    in any segmentation. *)
Definition arrives (conn : socket) (payload rest : list byte) : Prop :=
  well_segmented conn
  /\ (exists seg segs, incoming conn = seg :: segs /\ (4 <= length seg)%nat)
  /\ (exists prefix,
        pack_I (len payload) = Returns prefix
        /\ stream conn = prefix ++ payload ++ rest)
  /\ (0 < len payload <= 50 * 1024 * 1024)%Z.

(** [payload] is the UTF-8 text of a JSON document that parses to [data]. *)
Definition carries {rt : PyRuntime} (payload : list byte) (data : pyval) : Prop :=
  exists text, utf8_decode payload = Returns text /\ json_loads_str text = Returns data.

(** The frame of a JSON document on the reference runtime, laid out as
    [write_message] does. *)
Definition payload_of (v : pyval) : list byte :=
  match utf8_encode (Samples.json_text v) with Returns b => b | Raises _ => [] end.

Definition prefix_of (payload : list byte) : list byte :=
  match pack_I (len payload) with Returns b => b | Raises _ => [] end.

Definition frame_bytes (v : pyval) : list byte :=
  prefix_of (payload_of v) ++ payload_of v.

Ltac segments := unfold well_segmented; cbn; repeat constructor; discriminate.

Ltac frame_arrives :=
  unfold arrives; split; [segments|]; split;
  [eexists; eexists; split; [reflexivity|vm_compute; lia]|]; split;
  [eexists; split; [vm_compute; reflexivity|]; vm_compute; reflexivity|];
  vm_compute; split; [reflexivity|discriminate].

Ltac frame_carries :=
  unfold carries; eexists; split; [vm_compute; reflexivity|]; vm_compute; reflexivity.


(** What the Java side reads of a response: it has a [status], and a
    [data] whenever the status is SUCCESS. *)
Definition proper_response (response : pydict) : Prop :=
  dict_mem (lit "status") response = true
  /\ (dict_get (lit "status") response = Some (PyStr (lit "SUCCESS")) ->
      dict_mem (lit "data") response = true).

(** An environment in which [dgfacade_worker.DGHandlerBase] itself is the
    only class that resolves. *)
Definition base_env : Worker.environment :=
  Worker.Environment 0 (PyDict []) (lit "2025-01-01T00:00:00+00:00")
    (fun module_name class_name =>
       if eq_str module_name (lit "dgfacade_worker") then
         if eq_str class_name (lit "DGHandlerBase") then Returns Worker.DGHandlerBase
         else Raises (Exn AttributeError (lit "module has no such attribute"))
       else Raises (Exn ModuleNotFoundError (lit "No module named that")))%Z.

(** The connections among the outcomes of [server.accept()]. *)
Fixpoint accepted (turns : list WorkerMain.accept) : list socket :=
  match turns with
  | [] => []
  | WorkerMain.Accepted conn :: rest => conn :: accepted rest
  | _ :: rest => accepted rest
  end.

(** The part of a frame that went out when its [sendall] broke off: bytes
    of the frame are missing at its end. *)
Definition part_of_frame (part : list byte) : Prop :=
  exists frame rest, is_frame frame /\ frame = part ++ rest /\ rest <> [].

(** What the [sendall] calls of one [handle_connection] can leave on the
    wire: nothing; one whole frame; or, when the first [sendall] broke off,
    the part of its frame that went out, alone or followed by what went out
    at the second [sendall] (a whole frame, or again a part of one). *)
Definition one_reply (out : list (list byte)) : Prop :=
  out = []
  \/ (exists whole, out = [whole] /\ is_frame whole)
  \/ (exists part, out = [part] /\ part_of_frame part)
  \/ (exists part second,
        out = [part; second] /\ part_of_frame part
        /\ (is_frame second \/ part_of_frame second)).

(** What serving a connection did to it: it was closed, after at most one
    whole frame went out on it. *)
Definition answered (conn conn' : socket) : Prop :=
  closed conn' = true
  /\ exists out, sent conn' = sent conn ++ out /\ one_reply out.

(** A timeout, a [ping] connection, a [shutdown] connection, and a
    connection that arrives after it. *)
Definition sample_turns : list WorkerMain.accept :=
  [WorkerMain.TimedOut;
   WorkerMain.Accepted
     (Samples.fresh_socket [frame_bytes (PyDict [(lit "command", PyStr (lit "ping"))])]);
   WorkerMain.Accepted
     (Samples.fresh_socket [frame_bytes (PyDict [(lit "command", PyStr (lit "shutdown"))])]);
   WorkerMain.Accepted
     (Samples.fresh_socket [frame_bytes (PyDict [(lit "command", PyStr (lit "ping"))])])].

(** Every class cached in [d] is cached in [d'], under the same name. *)
Definition classes_kept (d d' : DGPythonDelegate.delegate) : Prop :=
  forall key c,
    DGPythonDelegate.cache_get key (DGPythonDelegate._handler_cache d) = Some c ->
    DGPythonDelegate.cache_get key (DGPythonDelegate._handler_cache d') = Some c.

(** The run ended in the [except] block of [executeHandler]: what it
    returns is [json.dumps] of an ERROR response that names the handler
    class and the class of some exception. *)
Definition reports_error {rt : PyRuntime} (name : pystr) (r : DGPythonDelegate.run) : Prop :=
  exists e resp,
    DGPythonDelegate.response r = Some resp
    /\ DGPythonDelegate.returned r = json_dumps (PyDict resp)
    /\ dict_get (lit "status") resp = Some (PyStr (lit "ERROR"))
    /\ dict_get (lit "handlerType") resp = Some (PyStr name)
    /\ dict_get (lit "errorCode") resp = Some (PyStr (class_name (exn_class e))).

(** What [EchoPythonHandler.compute] answers for the request [request] under
    the application properties [app_props] on host [h]. *)
Definition echo_result (h : EchoPythonHandler.host) (request app_props : pydict) : pydict :=
  [(lit "echo", dict_get_default (lit "payload") (PyDict []) request);
   (lit "source", PyStr (lit "PYTHON_PY4J"));
   (lit "pythonVersion", PyStr (EchoPythonHandler.python_version h));
   (lit "platform", PyStr (EchoPythonHandler.platform h));
   (lit "workerId",
    PyStr (match EchoPythonHandler.DG_WORKER_ID h with
           | Some w => w
           | None => lit "unknown"
           end));
   (lit "pid", PyInt (EchoPythonHandler.getpid h));
   (lit "timestamp", PyStr (EchoPythonHandler.utc_now_isoformat h));
   (lit "requestId", dict_get_default (lit "requestId") (PyStr (lit "unknown")) request);
   (lit "correlationId", dict_get_default (lit "correlationId") PyNone request);
   (lit "appName",
    dict_get_default (lit "dgfacade.app-name") (PyStr (lit "DGFacade")) app_props);
   (lit "version",
    dict_get_default (lit "dgfacade.version") (PyStr (lit "unknown")) app_props)].

(** A reference [TextRuntime] for ASCII text. *)
Module RefText.

Definition upper_char (c : N) : N :=
  if ((97 <=? c) && (c <=? 122))%N then (c - 32)%N else c.

Definition lower_char (c : N) : N :=
  if ((65 <=? c) && (c <=? 90))%N then (c + 32)%N else c.

Definition space_char (c : N) : bool :=
  (((9 <=? c) && (c <=? 13)) || ((28 <=? c) && (c <=? 32)))%N.

Definition word_char (c : N) : bool :=
  (((48 <=? c) && (c <=? 57)) || ((65 <=? c) && (c <=? 90))
   || ((97 <=? c) && (c <=? 122)) || (c =? 95))%N.

Fixpoint words_from (s word : pystr) : list pystr :=
  match s with
  | [] => match word with [] => [] | _ => [word] end
  | c :: s' =>
      if word_char c then words_from s' (word ++ [c])
      else match word with [] => words_from s' [] | _ => word :: words_from s' [] end
  end.

Definition text : TextRuntime := {|
  str_upper := map upper_char;
  str_lower := map lower_char;
  isspace := space_char;
  findall_words s := words_from s [];
  slice_error _ := Exn TypeError (lit "unhashable type: 'slice'")
|}.

End RefText.

(** The names under which [compute] finds an operation. *)
Definition supported_operations : list pystr :=
  [lit "UPPERCASE"; lit "LOWERCASE"; lit "REVERSE"; lit "WORD_COUNT";
   lit "SHA256"; lit "WORD_FREQ"; lit "JSON_FLATTEN"].

(** A value that [_json_flatten] stores as it is. *)
Definition is_leaf (v : pyval) : bool :=
  match v with
  | PyDict _ | PyList _ => false
  | _ => true
  end.

(** How often [w] occurs among [words]. *)
Fixpoint occurrences (w : pystr) (words : list pystr) : nat :=
  match words with
  | [] => 0
  | x :: rest => (if str_eqb w x then 1 else 0) + occurrences w rest
  end.

(** The counts of a list of counter entries do not increase. *)
Fixpoint descending (l : list (pystr * nat)) : Prop :=
  match l with
  | [] => True
  | x :: rest =>
      match rest with
      | [] => True
      | y :: _ => (snd y <= snd x)%nat
      end /\ descending rest
  end.

(** The count a counter holds for [w]; 0 when [w] is not a key. *)
Fixpoint counted (w : pystr) (freq : list (pystr * nat)) : nat :=
  match freq with
  | [] => 0
  | (w', n) :: rest => if str_eqb w w' then n else counted w rest
  end.

(** An importer that finds [handlers.transform_handler.TransformPythonHandler]
    over the reference text runtime. *)
Definition transform_name : pystr :=
  lit "handlers.transform_handler.TransformPythonHandler".

Definition transform_import (module_path class_name : pystr)
  : outcome DGHandler.handler_class :=
  if str_eqb module_path (lit "handlers.transform_handler") then
    if str_eqb class_name (lit "TransformPythonHandler")
    then Returns (Transform.class (tx := RefText.text))
    else Raises (Exn AttributeError (lit "module has no such attribute"))
  else Raises (Exn ModuleNotFoundError (lit "No module named that")).

(** The transport takes the whole buffer of the next [sendall]. *)
Definition delivers (conn : socket) : Prop :=
  match deliveries conn with
  | Broken _ _ :: _ => False
  | _ => True
  end.


(** [EchoPythonHandler] with an [execute] of its own, which answers an
    ERROR response under a request id of its choice. *)
Definition AnswersOwnError : DGHandler.handler_class :=
  DGHandler.HandlerClass (Returns DGHandler.__init__)
    EchoPythonHandler.get_request_type (EchoPythonHandler.compute Samples.host)
    None
    (Some (fun self =>
             (Returns (PyDict [(lit "status", PyStr (lit "ERROR"));
                               (lit "requestId", PyStr (lit "other"))]), self)))
    None.

Definition gateway_import_own (module_path class_name : pystr)
  : outcome DGHandler.handler_class :=
  if str_eqb module_path (lit "handlers.own") then
    if str_eqb class_name (lit "AnswersOwnError") then Returns AnswersOwnError
    else Raises (Exn AttributeError (lit "module has no such attribute"))
  else Raises (Exn ModuleNotFoundError (lit "No module named that")).



(* ================================================================== *)
(** * Properties *)

Example sha256_constants :
  hd 0%Z SHA256.K = 0x428a2f98%Z /\ last SHA256.K 0%Z = 0xc67178f2%Z
  /\ SHA256.ha SHA256.H0 = 0x6a09e667%Z /\ SHA256.hh SHA256.H0 = 0x5be0cd19%Z.
Proof. vm_compute. repeat split. Qed.

Example sha256_abc :
  SHA256.hexdigest [x61; x62; x63]
  = lit "ba7816bf8f01cfea414140de5dae2223b00361a396177a9cb410ff61f20015ad".
Proof. vm_compute. reflexivity. Qed.

Example sha256_empty :
  SHA256.hexdigest []
  = lit "e3b0c44298fc1c149afbf4c8996fb92427ae41e4649b934ca495991b7852b855".
Proof. vm_compute. reflexivity. Qed.

(** ** Strings and dictionaries *)

Lemma str_eqb_eq (a b : pystr) : str_eqb a b = true <-> a = b.
Proof.
  revert b; induction a as [|x a IH]; intros [|y b]; simpl; split;
    try congruence; try discriminate.
  - intros H. apply andb_true_iff in H as [Hx Ha].
    apply N.eqb_eq in Hx. apply IH in Ha. congruence.
  - intros H. injection H as -> ->. rewrite N.eqb_refl. simpl. now apply IH.
Qed.

Lemma str_eqb_refl (a : pystr) : str_eqb a a = true.
Proof. now apply str_eqb_eq. Qed.

Lemma str_eqb_neq (a b : pystr) : str_eqb a b = false <-> a <> b.
Proof.
  split.
  - intros H E. apply str_eqb_eq in E. congruence.
  - intros H. destruct (str_eqb a b) eqn:E; [|reflexivity].
    apply str_eqb_eq in E. contradiction.
Qed.

Lemma eq_str_true (v : pyval) (s : pystr) : eq_str v s = true <-> v = PyStr s.
Proof.
  destruct v; simpl; split; try discriminate; try congruence.
  - intros H. apply str_eqb_eq in H. now subst.
  - intros H. injection H as ->. apply str_eqb_refl.
Qed.

Lemma eq_str_false (v : pyval) (s : pystr) : eq_str v s = false <-> v <> PyStr s.
Proof.
  split.
  - intros H E. apply eq_str_true in E. congruence.
  - intros H. destruct (eq_str v s) eqn:E; [|reflexivity].
    apply eq_str_true in E. contradiction.
Qed.

Lemma dict_get_set_same (k : pystr) (v : pyval) (d : pydict) :
  dict_get k (dict_set k v d) = Some v.
Proof.
  induction d as [|[k' v'] d IH]; simpl.
  - now rewrite str_eqb_refl.
  - destruct (str_eqb k k') eqn:E; simpl; rewrite E; auto.
Qed.

Lemma dict_get_set_other (k k' : pystr) (v : pyval) (d : pydict) :
  k <> k' -> dict_get k (dict_set k' v d) = dict_get k d.
Proof.
  intros Hne. induction d as [|[k0 v0] d IH]; simpl.
  - apply str_eqb_neq in Hne. now rewrite Hne.
  - destruct (str_eqb k' k0) eqn:E; simpl.
    + apply str_eqb_eq in E. subst k0.
      apply str_eqb_neq in Hne. now rewrite Hne.
    + now rewrite IH.
Qed.

Lemma dict_mem_false (k : pystr) (d : pydict) :
  dict_mem k d = false <-> dict_get k d = None.
Proof. unfold dict_mem. destruct (dict_get k d); split; congruence. Qed.

(** ** SHA256 transform *)

Lemma hex_digit_is_hex (n : Z) :
  (0 <= n < 16)%Z -> is_hex (SHA256.hex_digit n) = true.
Proof.
  intros [Hlo Hhi]. destruct n as [|q|q]; [reflexivity| |lia].
  do 5 (destruct q as [q|q|]; try reflexivity; try lia).
Qed.

Lemma hex_word_is_hex (w : Z) : Forall (fun c => is_hex c = true) (SHA256.hex_word w).
Proof.
  unfold SHA256.hex_word.
  repeat constructor; apply hex_digit_is_hex; apply Z.mod_pos_bound; lia.
Qed.

Lemma hexdigest_length (msg : list byte) : length (SHA256.hexdigest msg) = 64%nat.
Proof. unfold SHA256.hexdigest. rewrite !length_app. reflexivity. Qed.

Lemma hexdigest_is_hex (msg : list byte) :
  Forall (fun c => is_hex c = true) (SHA256.hexdigest msg).
Proof.
  unfold SHA256.hexdigest. generalize (SHA256.digest_state msg) as s. intros s.
  cbv zeta.
  repeat (apply Forall_app; split); apply hex_word_is_hex.
Qed.

(** C3, as the code has it.  [_sha256] is a function of [text] alone (no
    state, clock or runtime enters it), so equal texts hash equally; for
    every text that encodes to UTF-8 it returns a [hash] of exactly 64
    lower-case hexadecimal characters; and the hash of the empty string is
    [e3b0c442...7852b855] (64 characters). *)
Theorem sha256_hex_digest (text : pystr) (bytes : list byte) :
  utf8_encode text = Returns bytes ->
  (forall text', text' = text ->
     TransformPythonHandler._sha256 text' = TransformPythonHandler._sha256 text)
  /\ (exists digest,
        hash_of (TransformPythonHandler._sha256 text) = Some (PyStr digest)
        /\ length digest = 64%nat
        /\ Forall (fun c => is_hex c = true) digest)
  /\ hash_of (TransformPythonHandler._sha256 [])
     = Some (PyStr (lit "e3b0c44298fc1c149afbf4c8996fb92427ae41e4649b934ca495991b7852b855")).
Proof.
  intros Henc. split; [|split].
  - intros text' ->. reflexivity.
  - exists (SHA256.hexdigest bytes).
    unfold TransformPythonHandler._sha256. rewrite Henc.
    split; [reflexivity|]. split.
    + apply hexdigest_length.
    + apply hexdigest_is_hex.
  - vm_compute. reflexivity.
Qed.

(** The theorem at the text ["abc"]. *)
Lemma sha256_hex_digest_witness :
  exists digest,
    hash_of (TransformPythonHandler._sha256 (lit "abc")) = Some (PyStr digest)
    /\ length digest = 64%nat
    /\ Forall (fun c => is_hex c = true) digest.
Proof.
  exact (proj1 (proj2 (sha256_hex_digest (lit "abc") [x61; x62; x63] eq_refl))).
Defined.

(** C3 as stated fails twice: the value it gives for the empty string has 63
    characters and is not the hash the code returns; and a text holding a
    lone surrogate (["\ud800"], which [json.loads] can produce) has no UTF-8
    encoding, so [_sha256] raises [UnicodeEncodeError] instead of returning a
    digest. *)
Lemma sha256_spec_value_is_not_the_hash :
  hash_of (TransformPythonHandler._sha256 [])
  <> Some (PyStr (lit "e3b0c44298fc1c149afbf4c8996fb92427ae41e4649b934ca495991b7852b85"))
  /\ length (lit "e3b0c44298fc1c149afbf4c8996fb92427ae41e4649b934ca495991b7852b85") = 63%nat
  /\ TransformPythonHandler._sha256 [0xD800%N]
     = Raises (Exn UnicodeEncodeError (lit "surrogates not allowed")).
Proof.
  split; [|split].
  - vm_compute. discriminate.
  - reflexivity.
  - reflexivity.
Qed.

(** ** JSON_FLATTEN transform *)

(** C4 fails on the code at [{"a": {"b": 1}}]: the recursive call returns the
    wrapper [{"flattened": ..., "keyCount": ...}], and [items.update] merges
    the wrapper's two keys instead of the nested leaves.  The one leaf [a.b]
    is not an entry of the output and [keyCount] is 2. *)
Theorem json_flatten_nested_dict :
  TransformPythonHandler._json_flatten
    [(lit "a", PyDict [(lit "b", PyInt 1)])] []
  = [(lit "flattened",
      PyDict [(lit "flattened", PyDict [(lit "a.b", PyInt 1)]);
              (lit "keyCount", PyInt 1)]);
     (lit "keyCount", PyInt 2)].
Proof. vm_compute. reflexivity. Qed.

(** ** The worker's command router *)

Section WorkerProperties.
Context {rt : PyRuntime} (env : Worker.environment).

(** C7.  With [command = data.get("command", "")]: [ping] is answered by
    the pong payload carrying the timestamp and the worker id, [shutdown] by
    [shutdown_ack], and any command other than [ping], [execute], [shutdown]
    by an ERROR response whose message names the command; none of them
    touches the process state. *)
Theorem handle_request_commands (d : pydict) (p : Worker.process) :
  let command := dict_get_default (lit "command") (PyStr []) d in
  (command = PyStr (lit "ping") ->
   Worker.handle_request env (PyDict d) p
   = (Returns [(lit "status", PyStr (lit "pong"));
               (lit "timestamp", PyStr (Worker.utc_now_isoformat env));
               (lit "worker_id", PyInt (Worker.WORKER_ID env))], p))
  /\ (command = PyStr (lit "shutdown") ->
      Worker.handle_request env (PyDict d) p
      = (Returns [(lit "status", PyStr (lit "shutdown_ack"))], p))
  /\ (command <> PyStr (lit "ping") ->
      command <> PyStr (lit "execute") ->
      command <> PyStr (lit "shutdown") ->
      Worker.handle_request env (PyDict d) p
      = (Returns [(lit "status", PyStr (lit "ERROR"));
                  (lit "error_message",
                   PyStr (lit "Unknown command: " ++ py_str command))], p)).
Proof.
  intros command. unfold Worker.handle_request. fold command.
  split; [|split].
  - intros ->. reflexivity.
  - intros ->. reflexivity.
  - intros H1 H2 H3.
    apply eq_str_false in H1, H2, H3. now rewrite H1, H2, H3.
Qed.

End WorkerProperties.

(** The theorem on three envelopes of the sample worker: [ping], [shutdown]
    and the unknown command [restart]. *)
Lemma handle_request_commands_witness :
  Worker.handle_request (rt := RefRuntime.runtime) Samples.worker_env
    (PyDict [(lit "command", PyStr (lit "ping"))]) Samples.fresh_process
  = (Returns [(lit "status", PyStr (lit "pong"));
              (lit "timestamp", PyStr (lit "2025-01-01T00:00:00+00:00"));
              (lit "worker_id", PyInt 7)], Samples.fresh_process)
  /\ Worker.handle_request (rt := RefRuntime.runtime) Samples.worker_env
       (PyDict [(lit "command", PyStr (lit "shutdown"))]) Samples.fresh_process
     = (Returns [(lit "status", PyStr (lit "shutdown_ack"))], Samples.fresh_process)
  /\ Worker.handle_request (rt := RefRuntime.runtime) Samples.worker_env
       (PyDict [(lit "command", PyStr (lit "restart"))]) Samples.fresh_process
     = (Returns [(lit "status", PyStr (lit "ERROR"));
                 (lit "error_message", PyStr (lit "Unknown command: restart"))],
        Samples.fresh_process).
Proof.
  split; [|split].
  - apply (handle_request_commands (rt := RefRuntime.runtime) Samples.worker_env
             [(lit "command", PyStr (lit "ping"))] Samples.fresh_process).
    reflexivity.
  - apply (handle_request_commands (rt := RefRuntime.runtime) Samples.worker_env
             [(lit "command", PyStr (lit "shutdown"))] Samples.fresh_process).
    reflexivity.
  - apply (handle_request_commands (rt := RefRuntime.runtime) Samples.worker_env
             [(lit "command", PyStr (lit "restart"))] Samples.fresh_process);
      vm_compute; discriminate.
Defined.

(** ** The worker's execute path *)

Lemma status_is_not_data : lit "status" <> lit "data".
Proof. vm_compute. discriminate. Qed.

Section ExecutePath.
Context {rt : PyRuntime} (env : Worker.environment).

(** What lines 147-153 do to a [dict] the handler returned. *)
Lemma ensure_proper_dict_on_dict (d : pydict) :
  let r := Worker.ensure_proper_dict (PyDict d) in
  (forall k v, dict_get k d = Some v -> dict_get k r = Some v)
  /\ (dict_get (lit "status") d = None ->
      dict_get (lit "status") r = Some (PyStr (lit "SUCCESS")))
  /\ (dict_get (lit "data") d = None ->
      dict_get (lit "status") r = Some (PyStr (lit "SUCCESS")) ->
      dict_get (lit "data") r = Some (PyDict []))
  /\ (dict_get (lit "data") d = None ->
      dict_get (lit "status") r <> Some (PyStr (lit "SUCCESS")) ->
      dict_get (lit "data") r = None)
  /\ (forall k, k <> lit "status" -> k <> lit "data" -> dict_get k r = dict_get k d).
Proof.
  pose proof status_is_not_data as Hsd.
  unfold Worker.ensure_proper_dict.
  set (r1 := if negb (dict_mem (lit "status") d)
             then dict_set (lit "status") (PyStr (lit "SUCCESS")) d else d).
  assert (H1 : forall k v, dict_get k d = Some v -> dict_get k r1 = Some v).
  { intros k v Hk. unfold r1.
    destruct (dict_mem (lit "status") d) eqn:Hm; simpl; [assumption|].
    apply dict_mem_false in Hm.
    rewrite dict_get_set_other; [assumption|]. congruence. }
  assert (H2 : dict_get (lit "status") d = None ->
               dict_get (lit "status") r1 = Some (PyStr (lit "SUCCESS"))).
  { intros Hn. unfold r1. apply dict_mem_false in Hn. rewrite Hn. simpl.
    apply dict_get_set_same. }
  assert (H3 : forall k, k <> lit "status" -> dict_get k r1 = dict_get k d).
  { intros k Hk. unfold r1.
    destruct (dict_mem (lit "status") d); simpl; [reflexivity|].
    now apply dict_get_set_other. }
  assert (Hdata : dict_get (lit "data") r1 = dict_get (lit "data") d).
  { apply H3. congruence. }
  cbv zeta.
  destruct (negb (dict_mem (lit "data") r1)
            && eq_str (dict_get_default (lit "status") PyNone r1) (lit "SUCCESS"))
    eqn:Hc.
  - apply andb_true_iff in Hc as [Hm Hs].
    apply negb_true_iff, dict_mem_false in Hm.
    repeat split.
    + intros k v Hk. rewrite dict_get_set_other; [now apply H1|].
      intros ->. rewrite Hdata in Hm. congruence.
    + intros Hn. rewrite dict_get_set_other; [now apply H2|]. assumption.
    + intros _ _. apply dict_get_set_same.
    + intros _ Hns. exfalso. apply Hns.
      rewrite dict_get_set_other by assumption.
      apply eq_str_true in Hs. unfold dict_get_default in Hs.
      destruct (dict_get (lit "status") r1); congruence.
    + intros k Hk1 Hk2. rewrite dict_get_set_other by assumption. now apply H3.
  - repeat split; auto.
    + intros Hn Hs. exfalso.
      apply andb_false_iff in Hc as [Hc|Hc].
      * apply negb_false_iff in Hc. unfold dict_mem in Hc.
        rewrite Hdata, Hn in Hc. discriminate.
      * apply eq_str_false in Hc. apply Hc.
        unfold dict_get_default. now rewrite Hs.
    + intros Hn _. now rewrite Hdata.
Qed.

(** C8.  On the cached-instance path of [handle_execute] (the inbound JSON
    parsed, the handler resolved, [construct] returned), when the handler's
    [execute] returns the map [d], the response returned is [d] with its
    entries unchanged, [status] set to SUCCESS if [d] had none, and [data]
    set to the empty map if [d] had none and the status is SUCCESS; nothing
    else is added. *)
Theorem handle_execute_defaults (data : pydict) (p p1 p2 p3 : Worker.process)
    (request config : pyval) (handler : pystr) (d : pydict) :
  json_loads (dict_get_default (lit "request_json") (PyStr (lit "{}")) data)
    = Returns request ->
  json_loads (dict_get_default (lit "config_json") (PyStr (lit "{}")) data)
    = Returns config ->
  Worker.get_handler_instance env
    (dict_get_default (lit "handler_module") (PyStr []) data)
    (dict_get_default (lit "handler_class") (PyStr []) data) p
    = (Returns handler, p1) ->
  Worker.invoke handler (Worker.CallConstruct handler)
    (fun c => Worker.construct c config) p1 = (Returns tt, p2) ->
  Worker.invoke handler (Worker.CallExecute handler)
    (fun c => Worker.execute c request (Worker.APP_PROPERTIES env)) p2
    = (Returns (PyDict d), p3) ->
  exists response p4,
    Worker.handle_execute env data p = (Returns response, p4)
    /\ (forall k v, dict_get k d = Some v -> dict_get k response = Some v)
    /\ (dict_get (lit "status") d = None ->
        dict_get (lit "status") response = Some (PyStr (lit "SUCCESS")))
    /\ (dict_get (lit "data") d = None ->
        dict_get (lit "status") response = Some (PyStr (lit "SUCCESS")) ->
        dict_get (lit "data") response = Some (PyDict []))
    /\ (dict_get (lit "data") d = None ->
        dict_get (lit "status") response <> Some (PyStr (lit "SUCCESS")) ->
        dict_get (lit "data") response = None)
    /\ (forall k, k <> lit "status" -> k <> lit "data" ->
        dict_get k response = dict_get k d).
Proof.
  intros Hreq Hcfg Hget Hcons Hexec.
  unfold Worker.handle_execute. rewrite Hreq, Hcfg, Hget, Hcons, Hexec.
  destruct (Worker.invoke handler (Worker.CallCleanup handler) Worker.cleanup p3)
    as [r p4].
  exists (Worker.ensure_proper_dict (PyDict d)), p4.
  split; [reflexivity|]. apply ensure_proper_dict_on_dict.
Qed.

(** C1 fails on the code: an [execute] envelope whose [request_json] is not
    a string (here the number 5) makes [json.loads] raise [TypeError], which
    [except json.JSONDecodeError] does not catch; [handle_execute] raises
    instead of returning a response, and so does the router. *)
Theorem handle_execute_raises_on_non_string_json (p : Worker.process) :
  Worker.handle_execute env [(lit "request_json", PyInt 5)] p
  = (Raises (Exn TypeError (lit "the JSON object must be str, bytes or bytearray")), p)
  /\ Worker.handle_request env
       (PyDict [(lit "command", PyStr (lit "execute"));
                (lit "request_json", PyInt 5)]) p
     = (Raises (Exn TypeError (lit "the JSON object must be str, bytes or bytearray")), p).
Proof. split; reflexivity. Qed.

End ExecutePath.

(** The theorem on the sample worker: the handler returns
    [{"seen": request}], the response adds [status] and [data]. *)
Lemma handle_execute_defaults_witness :
  exists response p4,
    Worker.handle_execute (rt := RefRuntime.runtime) Samples.worker_env
      [(lit "handler_module", PyStr (lit "handlers.reflect"));
       (lit "handler_class", PyStr (lit "Reflect"));
       (lit "request_json", PyStr (lit "[1, 2]"))] Samples.fresh_process
    = (Returns response, p4)
    /\ (forall k v, dict_get k [(lit "seen", PyList [PyInt 1; PyInt 2])] = Some v ->
        dict_get k response = Some v)
    /\ (dict_get (lit "status") [(lit "seen", PyList [PyInt 1; PyInt 2])] = None ->
        dict_get (lit "status") response = Some (PyStr (lit "SUCCESS")))
    /\ (dict_get (lit "data") [(lit "seen", PyList [PyInt 1; PyInt 2])] = None ->
        dict_get (lit "status") response = Some (PyStr (lit "SUCCESS")) ->
        dict_get (lit "data") response = Some (PyDict []))
    /\ (dict_get (lit "data") [(lit "seen", PyList [PyInt 1; PyInt 2])] = None ->
        dict_get (lit "status") response <> Some (PyStr (lit "SUCCESS")) ->
        dict_get (lit "data") response = None)
    /\ (forall k, k <> lit "status" -> k <> lit "data" ->
        dict_get k response = dict_get k [(lit "seen", PyList [PyInt 1; PyInt 2])]).
Proof.
  eapply (handle_execute_defaults (rt := RefRuntime.runtime) Samples.worker_env);
    vm_compute; reflexivity.
Defined.

(** ** Bytes, [struct] and UTF-8 *)

Lemma to_N_byte_of_N (n : N) : (n < 256)%N -> Byte.to_N (byte_of_N n) = n.
Proof.
  intros H. unfold byte_of_N. destruct (Byte.of_N n) as [b|] eqn:E.
  - now apply Byte.to_of_N.
  - apply Byte.of_N_None_iff in E. lia.
Qed.

Lemma byte_val_byte_of_N (z : Z) :
  (0 <= z < 256)%Z -> byte_val (byte_of_N (Z.to_N z)) = z.
Proof.
  intros H. unfold byte_val. rewrite to_N_byte_of_N by lia. lia.
Qed.

Lemma pack_I_length (n : Z) (bs : list byte) :
  pack_I n = Returns bs -> length bs = 4%nat.
Proof.
  unfold pack_I. destruct ((0 <=? n) && (n <? 2 ^ 32))%Z; [|discriminate].
  intros H. injection H as <-. reflexivity.
Qed.

Lemma unpack_pack_I (n : Z) (bs : list byte) :
  pack_I n = Returns bs -> unpack_I bs = Returns n.
Proof.
  unfold pack_I. destruct ((0 <=? n) && (n <? 2 ^ 32))%Z eqn:E; [|discriminate].
  apply andb_true_iff in E as [E1 E2].
  apply Z.leb_le in E1. apply Z.ltb_lt in E2.
  change (2 ^ 32)%Z with 4294967296%Z in E2.
  intros H. injection H as <-. unfold unpack_I.
  change (2 ^ 24)%Z with 16777216%Z. change (2 ^ 16)%Z with 65536%Z.
  change (2 ^ 8)%Z with 256%Z.
  rewrite !byte_val_byte_of_N
    by (Z.to_euclidean_division_equations; lia).
  f_equal. Z.to_euclidean_division_equations. lia.
Qed.







(** ** The frame codec *)

Lemma recv_effect (n : Z) (conn conn1 : socket) (chunk : list byte) :
  recv n conn = (chunk, conn1) ->
  chunk ++ stream conn1 = stream conn
  /\ (length chunk <= Z.to_nat n)%nat
  /\ recv_log conn1 = recv_log conn ++ [n]
  /\ sent conn1 = sent conn
  /\ closed conn1 = closed conn.
Proof.
  unfold recv, stream. destruct (incoming conn) as [|seg segs] eqn:E.
  - intros H. injection H as <- <-. simpl. repeat split; lia.
  - intros H. injection H as <- <-. cbn [incoming recv_log sent closed].
    repeat split.
    + rewrite <- (firstn_skipn (Z.to_nat n) seg) at 3. cbn [concat].
      rewrite <- app_assoc. f_equal.
      destruct (skipn (Z.to_nat n) seg); reflexivity.
    + rewrite length_firstn. lia.
Qed.

Lemma recv_well_segmented (n : Z) (conn conn1 : socket) (chunk : list byte) :
  recv n conn = (chunk, conn1) -> well_segmented conn -> well_segmented conn1.
Proof.
  unfold recv, well_segmented. destruct (incoming conn) as [|seg segs].
  - intros H _. injection H as <- <-. constructor.
  - intros H Hw. injection H as <- <-. cbn [incoming].
    inversion Hw as [|? ? Hseg Hsegs]; subst.
    destruct (skipn (Z.to_nat n) seg) eqn:E; [assumption|].
    constructor; [discriminate|assumption].
Qed.

Lemma recv_some (n : Z) (conn conn1 : socket) (chunk : list byte) :
  recv n conn = (chunk, conn1) -> well_segmented conn ->
  (0 < n)%Z -> stream conn <> [] -> chunk <> [].
Proof.
  unfold recv, well_segmented, stream. destruct (incoming conn) as [|seg segs].
  - intros _ _ _ H. now contradiction H.
  - intros H Hw Hn _. injection H as <- <-.
    inversion Hw as [|? ? Hseg _]; subst.
    destruct seg as [|b seg]; [contradiction|].
    destruct (Z.to_nat n) eqn:E; [lia|]. discriminate.
Qed.

Lemma app_eq_split {A : Type} (a x h r : list A) :
  a ++ x = h ++ r -> (length a <= length h)%nat ->
  exists u, h = a ++ u /\ x = u ++ r.
Proof.
  revert h. induction a as [|y a IH]; intros h H Hlen.
  - exists h. split; [reflexivity|assumption].
  - destruct h as [|z h]; [simpl in Hlen; lia|].
    simpl in H. injection H as -> H. simpl in Hlen.
    destruct (IH h H) as [u [-> ->]]; [lia|]. now exists u.
Qed.

Lemma len_nonneg (bs : list byte) : (0 <= len bs)%Z.
Proof. unfold len. lia. Qed.

Lemma len_app (a b : list byte) : len (a ++ b) = (len a + len b)%Z.
Proof. unfold len. rewrite length_app. lia. Qed.

(** The receive loop never runs out of turns and, when the stream holds the
    bytes still owed, completes with exactly those bytes. *)
Lemma recv_loop_complete (fuel : nat) :
  forall (remaining : Z) (chunks : list (list byte)) (conn : socket),
    (0 <= remaining <= Z.of_nat fuel)%Z ->
    well_segmented conn ->
    (remaining <= len (stream conn))%Z ->
    exists got conn',
      Worker.recv_loop fuel remaining chunks conn = (Worker.Complete (chunks ++ got), conn')
      /\ concat got ++ stream conn' = stream conn
      /\ len (concat got) = remaining
      /\ sent conn' = sent conn
      /\ closed conn' = closed conn.
Proof.
  induction fuel as [|fuel IH]; intros remaining chunks conn Hrem Hw Hlen.
  - assert (remaining = 0%Z) as -> by lia.
    exists [], conn. cbn. rewrite app_nil_r. repeat split.
  - cbn [Worker.recv_loop].
    destruct (Z.gtb_spec remaining 0) as [Hpos|Hzero].
    + destruct (recv (Z.min remaining 65536) conn) as [chunk conn1] eqn:Er.
      pose proof (recv_effect _ _ _ _ Er) as (Hs & Hn & _ & Hsent & Hclosed).
      pose proof (recv_well_segmented _ _ _ _ Er Hw) as Hw1.
      assert (Hne : chunk <> []).
      { apply (recv_some _ _ _ _ Er Hw); [lia|].
        intros E. rewrite E in Hlen. cbn in Hlen. lia. }
      assert (Hc : (0 < len chunk <= remaining)%Z).
      { unfold len. destruct chunk; [contradiction|]. simpl length in *. lia. }
      destruct (IH (remaining - len chunk)%Z (chunks ++ [chunk]) conn1)
        as (got & conn' & Hloop & Hs' & Hl' & Hsent' & Hclosed').
      * lia.
      * assumption.
      * rewrite <- Hs, len_app in Hlen. lia.
      * exists (chunk :: got), conn'.
        destruct chunk as [|b chunk]; [contradiction|].
        rewrite Hloop, <- app_assoc. cbn [app concat].
        repeat split.
        -- rewrite <- Hs, <- Hs'. now rewrite <- app_assoc.
        -- change (b :: chunk ++ concat got) with ((b :: chunk) ++ concat got).
           rewrite len_app. lia.
        -- congruence.
        -- congruence.
    + assert (remaining = 0%Z) as -> by lia.
      exists [], conn. rewrite app_nil_r. repeat split.
Qed.

(** The turns given to the receive loop always suffice: every turn that
    does not end the loop receives at least one byte. *)
Lemma recv_loop_has_fuel (fuel : nat) :
  forall (remaining : Z) (chunks : list (list byte)) (conn : socket),
    (remaining <= Z.of_nat fuel)%Z ->
    fst (Worker.recv_loop fuel remaining chunks conn) <> Worker.OutOfFuel.
Proof.
  induction fuel as [|fuel IH]; intros remaining chunks conn Hrem;
    cbn [Worker.recv_loop]; destruct (Z.gtb_spec remaining 0) as [Hpos|Hzero];
    try (cbn; discriminate); [lia|].
  destruct (recv (Z.min remaining 65536) conn) as [chunk conn1].
  destruct chunk as [|b chunk]; [cbn; discriminate|].
  apply IH. unfold len. simpl length. lia.
Qed.

Section FrameCodec.
Context {rt : PyRuntime}.

(** [read_message] on a stream that starts with a well-formed frame whose
    length prefix arrives within the first segment: the payload is decoded
    and parsed, whatever the segmentation of the payload. *)
Lemma read_message_frame (conn : socket) (seg : list byte) (segs : list (list byte))
    (prefix payload rest : list byte) :
  well_segmented conn ->
  incoming conn = seg :: segs -> (4 <= length seg)%nat ->
  stream conn = prefix ++ payload ++ rest ->
  pack_I (len payload) = Returns prefix ->
  (0 < len payload <= 50 * 1024 * 1024)%Z ->
  exists conn',
    Worker.read_message conn
    = (match utf8_decode payload with
       | Raises e => Raises e
       | Returns text => json_loads_str text
       end, conn')
    /\ stream conn' = rest
    /\ sent conn' = sent conn.
Proof.
  intros Hw Hin Hseg Hstream Hpack Hlen.
  pose proof (pack_I_length _ _ Hpack) as Hp4.
  unfold Worker.read_message.
  destruct (recv 4 conn) as [raw_len conn1] eqn:Er.
  pose proof (recv_effect _ _ _ _ Er) as (Hs & Hn & _ & Hsent & _).
  pose proof (recv_well_segmented _ _ _ _ Er Hw) as Hw1.
  assert (Hraw : length raw_len = 4%nat).
  { unfold recv in Er. rewrite Hin in Er. cbv beta iota zeta in Er.
    apply (f_equal fst) in Er. cbn [fst] in Er. subst raw_len.
    rewrite length_firstn. change (Z.to_nat 4) with 4%nat. lia. }
  rewrite Hstream in Hs.
  destruct (app_eq_split raw_len (stream conn1) prefix (payload ++ rest) Hs)
    as (u & Hu & Hrest); [lia|].
  assert (u = []) as ->.
  { apply (f_equal (@length byte)) in Hu. rewrite length_app in Hu.
    destruct u; [reflexivity|simpl in Hu; lia]. }
  rewrite app_nil_r in Hu. subst raw_len. cbn [app] in Hrest.
  unfold len at 1. rewrite Hp4. cbn [Z.of_nat Pos.of_succ_nat Pos.succ Z.ltb Z.compare Pos.compare Pos.compare_cont].
  rewrite (unpack_pack_I _ _ Hpack).
  destruct (Z.leb_spec (len payload) 0); [lia|].
  destruct (Z.gtb_spec (len payload) (50 * 1024 * 1024)); [lia|].
  cbn [orb].
  destruct (recv_loop_complete (Z.to_nat (len payload)) (len payload) [] conn1)
    as (got & conn' & Hloop & Hs' & Hl' & Hsent' & _).
  - lia.
  - assumption.
  - rewrite Hrest, len_app. pose proof (len_nonneg rest). lia.
  - rewrite Hloop. cbn [app].
    rewrite Hrest in Hs'.
    destruct (app_eq_split (concat got) (stream conn') payload rest Hs')
      as (u & Hu & Hrest'); [unfold len in Hl'; lia|].
    assert (u = []) as ->.
    { apply (f_equal len) in Hu. rewrite len_app in Hu. unfold len in *.
      destruct u; [reflexivity|simpl length in Hu; lia]. }
    rewrite app_nil_r in Hu. subst payload. cbn [app] in Hrest'.
    exists conn'. split; [|split].
    + destruct (utf8_decode (concat got)); reflexivity.
    + assumption.
    + congruence.
Qed.



End FrameCodec.


(** The round trip needs the four-byte prefix in one piece: the frame of
    the empty object, delivered to the reader as two bytes and then the
    rest, is read as [None]. *)
Example frame_round_trip_needs_whole_prefix :
  exists conn' buffer,
    Worker.write_message (rt := RefRuntime.runtime) (Samples.fresh_socket []) (PyDict [])
    = (Returns tt, conn')
    /\ sent conn' = [buffer]
    /\ json_loads_str (PyRuntime := RefRuntime.runtime) (Samples.json_text (PyDict []))
       = Returns (PyDict [])
    /\ well_segmented (Samples.fresh_socket [firstn 2 buffer; skipn 2 buffer])
    /\ stream (Samples.fresh_socket [firstn 2 buffer; skipn 2 buffer]) = buffer
    /\ fst (Worker.read_message (rt := RefRuntime.runtime)
              (Samples.fresh_socket [firstn 2 buffer; skipn 2 buffer]))
       = Returns PyNone.
Proof.
  exists (Socket [] [] [[x00; x00; x00; x02; x7b; x7d]] false []),
         [x00; x00; x00; x02; x7b; x7d].
  split; [vm_compute; reflexivity|]. split; [reflexivity|].
  split; [vm_compute; reflexivity|]. split; [segments|].
  split; vm_compute; reflexivity.
Qed.

(** The length prefix itself is read by one [recv(4)]: when the transport
    delivers fewer than four bytes first, the frame is dropped. *)
Remark split_length_prefix :
  fst (Worker.read_message (rt := RefRuntime.runtime)
         (Samples.fresh_socket [[x00; x00]; [x00; x02; x7b; x7d]]))
  = Returns PyNone
  /\ fst (Worker.read_message (rt := RefRuntime.runtime)
            (Samples.fresh_socket [[x00; x00; x00; x02]; [x7b]; [x7d]]))
     = Returns (PyDict []).
Proof. split; vm_compute; reflexivity. Qed.

Section FrameRejection.
Context {rt : PyRuntime} (env : Worker.environment).

(** C5.  When the stream starts with four bytes that declare a length of
    zero or above 50 MiB (an unsigned prefix is never negative),
    [read_message] returns [None] after its single [recv(4)]: no further
    [recv] is made and the bytes after the prefix stay unread;
    [handle_connection] then sends nothing, closes the connection, leaves the
    process untouched and keeps the server running. *)
Theorem read_message_rejects_declared_length (conn : socket) (p : Worker.process)
    (prefix rest : list byte) (msg_len : Z) :
  stream conn = prefix ++ rest ->
  unpack_I prefix = Returns msg_len ->
  (msg_len <= 0 \/ 50 * 1024 * 1024 < msg_len)%Z ->
  exists conn1,
    Worker.read_message conn = (Returns PyNone, conn1)
    /\ recv_log conn1 = recv_log conn ++ [4%Z]
    /\ (exists unread, stream conn1 = unread ++ rest)
    /\ Worker.handle_connection env conn p = (true, close conn1, p)
    /\ sent (close conn1) = sent conn
    /\ closed (close conn1) = true.
Proof.
  intros Hstream Hunpack Hbad.
  assert (Hp4 : length prefix = 4%nat).
  { destruct prefix as [|? [|? [|? [|? [|? ?]]]]]; try discriminate. reflexivity. }
  assert (Hread : exists conn1,
             Worker.read_message conn = (Returns PyNone, conn1)
             /\ recv_log conn1 = recv_log conn ++ [4%Z]
             /\ (exists unread, stream conn1 = unread ++ rest)
             /\ sent conn1 = sent conn).
  { unfold Worker.read_message.
    destruct (recv 4 conn) as [raw_len conn1] eqn:Er.
    pose proof (recv_effect _ _ _ _ Er) as (Hs & Hn & Hlog & Hsent & _).
    change (Z.to_nat 4) with 4%nat in Hn.
    rewrite Hstream in Hs.
    destruct (app_eq_split raw_len (stream conn1) prefix rest Hs)
      as (u & Hu & Hrest); [lia|].
    exists conn1.
    destruct (Z.ltb_spec (len raw_len) 4) as [Hshort|Hfull].
    - repeat split; try assumption. now exists u.
    - assert (u = []) as ->.
      { apply (f_equal (@length byte)) in Hu. rewrite length_app in Hu.
        unfold len in Hfull. destruct u; [reflexivity|simpl in Hu; lia]. }
      rewrite app_nil_r in Hu. subst raw_len. rewrite Hunpack.
      assert (((msg_len <=? 0) || (msg_len >? 50 * 1024 * 1024))%Z = true) as ->.
      { apply orb_true_iff. destruct Hbad as [Hb|Hb].
        - left. now apply Z.leb_le.
        - right. apply Z.gtb_lt. exact Hb. }
      repeat split; try assumption. now exists []. }
  destruct Hread as (conn1 & Hread & Hlog & Hunread & Hsent).
  exists conn1. repeat split; try assumption.
  unfold Worker.handle_connection. now rewrite Hread.
Qed.

End FrameRejection.

(** The theorem on a stream that declares 104857600 bytes (100 MiB) and then
    carries two more bytes. *)
Lemma read_message_rejects_declared_length_witness :
  exists conn1,
    Worker.read_message (rt := RefRuntime.runtime)
      (Samples.fresh_socket [[x06; x40; x00; x00; x7b; x7d]])
    = (Returns PyNone, conn1)
    /\ recv_log conn1 = [] ++ [4%Z]
    /\ (exists unread, stream conn1 = unread ++ [x7b; x7d])
    /\ Worker.handle_connection (rt := RefRuntime.runtime) Samples.worker_env
         (Samples.fresh_socket [[x06; x40; x00; x00; x7b; x7d]]) Samples.fresh_process
       = (true, close conn1, Samples.fresh_process)
    /\ sent (close conn1) = []
    /\ closed (close conn1) = true.
Proof.
  apply (read_message_rejects_declared_length (rt := RefRuntime.runtime)
           Samples.worker_env
           (Samples.fresh_socket [[x06; x40; x00; x00; x7b; x7d]])
           Samples.fresh_process [x06; x40; x00; x00] [x7b; x7d] 104857600).
  - reflexivity.
  - reflexivity.
  - right. vm_compute. reflexivity.
Defined.

(** ** The gateway's lifecycle *)

Section Gateway.
Context {rt : PyRuntime}.
Variable import_attr : pystr -> pystr -> outcome DGHandler.handler_class.

Lemma stop_sets_stopped (response : pyval) (self : DGHandler.instance) :
  DGHandler.stop response self = (Returns tt, DGHandler.set_status DGHandler.STOPPED self).
Proof. reflexivity. Qed.

(** The instance an [except] block leaves behind was stopped last. *)
Lemma on_exception_instance (name : pystr) (e : exn) (l : DGPythonDelegate.locals)
    (d : DGPythonDelegate.delegate) (self : DGHandler.instance) :
  (forall c s, DGPythonDelegate.handler l = Some (c, s) ->
               DGHandler.stop_override c = None) ->
  DGPythonDelegate.handler_instance (DGPythonDelegate.on_exception name e l d) = Some self ->
  DGHandler._status self = DGHandler.STOPPED.
Proof.
  intros Hc. unfold DGPythonDelegate.on_exception.
  destruct (DGPythonDelegate.handler l) as [[c s]|]; cbn; [|discriminate].
  unfold DGHandler.call_stop. rewrite (Hc c s eq_refl). cbn.
  intros H. injection H as <-. reflexivity.
Qed.




End Gateway.

Section GatewayErrors.
Context {rt : PyRuntime}.
Variable import_attr : pystr -> pystr -> outcome DGHandler.handler_class.






End GatewayErrors.

(** ** Cleanup and stop *)

Lemma count_cleanup_app (a b : list Worker.call) :
  count_cleanup (a ++ b) = (count_cleanup a + count_cleanup b)%nat.
Proof. unfold count_cleanup. now rewrite filter_app, length_app. Qed.

Lemma count_stop_app (a b : list DGPythonDelegate.call) :
  count_stop (a ++ b) = (count_stop a + count_stop b)%nat.
Proof. unfold count_stop. now rewrite filter_app, length_app. Qed.

Lemma worker_cache_get_set (key : pystr) (i : Worker.instance)
    (c : list (pystr * Worker.instance)) :
  Worker.cache_get key (Worker.cache_set key i c) = Some i.
Proof.
  induction c as [|[k i'] c IH]; simpl.
  - now rewrite str_eqb_refl.
  - destruct (str_eqb key k) eqn:E; simpl; rewrite E; auto.
Qed.

Section Cleanup.
Context {rt : PyRuntime} (env : Worker.environment).

(** Resolving a handler calls none of its lifecycle methods and leaves the
    instance in the cache. *)
Lemma get_handler_instance_cached (module_name class_name : pyval)
    (p p1 : Worker.process) (handler : pystr) :
  Worker.get_handler_instance env module_name class_name p = (Returns handler, p1) ->
  Worker.calls p1 = Worker.calls p
  /\ exists i, Worker.cache_get handler (Worker._handler_cache p1) = Some i.
Proof.
  unfold Worker.get_handler_instance.
  destruct (Worker.cache_get _ (Worker._handler_cache p)) as [i|] eqn:E.
  - intros H. injection H as <- <-. split; [reflexivity|]. now exists i.
  - destruct (Worker.import_attr env module_name class_name) as [c|e];
      [|intros H; discriminate H].
    destruct (Worker.new c) as [attrs|e]; [|intros H; discriminate H].
    intros H. injection H as <- <-. cbn. split; [reflexivity|].
    eexists. apply worker_cache_get_set.
Qed.

Lemma get_handler_instance_calls (module_name class_name : pyval)
    (p p1 : Worker.process) (r : outcome pystr) :
  Worker.get_handler_instance env module_name class_name p = (r, p1) ->
  Worker.calls p1 = Worker.calls p.
Proof.
  unfold Worker.get_handler_instance.
  destruct (Worker.cache_get _ (Worker._handler_cache p)).
  - intros H. now injection H as _ <-.
  - destruct (Worker.import_attr env module_name class_name) as [c|e].
    + destruct (Worker.new c); intros H; now injection H as _ <-.
    + intros H. now injection H as _ <-.
Qed.

(** A method call on a cached instance is recorded once, and the instance
    stays cached. *)
Lemma invoke_cached {A : Type} (key : pystr) (what : Worker.call)
    (method : Worker.handler_class -> pyval -> outcome A * pyval)
    (p p' : Worker.process) (r : outcome A) :
  (exists i, Worker.cache_get key (Worker._handler_cache p) = Some i) ->
  Worker.invoke key what method p = (r, p') ->
  Worker.calls p' = Worker.calls p ++ [what]
  /\ exists i, Worker.cache_get key (Worker._handler_cache p') = Some i.
Proof.
  intros [i Hi]. unfold Worker.invoke. rewrite Hi.
  destruct (method (Worker.cls i) (Worker.self i)) as [o attrs].
  intros H. injection H as _ <-. cbn. split; [reflexivity|].
  eexists. apply worker_cache_get_set.
Qed.

(** The worker's half of C2: with the inbound JSON parsed and the handler
    resolved, [cleanup] is called exactly once, and the response is the one
    built before it ran. *)
Lemma handle_execute_cleanup_once (data : pydict) (p p1 : Worker.process)
    (request config : pyval) (handler : pystr) :
  json_loads (dict_get_default (lit "request_json") (PyStr (lit "{}")) data)
    = Returns request ->
  json_loads (dict_get_default (lit "config_json") (PyStr (lit "{}")) data)
    = Returns config ->
  Worker.get_handler_instance env
    (dict_get_default (lit "handler_module") (PyStr []) data)
    (dict_get_default (lit "handler_class") (PyStr []) data) p
    = (Returns handler, p1) ->
  exists p4,
    Worker.handle_execute env data p
    = (Returns (built_response env
                  (dict_get_default (lit "handler_module") (PyStr []) data)
                  (dict_get_default (lit "handler_class") (PyStr []) data)
                  handler config request p1), p4)
    /\ count_cleanup (Worker.calls p4) = S (count_cleanup (Worker.calls p)).
Proof.
  intros Hreq Hcfg Hget.
  destruct (get_handler_instance_cached _ _ _ _ _ Hget) as [Hcalls Hcached].
  unfold Worker.handle_execute, built_response. rewrite Hreq, Hcfg, Hget.
  destruct (Worker.invoke handler (Worker.CallConstruct handler) _ p1)
    as [[[]|e] p2] eqn:E2;
    destruct (invoke_cached _ _ _ _ _ _ Hcached E2) as [Hc2 Hcached2].
  - destruct (Worker.invoke handler (Worker.CallExecute handler) _ p2)
      as [[result|e] p3] eqn:E3;
      destruct (invoke_cached _ _ _ _ _ _ Hcached2 E3) as [Hc3 Hcached3];
      destruct (Worker.invoke handler (Worker.CallCleanup handler) Worker.cleanup p3)
        as [o p4] eqn:E4;
      destruct (invoke_cached _ _ _ _ _ _ Hcached3 E4) as [Hc4 _];
      exists p4; (split; [reflexivity|]);
      rewrite Hc4, Hc3, Hc2, Hcalls, !count_cleanup_app; cbn; lia.
  - destruct (Worker.invoke handler (Worker.CallCleanup handler) Worker.cleanup p2)
      as [o p4] eqn:E4.
    destruct (invoke_cached _ _ _ _ _ _ Hcached2 E4) as [Hc4 _].
    exists p4. split; [reflexivity|].
    rewrite Hc4, Hc2, Hcalls, !count_cleanup_app. cbn. lia.
Qed.

(** With no handler instance (the JSON does not parse, or the handler does
    not resolve) the worker calls no [cleanup]. *)
Lemma handle_execute_no_instance (data : pydict) (p p' : Worker.process)
    (r : outcome pydict) :
  (exists e, json_loads (dict_get_default (lit "request_json") (PyStr (lit "{}")) data)
             = Raises e)
  \/ (exists e, json_loads (dict_get_default (lit "config_json") (PyStr (lit "{}")) data)
                = Raises e)
  \/ (exists e p1,
        Worker.get_handler_instance env
          (dict_get_default (lit "handler_module") (PyStr []) data)
          (dict_get_default (lit "handler_class") (PyStr []) data) p
        = (Raises e, p1)) ->
  Worker.handle_execute env data p = (r, p') ->
  Worker.calls p' = Worker.calls p.
Proof.
  unfold Worker.handle_execute.
  intros [[e He]|[[e He]|(e & p1 & He)]].
  - rewrite He. intros H. now injection H as _ <-.
  - rewrite He.
    destruct (json_loads (dict_get_default (lit "request_json") _ data));
      intros H; now injection H as _ <-.
  - destruct (json_loads (dict_get_default (lit "request_json") _ data));
      [|intros H; now injection H as _ <-].
    destruct (json_loads (dict_get_default (lit "config_json") _ data));
      [|intros H; now injection H as _ <-].
    rewrite He. intros H. injection H as _ <-.
    exact (get_handler_instance_calls _ _ _ _ _ He).
Qed.

End Cleanup.

Section Stop.
Context {rt : PyRuntime}.
Variable import_attr : pystr -> pystr -> outcome DGHandler.handler_class.

Lemma load_class_calls (name : pystr) (d d1 : DGPythonDelegate.delegate)
    (r : outcome DGHandler.handler_class) :
  DGPythonDelegate._load_class import_attr name d = (r, d1) ->
  DGPythonDelegate.calls d1 = DGPythonDelegate.calls d.
Proof.
  unfold DGPythonDelegate._load_class.
  destruct (DGPythonDelegate.cache_get name _); [intros H; now injection H as _ <-|].
  destruct (DGPythonDelegate.rsplit_dot name) as [[m c]|];
    [|intros H; now injection H as _ <-].
  destruct (import_attr m c) as [x|e]; [intros H; now injection H as _ <-|].
  destruct (is_class ModuleNotFoundError e); [intros H; now injection H as _ <-|].
  destruct (is_class AttributeError e); intros H; now injection H as _ <-.
Qed.

(** What the [except] block does: one [stop] if an instance exists, none
    otherwise; the response and the returned text depend on the exception
    and the parsed request only. *)
Lemma on_exception_effect (name : pystr) (e : exn) (request : pydict)
    (h : option (DGHandler.handler_class * DGHandler.instance))
    (d : DGPythonDelegate.delegate) :
  let r := DGPythonDelegate.on_exception name e
             (DGPythonDelegate.Locals (Some (PyDict request)) h) d in
  DGPythonDelegate.calls (DGPythonDelegate.after r)
  = DGPythonDelegate.calls d
    ++ match h with Some _ => [DGPythonDelegate.CallStop] | None => [] end
  /\ DGPythonDelegate.response r = Some (delegate_error_response name e request)
  /\ DGPythonDelegate.returned r
     = json_dumps (PyDict (delegate_error_response name e request)).
Proof.
  unfold DGPythonDelegate.on_exception. cbn.
  destruct h as [[c s]|].
  - destruct (DGHandler.call_stop c _ s). cbn. repeat split.
  - cbn. rewrite app_nil_r. repeat split.
Qed.

Lemma on_exception_no_instance (name : pystr) (e : exn) (request : option pyval)
    (d : DGPythonDelegate.delegate) :
  DGPythonDelegate.calls
    (DGPythonDelegate.after
       (DGPythonDelegate.on_exception name e (DGPythonDelegate.Locals request None) d))
  = DGPythonDelegate.calls d.
Proof. reflexivity. Qed.

(** The gateway's error path: [start] or [execute] raises. *)
Lemma executeHandler_error_path (name dg_request_json app_properties_json : pystr)
    (d d1 : DGPythonDelegate.delegate) (request : pydict) (app_props : pyval)
    (c : DGHandler.handler_class) (self0 self1 : DGHandler.instance) (e : exn) :
  json_loads_str dg_request_json = Returns (PyDict request) ->
  DGPythonDelegate.load_app_props app_properties_json = Returns app_props ->
  DGPythonDelegate._load_class import_attr name d = (Returns c, d1) ->
  DGHandler.new c = Returns self0 ->
  DGHandler.call_start c (PyDict request)
    (DGHandler.set_app_properties app_props self0) = (Raises e, self1)
  \/ (exists self2,
        DGHandler.call_start c (PyDict request)
          (DGHandler.set_app_properties app_props self0) = (Returns tt, self2)
        /\ DGHandler.call_execute c self2 = (Raises e, self1)) ->
  let r := DGPythonDelegate.executeHandler_run import_attr name dg_request_json
             app_properties_json d in
  count_stop (DGPythonDelegate.calls (DGPythonDelegate.after r))
  = S (count_stop (DGPythonDelegate.calls d))
  /\ DGPythonDelegate.response r = Some (delegate_error_response name e request)
  /\ DGPythonDelegate.returned r
     = json_dumps (PyDict (delegate_error_response name e request)).
Proof.
  intros Hreq Hprops Hload Hnew Hraise.
  pose proof (load_class_calls _ _ _ _ Hload) as Hcalls.
  unfold DGPythonDelegate.executeHandler_run.
  rewrite Hreq, Hprops. cbn [py_get]. rewrite Hload, Hnew.
  destruct Hraise as [Hstart|(self2 & Hstart & Hexec)]; rewrite Hstart.
  - destruct (on_exception_effect name e request (Some (c, self1))
                (DGPythonDelegate.record_call DGPythonDelegate.CallStart d1))
      as (H1 & H2 & H3).
    cbv zeta. rewrite H1, H2, H3. cbn [DGPythonDelegate.record_call DGPythonDelegate.calls].
    rewrite Hcalls, !count_stop_app. cbn. repeat split. lia.
  - rewrite Hexec.
    destruct (on_exception_effect name e request (Some (c, self1))
                (DGPythonDelegate.record_call DGPythonDelegate.CallExecute
                   (DGPythonDelegate.record_call DGPythonDelegate.CallStart d1)))
      as (H1 & H2 & H3).
    cbv zeta. rewrite H1, H2, H3. cbn [DGPythonDelegate.record_call DGPythonDelegate.calls].
    rewrite Hcalls, !count_stop_app. cbn. repeat split. lia.
Qed.

(** The gateway's success path, when [stop] returns and the response is
    serialized. *)
Lemma executeHandler_success_path (name dg_request_json app_properties_json : pystr)
    (d d1 : DGPythonDelegate.delegate) (request : pydict) (app_props response_dict status : pyval)
    (c : DGHandler.handler_class) (self0 self1 self2 self3 : DGHandler.instance)
    (text : pystr) :
  json_loads_str dg_request_json = Returns (PyDict request) ->
  DGPythonDelegate.load_app_props app_properties_json = Returns app_props ->
  DGPythonDelegate._load_class import_attr name d = (Returns c, d1) ->
  DGHandler.new c = Returns self0 ->
  DGHandler.call_start c (PyDict request)
    (DGHandler.set_app_properties app_props self0) = (Returns tt, self1) ->
  DGHandler.call_execute c self1 = (Returns response_dict, self2) ->
  DGHandler.call_stop c response_dict self2 = (Returns tt, self3) ->
  py_get response_dict (lit "status") (PyStr (lit "?")) = Returns status ->
  json_dumps response_dict = Returns text ->
  let r := DGPythonDelegate.executeHandler_run import_attr name dg_request_json
             app_properties_json d in
  count_stop (DGPythonDelegate.calls (DGPythonDelegate.after r))
  = S (count_stop (DGPythonDelegate.calls d))
  /\ DGPythonDelegate.returned r = Returns text.
Proof.
  intros Hreq Hprops Hload Hnew Hstart Hexec Hstop Hstatus Hdumps.
  pose proof (load_class_calls _ _ _ _ Hload) as Hcalls.
  unfold DGPythonDelegate.executeHandler_run.
  rewrite Hreq, Hprops. cbn [py_get].
  rewrite Hload, Hnew, Hstart, Hexec, Hstop, Hstatus, Hdumps.
  cbn -[count_stop]. rewrite Hcalls, !count_stop_app. cbn. split; [lia|reflexivity].
Qed.

(** A run that constructed no instance made no lifecycle call. *)
Lemma executeHandler_no_instance (name dg_request_json app_properties_json : pystr)
    (d : DGPythonDelegate.delegate) :
  let r := DGPythonDelegate.executeHandler_run import_attr name dg_request_json
             app_properties_json d in
  DGPythonDelegate.handler_instance r = None ->
  DGPythonDelegate.calls (DGPythonDelegate.after r) = DGPythonDelegate.calls d.
Proof.
  cbv zeta. unfold DGPythonDelegate.executeHandler_run.
  assert (Hsome : forall e l c s dd,
            DGPythonDelegate.handler_instance
              (DGPythonDelegate.on_exception name e
                 (DGPythonDelegate.Locals l (Some (c, s))) dd) = None -> False).
  { intros e l c s dd. unfold DGPythonDelegate.on_exception. cbn.
    destruct (DGHandler.call_stop c _ s). cbn. discriminate. }
  destruct (json_loads_str dg_request_json) as [request_dict|e];
    [|intros _; apply on_exception_no_instance].
  destruct (DGPythonDelegate.load_app_props app_properties_json) as [app_props|e];
    [|intros _; apply on_exception_no_instance].
  destruct (py_get request_dict (lit "requestType") (PyStr (lit "UNKNOWN")))
    as [?|e]; [|intros _; apply on_exception_no_instance].
  destruct (py_get request_dict (lit "requestId") (PyStr (lit "unknown")))
    as [?|e]; [|intros _; apply on_exception_no_instance].
  destruct (DGPythonDelegate._load_class import_attr name d) as [[c|e] d1] eqn:Hload;
    pose proof (load_class_calls _ _ _ _ Hload) as Hcalls;
    [|intros _; rewrite on_exception_no_instance; exact Hcalls].
  destruct (DGHandler.new c) as [self0|e];
    [|intros _; rewrite on_exception_no_instance; exact Hcalls].
  destruct (DGHandler.call_start c request_dict _) as [[?|e] self1];
    [|intros H; destruct (Hsome _ _ _ _ _ H)].
  destruct (DGHandler.call_execute c self1) as [[response_dict|e] self2];
    [|intros H; destruct (Hsome _ _ _ _ _ H)].
  destruct (DGHandler.call_stop c response_dict self2) as [[?|e] self3];
    [|intros H; destruct (Hsome _ _ _ _ _ H)].
  destruct (py_get response_dict (lit "status") (PyStr (lit "?"))) as [?|e];
    [|intros H; destruct (Hsome _ _ _ _ _ H)].
  destruct (json_dumps response_dict) as [text|e];
    [|intros H; destruct (Hsome _ _ _ _ _ H)].
  cbn. discriminate.
Qed.

End Stop.

(** C2, as the code has it.  When a handler instance was obtained, the
    worker calls [cleanup] exactly once whether [construct] and [execute]
    return or raise, whatever [cleanup] itself does, and returns the response
    built before [cleanup] ran; the delegate calls [stop] exactly once when
    [start] or [execute] raises, returning the ERROR response built from the
    exception whatever [stop] does, and exactly once when [start], [execute]
    and [stop] return and the response is serialized.  When no instance was
    obtained (the inbound JSON does not parse, the handler does not resolve or
    cannot be instantiated), no [cleanup] or [stop] is called. *)
Theorem cleanup_and_stop_invocations {rt : PyRuntime} (env : Worker.environment)
    (import_attr : pystr -> pystr -> outcome DGHandler.handler_class) :
  (forall data p p1 request config handler,
     json_loads (dict_get_default (lit "request_json") (PyStr (lit "{}")) data)
       = Returns request ->
     json_loads (dict_get_default (lit "config_json") (PyStr (lit "{}")) data)
       = Returns config ->
     Worker.get_handler_instance env
       (dict_get_default (lit "handler_module") (PyStr []) data)
       (dict_get_default (lit "handler_class") (PyStr []) data) p
       = (Returns handler, p1) ->
     exists p4,
       Worker.handle_execute env data p
       = (Returns (built_response env
                     (dict_get_default (lit "handler_module") (PyStr []) data)
                     (dict_get_default (lit "handler_class") (PyStr []) data)
                     handler config request p1), p4)
       /\ count_cleanup (Worker.calls p4) = S (count_cleanup (Worker.calls p)))
  /\ (forall data p p' r,
        (exists e, json_loads (dict_get_default (lit "request_json") (PyStr (lit "{}")) data)
                   = Raises e)
        \/ (exists e, json_loads (dict_get_default (lit "config_json") (PyStr (lit "{}")) data)
                      = Raises e)
        \/ (exists e p1,
              Worker.get_handler_instance env
                (dict_get_default (lit "handler_module") (PyStr []) data)
                (dict_get_default (lit "handler_class") (PyStr []) data) p
              = (Raises e, p1)) ->
        Worker.handle_execute env data p = (r, p') ->
        count_cleanup (Worker.calls p') = count_cleanup (Worker.calls p))
  /\ (forall name dg_request_json app_properties_json d d1 request app_props c
             self0 self1 e,
        json_loads_str dg_request_json = Returns (PyDict request) ->
        DGPythonDelegate.load_app_props app_properties_json = Returns app_props ->
        DGPythonDelegate._load_class import_attr name d = (Returns c, d1) ->
        DGHandler.new c = Returns self0 ->
        DGHandler.call_start c (PyDict request)
          (DGHandler.set_app_properties app_props self0) = (Raises e, self1)
        \/ (exists self2,
              DGHandler.call_start c (PyDict request)
                (DGHandler.set_app_properties app_props self0) = (Returns tt, self2)
              /\ DGHandler.call_execute c self2 = (Raises e, self1)) ->
        let r := DGPythonDelegate.executeHandler_run import_attr name dg_request_json
                   app_properties_json d in
        count_stop (DGPythonDelegate.calls (DGPythonDelegate.after r))
        = S (count_stop (DGPythonDelegate.calls d))
        /\ DGPythonDelegate.response r = Some (delegate_error_response name e request)
        /\ DGPythonDelegate.returned r
           = json_dumps (PyDict (delegate_error_response name e request)))
  /\ (forall name dg_request_json app_properties_json d d1 request app_props
             response_dict status c self0 self1 self2 self3 text,
        json_loads_str dg_request_json = Returns (PyDict request) ->
        DGPythonDelegate.load_app_props app_properties_json = Returns app_props ->
        DGPythonDelegate._load_class import_attr name d = (Returns c, d1) ->
        DGHandler.new c = Returns self0 ->
        DGHandler.call_start c (PyDict request)
          (DGHandler.set_app_properties app_props self0) = (Returns tt, self1) ->
        DGHandler.call_execute c self1 = (Returns response_dict, self2) ->
        DGHandler.call_stop c response_dict self2 = (Returns tt, self3) ->
        py_get response_dict (lit "status") (PyStr (lit "?")) = Returns status ->
        json_dumps response_dict = Returns text ->
        let r := DGPythonDelegate.executeHandler_run import_attr name dg_request_json
                   app_properties_json d in
        count_stop (DGPythonDelegate.calls (DGPythonDelegate.after r))
        = S (count_stop (DGPythonDelegate.calls d))
        /\ DGPythonDelegate.returned r = Returns text)
  /\ (forall name dg_request_json app_properties_json d,
        let r := DGPythonDelegate.executeHandler_run import_attr name dg_request_json
                   app_properties_json d in
        DGPythonDelegate.handler_instance r = None ->
        count_stop (DGPythonDelegate.calls (DGPythonDelegate.after r))
        = count_stop (DGPythonDelegate.calls d)).
Proof.
  split; [|split; [|split; [|split]]].
  - intros. now apply handle_execute_cleanup_once.
  - intros data p p' r Hno Hrun. f_equal.
    exact (handle_execute_no_instance env data p p' r Hno Hrun).
  - intros. eapply executeHandler_error_path; eassumption.
  - intros. eapply executeHandler_success_path; eassumption.
  - intros name req props d r Hnone. f_equal.
    now apply executeHandler_no_instance.
Qed.

(** The theorem on the sample processes: the worker's handler [Reflect]
    (cleanup once, response as built), and the delegate's handler
    [RequiresPayload] on a request without payload ([start] raises, one
    [stop], the ERROR response carries the request's id). *)
Lemma cleanup_and_stop_invocations_witness :
  (exists p4,
     Worker.handle_execute (rt := RefRuntime.runtime) Samples.worker_env
       [(lit "handler_module", PyStr (lit "handlers.reflect"));
        (lit "handler_class", PyStr (lit "Reflect"))] Samples.fresh_process
     = (Returns [(lit "seen", PyDict []);
                 (lit "status", PyStr (lit "SUCCESS"));
                 (lit "data", PyDict [])], p4)
     /\ count_cleanup (Worker.calls p4) = 1%nat)
  /\ (let r := DGPythonDelegate.executeHandler_run (rt := RefRuntime.runtime)
                 Samples.gateway_import_sample (lit "handlers.sample.RequiresPayload")
                 (Samples.json_text (PyDict [(lit "requestId", PyStr (lit "r-42"))]))
                 [] Samples.fresh_delegate in
      count_stop (DGPythonDelegate.calls (DGPythonDelegate.after r)) = 1%nat
      /\ DGPythonDelegate.response r
         = Some (delegate_error_response (rt := RefRuntime.runtime)
                   (lit "handlers.sample.RequiresPayload")
                   (Exn ValueError (lit "Missing 'payload'"))
                   [(lit "requestId", PyStr (lit "r-42"))])
      /\ DGPythonDelegate.returned r
         = @json_dumps RefRuntime.runtime
             (PyDict (delegate_error_response (rt := RefRuntime.runtime)
                                 (lit "handlers.sample.RequiresPayload")
                                 (Exn ValueError (lit "Missing 'payload'"))
                                 [(lit "requestId", PyStr (lit "r-42"))]))).
Proof.
  pose proof (cleanup_and_stop_invocations (rt := RefRuntime.runtime)
                Samples.worker_env Samples.gateway_import_sample)
    as (Hworker & _ & Herror & _ & _).
  split.
  - destruct (Hworker
                [(lit "handler_module", PyStr (lit "handlers.reflect"));
                 (lit "handler_class", PyStr (lit "Reflect"))]
                Samples.fresh_process
                (Worker.Process
                   [(lit "handlers.reflect.Reflect",
                     Worker.Instance Samples.Reflect (PyDict []))] [])
                (PyDict []) (PyDict []) (lit "handlers.reflect.Reflect"))
      as (p4 & Hrun & Hcount); try (vm_compute; reflexivity).
    exists p4. split; [|exact Hcount].
    rewrite Hrun. vm_compute. reflexivity.
  - refine (Herror (lit "handlers.sample.RequiresPayload") _ [] Samples.fresh_delegate
              (DGPythonDelegate.Delegate
                 [(lit "handlers.sample.RequiresPayload", Samples.RequiresPayload)]
                 0 0 [])
              [(lit "requestId", PyStr (lit "r-42"))] (PyDict [])
              Samples.RequiresPayload DGHandler.__init__
              (DGHandler.Instance DGHandler.READY
                 (PyDict [(lit "requestId", PyStr (lit "r-42"))]) (PyDict []) PyNone)
              (Exn ValueError (lit "Missing 'payload'")) _ _ _ _ _).
    + vm_compute. reflexivity.
    + vm_compute. reflexivity.
    + vm_compute. reflexivity.
    + vm_compute. reflexivity.
    + left. vm_compute. reflexivity.
Defined.

(** C2 as stated fails when handler resolution raises: the dispatch answers
    with an ERROR response, and neither the worker's [cleanup] nor the
    delegate's [stop] is called (there is no instance to call it on). *)
Lemma no_cleanup_when_resolution_raises :
  (let run := Worker.handle_execute (rt := RefRuntime.runtime) Samples.worker_env
                [(lit "handler_module", PyStr (lit "handlers.missing"));
                 (lit "handler_class", PyStr (lit "Nope"))] Samples.fresh_process in
   (exists response, fst run = Returns response
      /\ dict_get (lit "status") response = Some (PyStr (lit "ERROR")))
   /\ count_cleanup (Worker.calls (snd run)) <> 1%nat)
  /\ (let run := DGPythonDelegate.executeHandler_run (rt := RefRuntime.runtime)
                   Samples.gateway_import (lit "handlers.missing.Nope")
                   (lit "{}") [] Samples.fresh_delegate in
      (exists response, DGPythonDelegate.response run = Some response
         /\ dict_get (lit "status") response = Some (PyStr (lit "ERROR")))
      /\ count_stop (DGPythonDelegate.calls (DGPythonDelegate.after run)) <> 1%nat).
Proof.
  split; cbv zeta; (split; [eexists; split; vm_compute; reflexivity|]);
    vm_compute; discriminate.
Qed.

(** On the delegate's success path [stop] is called inside the [try]: when
    it raises there, the [except] block calls it a second time and returns an
    ERROR response in place of the SUCCESS response [execute] had built. *)
Remark stop_raising_on_success_path :
  let run := DGPythonDelegate.executeHandler_run (rt := RefRuntime.runtime)
               Samples.gateway_import_faulty (lit "handlers.faulty.StopRaises")
               (lit "{}") [] Samples.fresh_delegate in
  count_stop (DGPythonDelegate.calls (DGPythonDelegate.after run)) = 2%nat
  /\ exists response,
       DGPythonDelegate.response run = Some response
       /\ dict_get (lit "status") response = Some (PyStr (lit "ERROR"))
       /\ dict_get (lit "errorCode") response = Some (PyStr (lit "RuntimeError")).
Proof.
  cbv zeta. split; [vm_compute; reflexivity|].
  eexists. repeat split; vm_compute; reflexivity.
Qed.

(** ** The echo handler under the delegate *)

Lemma echo_compute_keeps_instance (h : EchoPythonHandler.host)
    (request : pyval) (self self' : DGHandler.instance) (o : outcome pyval) :
  EchoPythonHandler.compute h request self = (o, self') -> self' = self.
Proof.
  unfold EchoPythonHandler.compute.
  repeat match goal with
         | |- context [match ?x with Returns _ => _ | Raises _ => _ end] => destruct x
         end;
    intros H; now injection H as _ <-.
Qed.




(** A handler that overrides [execute] answers ERROR responses of its own:
    for the request [{"requestId": "r-42", "payload": {"a": 1}}] the
    dispatch returns an ERROR response whose [requestId] is not [r-42]. *)
Example own_execute_answers_other_request_id :
  expected_request_id (rt := RefRuntime.runtime) Samples.request_r42
  = PyStr (lit "r-42")
  /\ exists resp text,
       DGPythonDelegate.response
         (DGPythonDelegate.executeHandler_run (rt := RefRuntime.runtime)
            gateway_import_own (lit "handlers.own.AnswersOwnError")
            Samples.request_r42 [] Samples.fresh_delegate)
       = Some resp
       /\ DGPythonDelegate.returned
            (DGPythonDelegate.executeHandler_run (rt := RefRuntime.runtime)
               gateway_import_own (lit "handlers.own.AnswersOwnError")
               Samples.request_r42 [] Samples.fresh_delegate)
          = Returns text
       /\ dict_get (lit "status") resp = Some (PyStr (lit "ERROR"))
       /\ dict_get (lit "requestId") resp = Some (PyStr (lit "other")).
Proof.
  split; [vm_compute; reflexivity|].
  eexists; eexists.
  split; [vm_compute; reflexivity|].
  split; [vm_compute; reflexivity|].
  split; vm_compute; reflexivity.
Qed.


(* ================================================================== *)
(** * Further properties of the worker *)

(** ** Frames *)

Lemma recv_loop_keeps_sent (fuel : nat) :
  forall (remaining : Z) (chunks : list (list byte)) (conn conn' : socket)
         (r : Worker.received),
    Worker.recv_loop fuel remaining chunks conn = (r, conn') ->
    sent conn' = sent conn /\ closed conn' = closed conn.
Proof.
  induction fuel as [|fuel IH]; intros remaining chunks conn conn' r;
    cbn [Worker.recv_loop]; destruct (remaining >? 0)%Z;
    try (intros H; injection H as _ <-; split; reflexivity).
  destruct (recv (Z.min remaining 65536) conn) as [chunk conn1] eqn:Er.
  pose proof (recv_effect _ _ _ _ Er) as (_ & _ & _ & Hsent & Hclosed).
  destruct chunk as [|b chunk].
  - intros H. injection H as _ <-. now split.
  - intros H. destruct (IH _ _ _ _ _ H) as [H1 H2]. split; congruence.
Qed.

Section Frames.
Context {rt : PyRuntime}.

Lemma read_message_keeps_sent (conn conn' : socket) (r : outcome pyval) :
  Worker.read_message conn = (r, conn') ->
  sent conn' = sent conn /\ closed conn' = closed conn.
Proof.
  unfold Worker.read_message.
  destruct (recv 4 conn) as [raw_len conn1] eqn:Er.
  pose proof (recv_effect _ _ _ _ Er) as (_ & _ & _ & Hsent & Hclosed).
  destruct (len raw_len <? 4)%Z; [intros H; injection H as _ <-; now split|].
  destruct (unpack_I raw_len) as [msg_len|e];
    [|intros H; injection H as _ <-; now split].
  destruct ((msg_len <=? 0) || (msg_len >? 50 * 1024 * 1024))%Z;
    [intros H; injection H as _ <-; now split|].
  destruct (Worker.recv_loop (Z.to_nat msg_len) msg_len [] conn1) as [got conn2] eqn:El.
  destruct (recv_loop_keeps_sent _ _ _ _ _ _ El) as [H1 H2].
  assert (sent conn2 = sent conn /\ closed conn2 = closed conn) as Hboth
    by (split; congruence).
  destruct got as [chunks| |]; try (intros H; injection H as _ <-; exact Hboth).
  destruct (utf8_decode (concat chunks)); intros H; injection H as _ <-; exact Hboth.
Qed.

(** X1.  Whatever the segmentation of the stream after the first four
    bytes, [read_message] on a stream that starts with a frame returns what
    the payload decodes and parses to, leaves exactly the bytes after the
    frame unread, and sends nothing. *)
Theorem read_message_reads_one_frame (conn : socket) (seg : list byte)
    (segs : list (list byte)) (prefix payload rest : list byte) :
  well_segmented conn ->
  incoming conn = seg :: segs -> (4 <= length seg)%nat ->
  stream conn = prefix ++ payload ++ rest ->
  pack_I (len payload) = Returns prefix ->
  (0 < len payload <= 50 * 1024 * 1024)%Z ->
  exists conn',
    Worker.read_message conn
    = (match utf8_decode payload with
       | Raises e => Raises e
       | Returns text => json_loads_str text
       end, conn')
    /\ stream conn' = rest
    /\ sent conn' = sent conn.
Proof. apply read_message_frame. Qed.

Lemma stream_nil_incoming (conn : socket) :
  well_segmented conn -> stream conn = [] -> incoming conn = [].
Proof.
  unfold well_segmented, stream. destruct (incoming conn) as [|seg segs]; [reflexivity|].
  intros Hw H. inversion Hw as [|? ? Hseg _]; subst.
  destruct seg; [contradiction|discriminate].
Qed.

(** When the peer closes before the bytes still owed have arrived, the
    receive loop stops with everything consumed. *)
Lemma recv_loop_peer_closed (fuel : nat) :
  forall (remaining : Z) (chunks : list (list byte)) (conn : socket),
    (0 < remaining <= Z.of_nat fuel)%Z ->
    well_segmented conn ->
    (len (stream conn) < remaining)%Z ->
    exists conn',
      Worker.recv_loop fuel remaining chunks conn = (Worker.PeerClosed, conn')
      /\ stream conn' = [].
Proof.
  induction fuel as [|fuel IH]; intros remaining chunks conn Hrem Hw Hshort; [lia|].
  cbn [Worker.recv_loop]. destruct (Z.gtb_spec remaining 0) as [_|?]; [|lia].
  destruct (recv (Z.min remaining 65536) conn) as [chunk conn1] eqn:Er.
  pose proof (recv_effect _ _ _ _ Er) as (Hs & _).
  pose proof (recv_well_segmented _ _ _ _ Er Hw) as Hw1.
  destruct chunk as [|b chunk].
  - exists conn1. split; [reflexivity|].
    destruct (stream conn) as [|x xs] eqn:Es.
    + cbn in Hs. exact Hs.
    + exfalso. assert (Hne : stream conn <> []) by (rewrite Es; discriminate).
      apply (recv_some _ _ _ _ Er Hw); [lia|exact Hne|reflexivity].
  - rewrite <- Hs, len_app in Hshort.
    pose proof (len_nonneg (stream conn1)) as Hpos.
    assert (0 < len (b :: chunk))%Z by (unfold len; simpl length; lia).
    apply IH; [lia|assumption|lia].
Qed.

(** X2.  A frame whose payload is cut short (the peer closes before the
    declared number of bytes has arrived) makes [read_message] return [None]
    with the stream used up; [handle_connection] then closes the connection
    without any response. *)
Theorem read_message_truncated_frame (env : Worker.environment) (conn : socket)
    (p : Worker.process) (seg : list byte) (segs : list (list byte))
    (prefix partial : list byte) (msg_len : Z) :
  well_segmented conn ->
  incoming conn = seg :: segs -> (4 <= length seg)%nat ->
  stream conn = prefix ++ partial ->
  unpack_I prefix = Returns msg_len ->
  (0 < msg_len <= 50 * 1024 * 1024)%Z ->
  (len partial < msg_len)%Z ->
  exists conn',
    Worker.read_message conn = (Returns PyNone, conn')
    /\ stream conn' = []
    /\ Worker.handle_connection env conn p = (true, close conn', p)
    /\ sent (close conn') = sent conn.
Proof.
  intros Hw Hin Hseg Hstream Hunpack Hlen Hshort.
  assert (Hp4 : length prefix = 4%nat).
  { destruct prefix as [|? [|? [|? [|? [|? ?]]]]]; try discriminate. reflexivity. }
  assert (Hread : exists conn',
             Worker.read_message conn = (Returns PyNone, conn') /\ stream conn' = []).
  { unfold Worker.read_message.
    destruct (recv 4 conn) as [raw_len conn1] eqn:Er.
    pose proof (recv_effect _ _ _ _ Er) as (Hs & Hn & _).
    pose proof (recv_well_segmented _ _ _ _ Er Hw) as Hw1.
    assert (Hraw : length raw_len = 4%nat).
    { unfold recv in Er. rewrite Hin in Er. cbv beta iota zeta in Er.
      apply (f_equal fst) in Er. cbn [fst] in Er. subst raw_len.
      rewrite length_firstn. change (Z.to_nat 4) with 4%nat. lia. }
    rewrite Hstream in Hs.
    destruct (app_eq_split raw_len (stream conn1) prefix partial Hs)
      as (u & Hu & Hrest); [lia|].
    assert (u = []) as ->.
    { apply (f_equal (@length byte)) in Hu. rewrite length_app in Hu.
      destruct u; [reflexivity|simpl in Hu; lia]. }
    rewrite app_nil_r in Hu. subst raw_len. cbn [app] in Hrest.
    destruct (Z.ltb_spec (len prefix) 4) as [Hlt|_]; [unfold len in Hlt; lia|].
    rewrite Hunpack.
    destruct (Z.leb_spec msg_len 0); [lia|].
    destruct (Z.gtb_spec msg_len (50 * 1024 * 1024)); [lia|].
    cbn [orb].
    destruct (recv_loop_peer_closed (Z.to_nat msg_len) msg_len [] conn1)
      as (conn' & Hloop & Hnil); [lia|assumption|rewrite Hrest; lia|].
    exists conn'. now rewrite Hloop. }
  destruct Hread as (conn' & Hread & Hnil).
  exists conn'. repeat split; try assumption.
  - unfold Worker.handle_connection. now rewrite Hread.
  - cbn. exact (proj1 (read_message_keeps_sent _ _ _ Hread)).
Qed.

Lemma recv_loop_keeps_deliveries (fuel : nat) :
  forall (remaining : Z) (chunks : list (list byte)) (conn conn' : socket)
         (r : Worker.received),
    Worker.recv_loop fuel remaining chunks conn = (r, conn') ->
    deliveries conn' = deliveries conn.
Proof.
  induction fuel as [|fuel IH]; intros remaining chunks conn conn' r;
    cbn [Worker.recv_loop]; destruct (remaining >? 0)%Z;
    try (intros H; injection H as _ <-; reflexivity).
  unfold recv. destruct (incoming conn) as [|seg segs].
  - intros H. injection H as _ <-. reflexivity.
  - cbv beta iota zeta.
    destruct (firstn (Z.to_nat (Z.min remaining 65536)) seg) as [|b chunk].
    + intros H. injection H as _ <-. reflexivity.
    + intros H. now rewrite (IH _ _ _ _ _ H).
Qed.

Lemma read_message_keeps_deliveries (conn conn' : socket) (r : outcome pyval) :
  Worker.read_message conn = (r, conn') -> deliveries conn' = deliveries conn.
Proof.
  unfold Worker.read_message.
  destruct (recv 4 conn) as [raw_len conn1] eqn:Er.
  assert (H1 : deliveries conn1 = deliveries conn).
  { unfold recv in Er. destruct (incoming conn); injection Er as _ <-; reflexivity. }
  destruct (len raw_len <? 4)%Z; [intros H; now injection H as _ <-|].
  destruct (unpack_I raw_len) as [msg_len|e]; [|intros H; now injection H as _ <-].
  destruct ((msg_len <=? 0) || (msg_len >? 50 * 1024 * 1024))%Z;
    [intros H; now injection H as _ <-|].
  destruct (Worker.recv_loop (Z.to_nat msg_len) msg_len [] conn1) as [got conn2] eqn:El.
  pose proof (recv_loop_keeps_deliveries _ _ _ _ _ _ El) as H2.
  assert (Hboth : deliveries conn2 = deliveries conn) by congruence.
  destruct got as [chunks| |]; try (intros H; injection H as _ <-; exact Hboth).
  destruct (utf8_decode (concat chunks)); intros H; injection H as _ <-; exact Hboth.
Qed.

(** One [sendall]: the buffer went out whole and the call returned, or the
    call raised after a part of the buffer went out that misses bytes at
    its end. *)
Lemma sendall_cases (data : list byte) (conn conn' : socket) (r : outcome unit) :
  sendall data conn = (r, conn') ->
  closed conn' = closed conn
  /\ incoming conn' = incoming conn
  /\ ((r = Returns tt /\ sent conn' = sent conn ++ [data])
      \/ (exists e part rest,
            r = Raises e /\ sent conn' = sent conn ++ [part]
            /\ data = part ++ rest /\ (data <> [] -> rest <> [])
            /\ ~ delivers conn)).
Proof.
  unfold sendall, delivers. destruct (deliveries conn) as [|[|taken e] later];
    intros H; injection H as <- <-; cbn [closed incoming sent];
    (split; [reflexivity|]); (split; [reflexivity|]).
  - now left.
  - now left.
  - right. exists e, (firstn (Nat.min taken (Nat.pred (length data))) data),
                   (skipn (Nat.min taken (Nat.pred (length data))) data).
    split; [reflexivity|]. split; [reflexivity|].
    split; [now rewrite firstn_skipn|]. split; [|now intros H].
    intros Hdata Hrest. apply (f_equal (@length byte)) in Hrest.
    rewrite length_skipn in Hrest. destruct data as [|b data]; [now apply Hdata|].
    cbn [length Nat.pred] in Hrest. lia.
Qed.


End Frames.

(** ** Connections *)

Section Connections.
Context {rt : PyRuntime} (env : Worker.environment).

Lemma write_message_effect (conn conn' : socket) (data : pyval) (r : outcome unit) :
  Worker.write_message conn data = (r, conn') ->
  (exists e, r = Raises e /\ conn' = conn)
  \/ (exists buffer, frame_of data buffer /\ sendall buffer conn = (r, conn')).
Proof.
  unfold Worker.write_message, frame_of.
  destruct (json_dumps data) as [text|e];
    [|intros H; injection H as <- <-; left; now exists e].
  destruct (utf8_encode text) as [payload|e] eqn:Henc;
    [|intros H; injection H as <- <-; left; now exists e].
  destruct (pack_I (len payload)) as [prefix|e] eqn:Hpack;
    [|intros H; injection H as <- <-; left; now exists e].
  intros H. right. exists (prefix ++ payload). split; [|exact H].
  now exists text, payload, prefix.
Qed.

Lemma frame_of_is_frame (data : pyval) (buffer : list byte) :
  frame_of data buffer -> is_frame buffer.
Proof.
  intros (text & payload & prefix & _ & _ & Hpack & ->).
  exists prefix, payload. split; [reflexivity|exact (unpack_pack_I _ _ Hpack)].
Qed.

Lemma is_frame_not_empty (buffer : list byte) : is_frame buffer -> buffer <> [].
Proof.
  intros (prefix & payload & -> & Hunpack).
  destruct prefix; [discriminate Hunpack|discriminate].
Qed.

(** What one [write_message] leaves on the wire. *)
Lemma write_message_wire (conn conn' : socket) (data : pyval) (r : outcome unit) :
  Worker.write_message conn data = (r, conn') ->
  closed conn' = closed conn
  /\ ((conn' = conn /\ exists e, r = Raises e)
      \/ (r = Returns tt
          /\ exists whole, is_frame whole /\ sent conn' = sent conn ++ [whole])
      \/ (exists e part,
            r = Raises e /\ part_of_frame part
            /\ sent conn' = sent conn ++ [part] /\ ~ delivers conn)).
Proof.
  intros H. destruct (write_message_effect _ _ _ _ H)
    as [(e & -> & ->)|(buffer & Hf & Hsend)].
  - split; [reflexivity|]. left. split; [reflexivity|now exists e].
  - pose proof (frame_of_is_frame _ _ Hf) as Hframe.
    destruct (sendall_cases _ _ _ _ Hsend)
      as (Hc & _ & [(-> & Hs)|(e & part & rest & -> & Hs & Hcut & Hne & Hbroken)]).
    + split; [exact Hc|]. right; left. split; [reflexivity|now exists buffer].
    + split; [exact Hc|]. right; right. exists e, part.
      split; [reflexivity|]. split; [|now split].
      exists buffer, rest. split; [exact Hframe|]. split; [exact Hcut|].
      apply Hne. exact (is_frame_not_empty _ Hframe).
Qed.

Lemma handle_request_returns_on_dict (data : pyval) (p p1 : Worker.process)
    (response : pydict) :
  Worker.handle_request env data p = (Returns response, p1) ->
  exists d, data = PyDict d.
Proof.
  destruct data; try (cbn; intros H; discriminate H). intros _. now eexists.
Qed.

(** The calls of [write_message] one [handle_connection] makes: none; one;
    or a second one after the first raised. *)
Lemma handle_connection_writes (conn : socket) (p : Worker.process) :
  let '(_, conn', _) := Worker.handle_connection env conn p in
  exists r conn1,
    Worker.read_message conn = (r, conn1)
    /\ (conn' = close conn1
        \/ (exists doc, conn' = close (snd (Worker.write_message conn1 doc)))
        \/ (exists doc e conn2 doc',
              Worker.write_message conn1 doc = (Raises e, conn2)
              /\ conn' = close (snd (Worker.write_message conn2 doc')))).
Proof.
  unfold Worker.handle_connection.
  destruct (Worker.read_message conn) as [r conn1] eqn:Hread.
  assert (Hfailed : forall (e : exn) (q : Worker.process),
             let '(_, conn', _) :=
               (let '(keep_running, conn', p') :=
                  (let (_, conn') :=
                     Worker.write_message conn1
                       (PyDict [(lit "status", PyStr (lit "ERROR"));
                                (lit "error_message", PyStr (exn_msg e))]) in
                   (true, conn', q)) in
                (keep_running, close conn', p')) in
             exists r0 c1,
               (r, conn1) = (r0, c1)
               /\ (conn' = close c1
                   \/ (exists doc, conn' = close (snd (Worker.write_message c1 doc)))
                   \/ (exists doc e0 conn2 doc',
                         Worker.write_message c1 doc = (Raises e0, conn2)
                         /\ conn' = close (snd (Worker.write_message conn2 doc'))))).
  { intros e q.
    destruct (Worker.write_message conn1 _) as [r' c'] eqn:Hw.
    exists r, conn1. split; [reflexivity|]. right; left.
    eexists. rewrite Hw. reflexivity. }
  destruct r as [data|e]; [|exact (Hfailed e p)].
  destruct (Worker.handle_request env data p) as [[response|e] p1] eqn:Hreq.
  - destruct (handle_request_returns_on_dict _ _ _ _ Hreq) as [d ->].
    destruct (Worker.write_message conn1 (PyDict response)) as [[[]|e] conn2] eqn:Hw.
    + cbn [py_get].
      destruct (eq_str _ _);
        (exists (Returns (PyDict d)), conn1; split; [reflexivity|];
         right; left; exists (PyDict response); rewrite Hw; reflexivity).
    + destruct (Worker.write_message conn2 _) as [r' c'] eqn:Hw2.
      exists (Returns (PyDict d)), conn1. split; [reflexivity|].
      right; right. eexists; exists e, conn2; eexists.
      split; [exact Hw|]. rewrite Hw2. reflexivity.
  - destruct data; try exact (Hfailed e p1).
    exists (Returns PyNone), conn1. split; [reflexivity|now left].
Qed.

Lemma handle_connection_reply (conn : socket) (p : Worker.process) :
  let '(_, conn', _) := Worker.handle_connection env conn p in
  answered conn conn'
  /\ (delivers conn ->
      sent conn' = sent conn
      \/ exists buffer, is_frame buffer /\ sent conn' = sent conn ++ [buffer]).
Proof.
  pose proof (handle_connection_writes conn p) as H.
  destruct (Worker.handle_connection env conn p) as [[k conn'] p'].
  destruct H as (r & conn1 & Hread & Hwrites).
  destruct (read_message_keeps_sent _ _ _ Hread) as [Hsent Hclosed].
  pose proof (read_message_keeps_deliveries _ _ _ Hread) as Hdel.
  assert (Hd : delivers conn <-> delivers conn1)
    by (unfold delivers; now rewrite Hdel).
  unfold answered.
  destruct Hwrites as [->|[(doc & ->)|(doc & e & conn2 & doc' & Hw1 & ->)]].
  - cbn [closed sent close]. rewrite Hsent. split.
    + split; [reflexivity|]. exists []. rewrite app_nil_r. split; [reflexivity|now left].
    + intros _. now left.
  - destruct (Worker.write_message conn1 doc) as [r1 c1] eqn:Hw.
    destruct (write_message_wire _ _ _ _ Hw)
      as (_ & [(-> & _)|[(_ & whole & Hwhole & Hs)|(e & part & _ & Hpart & Hs & Hbroken)]]);
      cbn [snd closed sent close]; rewrite ?Hs, Hsent.
    + split; [split; [reflexivity|]|intros _; now left].
      exists []. rewrite app_nil_r. split; [reflexivity|now left].
    + split; [split; [reflexivity|]|intros _; right; now exists whole].
      exists [whole]. split; [reflexivity|]. right; left. now exists whole.
    + split; [split; [reflexivity|]|intros Hc; now apply Hd in Hc].
      exists [part]. split; [reflexivity|]. right; right; left. now exists part.
  - destruct (write_message_wire _ _ _ _ Hw1)
      as (_ & [(-> & _)|[(Hr & _)|(e1 & part & _ & Hpart & Hs1 & Hbroken)]]);
      [|discriminate Hr|].
    + destruct (Worker.write_message conn1 doc') as [r2 c2] eqn:Hw2.
      destruct (write_message_wire _ _ _ _ Hw2)
        as (_ & [(-> & _)|[(_ & whole & Hwhole & Hs)
                          |(e2 & part & _ & Hpart & Hs & Hbroken)]]);
        cbn [snd closed sent close]; rewrite ?Hs, Hsent.
      * split; [split; [reflexivity|]|intros _; now left].
        exists []. rewrite app_nil_r. split; [reflexivity|now left].
      * split; [split; [reflexivity|]|intros _; right; now exists whole].
        exists [whole]. split; [reflexivity|]. right; left. now exists whole.
      * split; [split; [reflexivity|]|intros Hc; now apply Hd in Hc].
        exists [part]. split; [reflexivity|]. right; right; left. now exists part.
    + destruct (Worker.write_message conn2 doc') as [r2 c2] eqn:Hw2.
      split; [|intros Hc; now apply Hd in Hc].
      destruct (write_message_wire _ _ _ _ Hw2)
        as (_ & [(-> & _)|[(_ & whole & Hwhole & Hs)
                          |(e2 & part2 & _ & Hpart2 & Hs & _)]]);
        cbn [snd closed sent close]; rewrite ?Hs, Hs1, Hsent;
        (split; [reflexivity|]).
      * exists [part]. split; [reflexivity|]. right; right; left. now exists part.
      * exists [part; whole]. split; [now rewrite <- app_assoc|].
        right; right; right. exists part, whole. repeat split; auto.
      * exists [part; part2]. split; [now rewrite <- app_assoc|].
        right; right; right. exists part, part2. repeat split; auto.
Qed.


Lemma handle_request_shutdown (d : pydict) (p : Worker.process) :
  dict_get (lit "command") d = Some (PyStr (lit "shutdown")) ->
  Worker.handle_request env (PyDict d) p
  = (Returns [(lit "status", PyStr (lit "shutdown_ack"))], p).
Proof.
  intros H. unfold Worker.handle_request, dict_get_default. rewrite H. reflexivity.
Qed.

Lemma handle_connection_false (conn conn' : socket) (p p' : Worker.process) :
  Worker.handle_connection env conn p = (false, conn', p') ->
  exists d conn1 buffer conn2,
    Worker.read_message conn = (Returns (PyDict d), conn1)
    /\ dict_get (lit "command") d = Some (PyStr (lit "shutdown"))
    /\ frame_of (PyDict [(lit "status", PyStr (lit "shutdown_ack"))]) buffer
    /\ sendall buffer conn1 = (Returns tt, conn2)
    /\ conn' = close conn2
    /\ sent conn' = sent conn ++ [buffer]
    /\ p' = p.
Proof.
  unfold Worker.handle_connection.
  destruct (Worker.read_message conn) as [r conn1] eqn:Hread.
  assert (Hfailed : forall (e : exn) (c : socket) (q : Worker.process),
             (let '(keep_running, c', q') :=
                (let (_, c') :=
                   Worker.write_message c
                     (PyDict [(lit "status", PyStr (lit "ERROR"));
                              (lit "error_message", PyStr (exn_msg e))]) in
                 (true, c', q)) in
              (keep_running, close c', q')) <> (false, conn', p')).
  { intros e c q. destruct (Worker.write_message c _). cbn. discriminate. }
  destruct r as [data|e]; [|intros H; now apply Hfailed in H].
  destruct data as [|b|z|t|s|l|d|n];
    try (intros H; first [discriminate H | exact (False_ind _ (Hfailed _ _ _ H))]).
  destruct (dict_get (lit "command") d) as [v|] eqn:Hc.
  2:{ cbn [py_get]. unfold dict_get_default at 1. rewrite Hc.
      destruct (Worker.handle_request env (PyDict d) p) as [[response|e] p1];
        [|intros H; now apply Hfailed in H].
      destruct (Worker.write_message conn1 (PyDict response)) as [[[]|e] conn2];
        [|intros H; now apply Hfailed in H].
      cbn. discriminate. }
  destruct (eq_str v (lit "shutdown")) eqn:He.
  - apply eq_str_true in He. subst v.
    rewrite (handle_request_shutdown d p Hc).
    destruct (Worker.write_message conn1 _) as [[[]|e] conn2] eqn:Hw;
      [|intros H; now apply Hfailed in H].
    destruct (write_message_effect _ _ _ _ Hw) as [(e & He & _)|(buffer & Hf & Hsend)];
      [discriminate He|].
    cbn [py_get]. unfold dict_get_default. rewrite Hc.
    intros H. injection H as <- <-.
    exists d, conn1, buffer, conn2. repeat split; try assumption.
    destruct (sendall_cases _ _ _ _ Hsend)
      as (_ & _ & [(_ & Hs)|(e & part & rest & Hr & _)]); [|discriminate Hr].
    cbn [sent close]. rewrite Hs.
    now rewrite (proj1 (read_message_keeps_sent _ _ _ Hread)).
  - cbn [py_get]. unfold dict_get_default at 1. rewrite Hc, He.
    destruct (Worker.handle_request env (PyDict d) p) as [[response|e] p1];
      [|intros H; now apply Hfailed in H].
    destruct (Worker.write_message conn1 (PyDict response)) as [[[]|e] conn2];
      [|intros H; now apply Hfailed in H].
    discriminate.
Qed.

(** X5.  [handle_connection] tells the accept loop to stop only when it has
    read a JSON object whose [command] is [shutdown] and has sent the frame
    of [{"status": "shutdown_ack"}] ([sendall] returned, the whole frame
    went out); the handler cache is as it was. *)
Theorem handle_connection_stops_only_on_shutdown (conn conn' : socket)
    (p p' : Worker.process) :
  Worker.handle_connection env conn p = (false, conn', p') ->
  exists d conn1 buffer conn2,
    Worker.read_message conn = (Returns (PyDict d), conn1)
    /\ dict_get (lit "command") d = Some (PyStr (lit "shutdown"))
    /\ frame_of (PyDict [(lit "status", PyStr (lit "shutdown_ack"))]) buffer
    /\ sendall buffer conn1 = (Returns tt, conn2)
    /\ conn' = close conn2
    /\ sent conn' = sent conn ++ [buffer]
    /\ p' = p.
Proof. apply handle_connection_false. Qed.

Lemma read_message_arrives (conn : socket) (payload rest : list byte) (data : pyval) :
  arrives conn payload rest -> carries payload data ->
  exists conn1,
    Worker.read_message conn = (Returns data, conn1)
    /\ stream conn1 = rest /\ sent conn1 = sent conn.
Proof.
  intros (Hw & (seg & segs & Hin & Hseg) & (prefix & Hpack & Hs) & Hlen)
         (text & Hdec & Hloads).
  destruct (read_message_frame conn seg segs prefix payload rest Hw Hin Hseg Hs Hpack Hlen)
    as (conn1 & Hread & Hrest & Hsent).
  exists conn1. rewrite Hread, Hdec, Hloads. now repeat split.
Qed.


(** X7.  A frame that carries the JSON document [null] gets no answer at
    all: the connection is closed with nothing sent, and the worker keeps
    running with its handler cache untouched. *)
Theorem handle_connection_null_frame (conn : socket) (payload rest : list byte)
    (p : Worker.process) :
  arrives conn payload rest ->
  carries payload PyNone ->
  exists conn',
    Worker.handle_connection env conn p = (true, conn', p)
    /\ sent conn' = sent conn
    /\ closed conn' = true.
Proof.
  intros Harr Hcar.
  destruct (read_message_arrives _ _ _ _ Harr Hcar) as (conn1 & Hread & _ & Hsent).
  unfold Worker.handle_connection. rewrite Hread.
  exists (close conn1). now repeat split.
Qed.


End Connections.

(** ** The same on the reference runtime *)

(** A [ping] envelope whose frame arrives in two pieces, followed by two
    bytes of a next frame. *)
Lemma read_message_reads_one_frame_witness :
  exists conn',
    Worker.read_message (rt := RefRuntime.runtime)
      (Samples.fresh_socket
         [firstn 6 (frame_bytes (PyDict [(lit "command", PyStr (lit "ping"))]));
          skipn 6 (frame_bytes (PyDict [(lit "command", PyStr (lit "ping"))]));
          [x00; x00]])
    = (match utf8_decode (payload_of (PyDict [(lit "command", PyStr (lit "ping"))])) with
       | Raises e => Raises e
       | Returns text => json_loads_str (PyRuntime := RefRuntime.runtime) text
       end, conn')
    /\ stream conn' = [x00; x00]
    /\ sent conn' = [].
Proof.
  apply (read_message_reads_one_frame (rt := RefRuntime.runtime)
           (Samples.fresh_socket
              [firstn 6 (frame_bytes (PyDict [(lit "command", PyStr (lit "ping"))]));
               skipn 6 (frame_bytes (PyDict [(lit "command", PyStr (lit "ping"))]));
               [x00; x00]])
           (firstn 6 (frame_bytes (PyDict [(lit "command", PyStr (lit "ping"))])))
           [skipn 6 (frame_bytes (PyDict [(lit "command", PyStr (lit "ping"))]));
            [x00; x00]]
           (prefix_of (payload_of (PyDict [(lit "command", PyStr (lit "ping"))])))
           (payload_of (PyDict [(lit "command", PyStr (lit "ping"))]))
           [x00; x00]).
  - segments.
  - reflexivity.
  - vm_compute. lia.
  - vm_compute. reflexivity.
  - vm_compute. reflexivity.
  - vm_compute. split; [reflexivity|discriminate].
Defined.

(** A frame that declares five bytes of which two arrive. *)
Lemma read_message_truncated_frame_witness :
  exists conn',
    Worker.read_message (rt := RefRuntime.runtime)
      (Samples.fresh_socket [[x00; x00; x00; x05; x7b]; [x7d]])
    = (Returns PyNone, conn')
    /\ stream conn' = []
    /\ Worker.handle_connection (rt := RefRuntime.runtime) Samples.worker_env
         (Samples.fresh_socket [[x00; x00; x00; x05; x7b]; [x7d]]) Samples.fresh_process
       = (true, close conn', Samples.fresh_process)
    /\ sent (close conn') = [].
Proof.
  apply (read_message_truncated_frame (rt := RefRuntime.runtime) Samples.worker_env
           (Samples.fresh_socket [[x00; x00; x00; x05; x7b]; [x7d]])
           Samples.fresh_process [x00; x00; x00; x05; x7b] [[x7d]]
           [x00; x00; x00; x05] [x7b; x7d] 5).
  - segments.
  - reflexivity.
  - vm_compute. lia.
  - reflexivity.
  - vm_compute. reflexivity.
  - lia.
  - vm_compute. reflexivity.
Defined.

(** The sample worker stops on the frame of [{"command": "shutdown"}]. *)
Lemma handle_connection_stops_only_on_shutdown_witness :
  exists d conn1 buffer conn2,
    Worker.read_message (rt := RefRuntime.runtime)
      (Samples.fresh_socket [frame_bytes (PyDict [(lit "command", PyStr (lit "shutdown"))])])
    = (Returns (PyDict d), conn1)
    /\ dict_get (lit "command") d = Some (PyStr (lit "shutdown"))
    /\ frame_of (rt := RefRuntime.runtime)
         (PyDict [(lit "status", PyStr (lit "shutdown_ack"))]) buffer
    /\ sendall buffer conn1 = (Returns tt, conn2)
    /\ snd (fst (Worker.handle_connection (rt := RefRuntime.runtime) Samples.worker_env
                   (Samples.fresh_socket
                      [frame_bytes (PyDict [(lit "command", PyStr (lit "shutdown"))])])
                   Samples.fresh_process))
       = close conn2
    /\ sent (snd (fst (Worker.handle_connection (rt := RefRuntime.runtime)
                         Samples.worker_env
                         (Samples.fresh_socket
                            [frame_bytes
                               (PyDict [(lit "command", PyStr (lit "shutdown"))])])
                         Samples.fresh_process)))
       = sent (Samples.fresh_socket
                 [frame_bytes (PyDict [(lit "command", PyStr (lit "shutdown"))])])
         ++ [buffer]
    /\ Samples.fresh_process = Samples.fresh_process.
Proof.
  apply (handle_connection_stops_only_on_shutdown (rt := RefRuntime.runtime)
           Samples.worker_env
           (Samples.fresh_socket
              [frame_bytes (PyDict [(lit "command", PyStr (lit "shutdown"))])])
           (snd (fst (Worker.handle_connection (rt := RefRuntime.runtime)
                        Samples.worker_env
                        (Samples.fresh_socket
                           [frame_bytes (PyDict [(lit "command", PyStr (lit "shutdown"))])])
                        Samples.fresh_process)))
           Samples.fresh_process Samples.fresh_process).
  vm_compute. reflexivity.
Defined.


(** The frame of [null]. *)
Lemma handle_connection_null_frame_witness :
  exists conn',
    Worker.handle_connection (rt := RefRuntime.runtime) Samples.worker_env
      (Samples.fresh_socket [[x00; x00; x00; x04; x6e; x75; x6c; x6c]])
      Samples.fresh_process
    = (true, conn', Samples.fresh_process)
    /\ sent conn' = []
    /\ closed conn' = true.
Proof.
  apply (handle_connection_null_frame (rt := RefRuntime.runtime) Samples.worker_env
           (Samples.fresh_socket [[x00; x00; x00; x04; x6e; x75; x6c; x6c]])
           [x6e; x75; x6c; x6c] [] Samples.fresh_process).
  - frame_arrives.
  - frame_carries.
Defined.


(** ** The execute path, whatever the handler does *)

Section ExecuteContainment.
Context {rt : PyRuntime} (env : Worker.environment).

Lemma ensure_proper_dict_proper (result : pyval) :
  proper_response (Worker.ensure_proper_dict result).
Proof.
  assert (Hdict : forall d, proper_response (Worker.ensure_proper_dict (PyDict d))).
  { intros d. unfold proper_response, dict_mem.
    destruct (ensure_proper_dict_on_dict d) as (Hkeep & Hstatus & Hdata & _).
    split.
    - destruct (dict_get (lit "status") d) as [v|] eqn:E.
      + now rewrite (Hkeep _ _ E).
      + now rewrite (Hstatus eq_refl).
    - intros Hs. destruct (dict_get (lit "data") d) as [v|] eqn:E.
      + now rewrite (Hkeep _ _ E).
      + now rewrite (Hdata eq_refl Hs). }
  destruct result; try apply Hdict;
    exact (Hdict [(lit "status", PyStr (lit "SUCCESS"));
                  (lit "data", PyDict [(lit "result", PyStr (py_str _))])]).
Qed.

Lemma failed_response_proper (handler_module handler_class : pyval) (e : exn) :
  proper_response (Worker.failed_response handler_module handler_class e).
Proof. split; [reflexivity|]. intros H. vm_compute in H. discriminate H. Qed.

(** X9.  Once the two JSON fields of an [execute] envelope are strings
    (so that [json.loads] returns or raises [JSONDecodeError]),
    [handle_execute] returns a response whatever the handler does: no
    exception of the import, of the constructor, of [construct], [execute]
    or [cleanup] escapes it.  The response has a [status], and a [data]
    whenever the status is SUCCESS. *)
Theorem handle_execute_returns_proper_response (data : pydict) (p : Worker.process) :
  (forall e,
     json_loads (dict_get_default (lit "request_json") (PyStr (lit "{}")) data) = Raises e ->
     is_class JSONDecodeError e = true) ->
  (forall e,
     json_loads (dict_get_default (lit "config_json") (PyStr (lit "{}")) data) = Raises e ->
     is_class JSONDecodeError e = true) ->
  exists response p',
    Worker.handle_execute env data p = (Returns response, p')
    /\ proper_response response.
Proof.
  intros Hrequest Hconfig. unfold Worker.handle_execute.
  assert (Hinvalid : forall m,
             proper_response [(lit "status", PyStr (lit "ERROR"));
                              (lit "error_message", PyStr m)]).
  { intros m. split; [reflexivity|]. intros H. vm_compute in H. discriminate H. }
  destruct (json_loads (dict_get_default (lit "request_json") _ data)) as [request|e].
  2:{ rewrite (Hrequest e eq_refl). eexists; eexists; split; [reflexivity|apply Hinvalid]. }
  destruct (json_loads (dict_get_default (lit "config_json") _ data)) as [config|e].
  2:{ rewrite (Hconfig e eq_refl). eexists; eexists; split; [reflexivity|apply Hinvalid]. }
  destruct (Worker.get_handler_instance env _ _ p) as [[handler|e] p1].
  2:{ eexists; eexists; split; [reflexivity|apply failed_response_proper]. }
  destruct (Worker.invoke handler (Worker.CallConstruct handler) _ p1) as [[[]|e] p2].
  - destruct (Worker.invoke handler (Worker.CallExecute handler) _ p2) as [[result|e] p3];
      destruct (Worker.invoke handler (Worker.CallCleanup handler) _ p3) as [c p4];
      eexists; eexists; (split; [reflexivity|]).
    + apply ensure_proper_dict_proper.
    + apply failed_response_proper.
  - destruct (Worker.invoke handler (Worker.CallCleanup handler) _ p2) as [c p4].
    eexists; eexists; split; [reflexivity|apply failed_response_proper].
Qed.

End ExecuteContainment.

(** ** The handler cache *)

Lemma worker_cache_get_set_other (key k : pystr) (i : Worker.instance)
    (c : list (pystr * Worker.instance)) :
  key <> k -> Worker.cache_get key (Worker.cache_set k i c) = Worker.cache_get key c.
Proof.
  intros Hne. induction c as [|[k0 i0] c IH]; simpl.
  - apply str_eqb_neq in Hne. now rewrite Hne.
  - destruct (str_eqb k k0) eqn:E; simpl.
    + apply str_eqb_eq in E. subst k0. apply str_eqb_neq in Hne. now rewrite Hne.
    + destruct (str_eqb key k0); [reflexivity|exact IH].
Qed.

Section HandlerCache.
Context {rt : PyRuntime} (env : Worker.environment).

(** X10.  Once a handler was resolved, every later resolution whose
    [f"{module_name}.{class_name}"] is the same string returns the cached
    instance and leaves the process as it is, in any environment: nothing is
    imported again, also when the dotted name is split differently between
    module and class. *)
Theorem get_handler_instance_cache_hit (module_name class_name : pyval)
    (p p1 : Worker.process) (handler : pystr)
    (env' : Worker.environment) (module_name' class_name' : pyval) :
  Worker.get_handler_instance env module_name class_name p = (Returns handler, p1) ->
  py_str module_name' ++ lit "." ++ py_str class_name'
  = py_str module_name ++ lit "." ++ py_str class_name ->
  Worker.get_handler_instance env' module_name' class_name' p1 = (Returns handler, p1).
Proof.
  intros H Hkey.
  assert (Hh : handler = py_str module_name ++ lit "." ++ py_str class_name).
  { revert H. unfold Worker.get_handler_instance.
    destruct (Worker.cache_get _ (Worker._handler_cache p));
      [intros H; now injection H as <- _|].
    destruct (Worker.import_attr env module_name class_name) as [c|e];
      [|intros H; discriminate H].
    destruct (Worker.new c); intros H; [now injection H as <- _|discriminate H]. }
  destruct (get_handler_instance_cached env _ _ _ _ _ H) as (_ & i & Hi).
  unfold Worker.get_handler_instance. rewrite Hkey, <- Hh, Hi. reflexivity.
Qed.

Lemma get_handler_instance_keeps (module_name class_name : pyval)
    (p p1 : Worker.process) (r : outcome pystr) (key : pystr) (i : Worker.instance) :
  Worker.get_handler_instance env module_name class_name p = (r, p1) ->
  Worker.cache_get key (Worker._handler_cache p) = Some i ->
  Worker.cache_get key (Worker._handler_cache p1) = Some i.
Proof.
  unfold Worker.get_handler_instance.
  destruct (Worker.cache_get (py_str module_name ++ lit "." ++ py_str class_name)
              (Worker._handler_cache p)) eqn:Hc;
    [intros H; now injection H as _ <-|].
  destruct (Worker.import_attr env module_name class_name) as [c|e];
    [|intros H; now injection H as _ <-].
  destruct (Worker.new c); intros H; injection H as _ <-; [|trivial].
  intros Hi. cbn [Worker._handler_cache].
  rewrite worker_cache_get_set_other; [exact Hi|].
  intros ->. pose proof (eq_trans (eq_sym Hi) Hc) as F. discriminate F.
Qed.

Lemma invoke_keeps_class {A : Type} (handler : pystr) (what : Worker.call)
    (method : Worker.handler_class -> pyval -> outcome A * pyval)
    (p p' : Worker.process) (r : outcome A) (key : pystr) (i : Worker.instance) :
  Worker.invoke handler what method p = (r, p') ->
  Worker.cache_get key (Worker._handler_cache p) = Some i ->
  exists i', Worker.cache_get key (Worker._handler_cache p') = Some i'
             /\ Worker.cls i' = Worker.cls i
             /\ (key <> handler -> i' = i).
Proof.
  unfold Worker.invoke.
  destruct (Worker.cache_get handler (Worker._handler_cache p)) as [j|] eqn:Hj.
  2:{ intros H Hi. injection H as _ <-. now exists i. }
  destruct (method (Worker.cls j) (Worker.self j)) as [r' attrs].
  intros H Hi. injection H as _ <-. cbn.
  destruct (str_eqb key handler) eqn:E.
  - apply str_eqb_eq in E. subst key.
    rewrite worker_cache_get_set. eexists. split; [reflexivity|].
    split; [cbn; congruence|]. intros Hne. now contradiction Hne.
  - assert (key <> handler) as Hne.
    { intros ->. rewrite str_eqb_refl in E. discriminate E. }
    rewrite worker_cache_get_set_other by exact Hne. now exists i.
Qed.

(** X11.  [handle_execute] never evicts a cached handler and never replaces
    its class: an instance that is in the cache before a request is there
    after it, of the same class, whatever the request names and however it
    ends. *)
Theorem handle_execute_keeps_cached_handlers (data : pydict) (p p' : Worker.process)
    (r : outcome pydict) (key : pystr) (i : Worker.instance) :
  Worker.handle_execute env data p = (r, p') ->
  Worker.cache_get key (Worker._handler_cache p) = Some i ->
  exists i', Worker.cache_get key (Worker._handler_cache p') = Some i'
             /\ Worker.cls i' = Worker.cls i.
Proof.
  unfold Worker.handle_execute.
  destruct (json_loads (dict_get_default (lit "request_json") _ data)) as [request|e];
    [|intros H Hi; injection H as _ <-; now exists i].
  destruct (json_loads (dict_get_default (lit "config_json") _ data)) as [config|e];
    [|intros H Hi; injection H as _ <-; now exists i].
  destruct (Worker.get_handler_instance env _ _ p) as [[handler|e] p1] eqn:Hg.
  2:{ intros H Hi. injection H as _ <-.
      exists i. split; [exact (get_handler_instance_keeps _ _ _ _ _ _ _ Hg Hi)|reflexivity]. }
  intros H Hi. pose proof (get_handler_instance_keeps _ _ _ _ _ _ _ Hg Hi) as H1.
  revert H.
  destruct (Worker.invoke handler (Worker.CallConstruct handler) _ p1)
    as [[[]|e] p2] eqn:Hc;
    destruct (invoke_keeps_class _ _ _ _ _ _ _ _ Hc H1) as (i2 & H2 & Hcls2 & _).
  - destruct (Worker.invoke handler (Worker.CallExecute handler) _ p2)
      as [[result|e] p3] eqn:He;
      destruct (invoke_keeps_class _ _ _ _ _ _ _ _ He H2) as (i3 & H3 & Hcls3 & _);
      destruct (Worker.invoke handler (Worker.CallCleanup handler) _ p3)
        as [c p4] eqn:Hl;
      destruct (invoke_keeps_class _ _ _ _ _ _ _ _ Hl H3) as (i4 & H4 & Hcls4 & _);
      intros H; injection H as _ <-; exists i4; split; congruence.
  - destruct (Worker.invoke handler (Worker.CallCleanup handler) _ p2)
      as [c p4] eqn:Hl.
    destruct (invoke_keeps_class _ _ _ _ _ _ _ _ Hl H2) as (i4 & H4 & Hcls4 & _).
    intros H; injection H as _ <-; exists i4; split; congruence.
Qed.

End HandlerCache.

Section HandlerFailures.
Context {rt : PyRuntime} (env : Worker.environment).

(** X12.  When the handler named by an [execute] envelope is not cached
    and cannot be imported or instantiated, the response is the ERROR
    document whose message is
    [Python handler <m>.<c> failed: Cannot load handler <m>.<c>: <cause>];
    nothing is cached and no method is called, so a later request tries the
    import again. *)
Theorem handle_execute_unknown_handler (data : pydict) (p : Worker.process)
    (request config : pyval) (e : exn) :
  let handler_module := dict_get_default (lit "handler_module") (PyStr []) data in
  let handler_class := dict_get_default (lit "handler_class") (PyStr []) data in
  let cache_key := py_str handler_module ++ lit "." ++ py_str handler_class in
  json_loads (dict_get_default (lit "request_json") (PyStr (lit "{}")) data)
    = Returns request ->
  json_loads (dict_get_default (lit "config_json") (PyStr (lit "{}")) data)
    = Returns config ->
  Worker.cache_get cache_key (Worker._handler_cache p) = None ->
  (Worker.import_attr env handler_module handler_class = Raises e
   \/ exists c, Worker.import_attr env handler_module handler_class = Returns c
                /\ Worker.new c = Raises e) ->
  Worker.handle_execute env data p
  = (Returns
       [(lit "status", PyStr (lit "ERROR"));
        (lit "error_message",
         PyStr (lit "Python handler " ++ cache_key ++ lit " failed: "
                ++ lit "Cannot load handler " ++ cache_key ++ lit ": " ++ exn_msg e));
        (lit "traceback",
         PyStr (format_exc
                  (Exn ImportError
                     (lit "Cannot load handler " ++ cache_key ++ lit ": " ++ exn_msg e))))],
     p).
Proof.
  intros handler_module handler_class cache_key Hrequest Hconfig Hcache Hfail.
  unfold Worker.handle_execute. rewrite Hrequest, Hconfig.
  fold handler_module handler_class.
  assert (Hget : Worker.get_handler_instance env handler_module handler_class p
                 = (Raises (Exn ImportError
                              (lit "Cannot load handler " ++ cache_key ++ lit ": "
                               ++ exn_msg e)), p)).
  { unfold Worker.get_handler_instance. fold cache_key. rewrite Hcache.
    destruct Hfail as [Himport|(c & Himport & Hnew)]; rewrite Himport;
      [reflexivity|]. now rewrite Hnew. }
  rewrite Hget. unfold Worker.failed_response, cache_key. cbn [exn_msg].
  repeat rewrite <- app_assoc. reflexivity.
Qed.

Lemma invoke_on_cached {A : Type} (key : pystr) (what : Worker.call)
    (method : Worker.handler_class -> pyval -> outcome A * pyval)
    (p : Worker.process) (i : Worker.instance) :
  Worker.cache_get key (Worker._handler_cache p) = Some i ->
  Worker.invoke key what method p
  = (fst (method (Worker.cls i) (Worker.self i)),
     Worker.Process
       (Worker.cache_set key
          (Worker.Instance (Worker.cls i) (snd (method (Worker.cls i) (Worker.self i))))
          (Worker._handler_cache p))
       (Worker.calls p ++ [what])).
Proof.
  intros H. unfold Worker.invoke. rewrite H.
  now destruct (method (Worker.cls i) (Worker.self i)).
Qed.

(** X13.  A handler class that keeps [DGHandlerBase.execute] and whose
    [construct] returns is answered with the ERROR document for
    [NotImplementedError: Handler must implement execute()]; [construct],
    [execute] and [cleanup] are each called once on the new instance, in
    this order. *)
Theorem handle_execute_without_execute_override (data : pydict) (p : Worker.process)
    (request config : pyval) (c : Worker.handler_class) (attrs : pyval) :
  let handler_module := dict_get_default (lit "handler_module") (PyStr []) data in
  let handler_class := dict_get_default (lit "handler_class") (PyStr []) data in
  let cache_key := py_str handler_module ++ lit "." ++ py_str handler_class in
  json_loads (dict_get_default (lit "request_json") (PyStr (lit "{}")) data)
    = Returns request ->
  json_loads (dict_get_default (lit "config_json") (PyStr (lit "{}")) data)
    = Returns config ->
  Worker.cache_get cache_key (Worker._handler_cache p) = None ->
  Worker.import_attr env handler_module handler_class = Returns c ->
  Worker.new c = Returns attrs ->
  fst (Worker.construct c config attrs) = Returns tt ->
  Worker.execute c = Worker.execute Worker.DGHandlerBase ->
  exists p',
    Worker.handle_execute env data p
    = (Returns (Worker.failed_response handler_module handler_class
                  (Exn NotImplementedError (lit "Handler must implement execute()"))),
       p')
    /\ Worker.calls p'
       = Worker.calls p ++ [Worker.CallConstruct cache_key;
                            Worker.CallExecute cache_key;
                            Worker.CallCleanup cache_key].
Proof.
  intros handler_module handler_class cache_key Hrequest Hconfig Hcache Himport Hnew
         Hconstruct Hexecute.
  unfold Worker.handle_execute. rewrite Hrequest, Hconfig.
  fold handler_module handler_class.
  unfold Worker.get_handler_instance. fold cache_key. rewrite Hcache, Himport, Hnew.
  rewrite (invoke_on_cached _ _ _ _ (Worker.Instance c attrs))
    by apply worker_cache_get_set.
  cbn [Worker.cls Worker.self].
  destruct (Worker.construct c config attrs) as [r1 attrs1]. cbn [fst] in Hconstruct.
  subst r1. cbn [fst snd].
  rewrite (invoke_on_cached _ _ _ _ (Worker.Instance c attrs1))
    by apply worker_cache_get_set.
  cbn [Worker.cls Worker.self]. rewrite Hexecute.
  cbn [Worker.execute Worker.DGHandlerBase fst snd].
  rewrite (invoke_on_cached _ _ _ _ (Worker.Instance c attrs1))
    by apply worker_cache_get_set.
  eexists. split; [reflexivity|]. cbn [Worker.calls].
  repeat rewrite <- app_assoc. reflexivity.
Qed.

End HandlerFailures.

(** An envelope whose [request_json] is the text of an unfinished object. *)
Lemma handle_execute_returns_proper_response_witness :
  exists response p',
    Worker.handle_execute (rt := RefRuntime.runtime) Samples.worker_env
      [(lit "handler_module", PyStr (lit "handlers.reflect"));
       (lit "handler_class", PyStr (lit "Reflect"));
       (lit "request_json", PyStr (lit "{"))] Samples.fresh_process
    = (Returns response, p')
    /\ proper_response response.
Proof.
  apply (handle_execute_returns_proper_response (rt := RefRuntime.runtime)
           Samples.worker_env
           [(lit "handler_module", PyStr (lit "handlers.reflect"));
            (lit "handler_class", PyStr (lit "Reflect"));
            (lit "request_json", PyStr (lit "{"))] Samples.fresh_process).
  - intros e H. vm_compute in H. injection H as <-. reflexivity.
  - intros e H. vm_compute in H. discriminate H.
Defined.

(** [handlers.reflect] + [Reflect] is resolved first; [handlers] +
    [reflect.Reflect], which the sample environment cannot import, then
    hits the cache. *)
Lemma get_handler_instance_cache_hit_witness :
  Worker.get_handler_instance (rt := RefRuntime.runtime) Samples.worker_env
    (PyStr (lit "handlers")) (PyStr (lit "reflect.Reflect"))
    (snd (Worker.get_handler_instance (rt := RefRuntime.runtime) Samples.worker_env
            (PyStr (lit "handlers.reflect")) (PyStr (lit "Reflect"))
            Samples.fresh_process))
  = (Returns (lit "handlers.reflect.Reflect"),
     snd (Worker.get_handler_instance (rt := RefRuntime.runtime) Samples.worker_env
            (PyStr (lit "handlers.reflect")) (PyStr (lit "Reflect"))
            Samples.fresh_process))
  /\ Worker.import_attr Samples.worker_env
       (PyStr (lit "handlers")) (PyStr (lit "reflect.Reflect"))
     = Raises (Exn ModuleNotFoundError (lit "No module named that")).
Proof.
  split; [|reflexivity].
  apply (get_handler_instance_cache_hit (rt := RefRuntime.runtime) Samples.worker_env
           (PyStr (lit "handlers.reflect")) (PyStr (lit "Reflect"))
           Samples.fresh_process).
  - reflexivity.
  - reflexivity.
Defined.

(** A process that holds a [Reflect] instance serves a request for a
    handler that does not resolve. *)
Lemma handle_execute_keeps_cached_handlers_witness :
  exists i',
    Worker.cache_get (lit "handlers.reflect.Reflect")
      (Worker._handler_cache
         (snd (Worker.handle_execute (rt := RefRuntime.runtime) Samples.worker_env
                 [(lit "handler_module", PyStr (lit "handlers.other"));
                  (lit "handler_class", PyStr (lit "Other"))]
                 (Worker.Process
                    [(lit "handlers.reflect.Reflect",
                      Worker.Instance Samples.Reflect (PyDict []))] []))))
    = Some i'
    /\ Worker.cls i' = Samples.Reflect.
Proof.
  apply (handle_execute_keeps_cached_handlers (rt := RefRuntime.runtime)
           Samples.worker_env
           [(lit "handler_module", PyStr (lit "handlers.other"));
            (lit "handler_class", PyStr (lit "Other"))]
           (Worker.Process
              [(lit "handlers.reflect.Reflect",
                Worker.Instance Samples.Reflect (PyDict []))] [])
           _
           (fst (Worker.handle_execute (rt := RefRuntime.runtime) Samples.worker_env
                   [(lit "handler_module", PyStr (lit "handlers.other"));
                    (lit "handler_class", PyStr (lit "Other"))]
                   (Worker.Process
                      [(lit "handlers.reflect.Reflect",
                        Worker.Instance Samples.Reflect (PyDict []))] [])))
           (lit "handlers.reflect.Reflect")
           (Worker.Instance Samples.Reflect (PyDict []))).
  - apply surjective_pairing.
  - reflexivity.
Defined.

(** The sample worker asked for [handlers.other.Other]. *)
Lemma handle_execute_unknown_handler_witness :
  Worker.handle_execute (rt := RefRuntime.runtime) Samples.worker_env
    [(lit "handler_module", PyStr (lit "handlers.other"));
     (lit "handler_class", PyStr (lit "Other"))] Samples.fresh_process
  = (Returns
       [(lit "status", PyStr (lit "ERROR"));
        (lit "error_message",
         PyStr (lit "Python handler handlers.other.Other failed: Cannot load handler handlers.other.Other: No module named that"));
        (lit "traceback",
         PyStr (format_exc (PyRuntime := RefRuntime.runtime)
                  (Exn ImportError
                     (lit "Cannot load handler handlers.other.Other: No module named that"))))],
     Samples.fresh_process).
Proof.
  apply (handle_execute_unknown_handler (rt := RefRuntime.runtime) Samples.worker_env
           [(lit "handler_module", PyStr (lit "handlers.other"));
            (lit "handler_class", PyStr (lit "Other"))] Samples.fresh_process
           (PyDict []) (PyDict [])
           (Exn ModuleNotFoundError (lit "No module named that"))).
  - vm_compute. reflexivity.
  - vm_compute. reflexivity.
  - reflexivity.
  - left. reflexivity.
Defined.

(** [DGHandlerBase] itself as the handler. *)
Lemma handle_execute_without_execute_override_witness :
  exists p',
    Worker.handle_execute (rt := RefRuntime.runtime) base_env
      [(lit "handler_module", PyStr (lit "dgfacade_worker"));
       (lit "handler_class", PyStr (lit "DGHandlerBase"))] Samples.fresh_process
    = (Returns (Worker.failed_response (rt := RefRuntime.runtime)
                  (PyStr (lit "dgfacade_worker")) (PyStr (lit "DGHandlerBase"))
                  (Exn NotImplementedError (lit "Handler must implement execute()"))),
       p')
    /\ Worker.calls p'
       = [] ++ [Worker.CallConstruct (lit "dgfacade_worker.DGHandlerBase");
                Worker.CallExecute (lit "dgfacade_worker.DGHandlerBase");
                Worker.CallCleanup (lit "dgfacade_worker.DGHandlerBase")].
Proof.
  apply (handle_execute_without_execute_override (rt := RefRuntime.runtime) base_env
           [(lit "handler_module", PyStr (lit "dgfacade_worker"));
            (lit "handler_class", PyStr (lit "DGHandlerBase"))] Samples.fresh_process
           (PyDict []) (PyDict []) Worker.DGHandlerBase (PyDict [])).
  - vm_compute. reflexivity.
  - vm_compute. reflexivity.
  - reflexivity.
  - reflexivity.
  - reflexivity.
  - reflexivity.
  - reflexivity.
Defined.

(** ** The accept loop *)

Section AcceptLoop.
Context {rt : PyRuntime} (env : Worker.environment).

(** X14.  The accept loop of [main] serves the accepted connections one
    at a time in arrival order: each one it takes is closed, and what went
    out on it is nothing, one whole frame, or, when a [sendall] broke off,
    the part of a frame that went out, alone or followed by what the second
    [write_message] put out (never more than one whole frame); timeouts and
    failed accepts are skipped, and the outcomes it has not consumed are
    left untouched; it consumes them all unless it exits. *)
Theorem serve_answers_in_order (turns : list WorkerMain.accept) (p : Worker.process) :
  let r := WorkerMain.serve env turns p in
  exists consumed,
    turns = consumed ++ WorkerMain.unserved r
    /\ Forall2 answered (accepted consumed) (WorkerMain.handled r)
    /\ (WorkerMain.exited r = false -> WorkerMain.unserved r = []).
Proof.
  revert p. induction turns as [|t rest IH]; intros p.
  - exists []. cbn. repeat split. constructor.
  - destruct t as [conn| |e|]; cbn [WorkerMain.serve].
    + pose proof (handle_connection_reply env conn p) as Hreply.
      destruct (Worker.handle_connection env conn p) as [[running conn'] p'].
      destruct running.
      * destruct (IH p') as (consumed & Hturns & Hall & Hexit).
        exists (WorkerMain.Accepted conn :: consumed). cbn. repeat split.
        -- now rewrite <- Hturns.
        -- constructor; [exact (proj1 Hreply)|exact Hall].
        -- exact Hexit.
      * exists [WorkerMain.Accepted conn]. cbn. repeat split.
        -- constructor; [exact (proj1 Hreply)|constructor].
        -- intros H; discriminate H.
    + destruct (IH p) as (consumed & Hturns & Hall & Hexit).
      exists (WorkerMain.TimedOut :: consumed). cbn. repeat split;
        [now rewrite <- Hturns|exact Hall|exact Hexit].
    + destruct (IH p) as (consumed & Hturns & Hall & Hexit).
      exists (WorkerMain.AcceptFailed e :: consumed). cbn. repeat split;
        [now rewrite <- Hturns|exact Hall|exact Hexit].
    + exists [WorkerMain.Interrupted]. cbn. repeat split;
        [constructor|intros H; discriminate H].
Qed.

(** X15.  The accept loop exits only on a [KeyboardInterrupt], or after a
    connection on which it read a JSON object whose [command] is [shutdown]
    and answered the frame of [{"status": "shutdown_ack"}] ([sendall]
    returned, the whole frame went out); that connection is the last one it
    handled. *)
Theorem serve_exits_on_shutdown_or_interrupt (turns : list WorkerMain.accept)
    (p : Worker.process) :
  let r := WorkerMain.serve env turns p in
  WorkerMain.exited r = true ->
  exists consumed t,
    turns = consumed ++ t :: WorkerMain.unserved r
    /\ (t = WorkerMain.Interrupted
        \/ exists conn d conn1 buffer conn2 earlier,
             t = WorkerMain.Accepted conn
             /\ Worker.read_message conn = (Returns (PyDict d), conn1)
             /\ dict_get (lit "command") d = Some (PyStr (lit "shutdown"))
             /\ frame_of (PyDict [(lit "status", PyStr (lit "shutdown_ack"))]) buffer
             /\ sendall buffer conn1 = (Returns tt, conn2)
             /\ sent conn2 = sent conn ++ [buffer]
             /\ WorkerMain.handled r = earlier ++ [close conn2]).
Proof.
  revert p. induction turns as [|t rest IH]; intros p.
  - cbn. intros H; discriminate H.
  - destruct t as [conn| |e|]; cbn [WorkerMain.serve].
    + destruct (Worker.handle_connection env conn p) as [[running conn'] p'] eqn:Hc.
      destruct running.
      * cbn. intros Hexit.
        destruct (IH p' Hexit) as (consumed & t & Hturns & Hcause).
        exists (WorkerMain.Accepted conn :: consumed), t.
        split; [cbn; now rewrite <- Hturns|].
        destruct Hcause
          as [->|(c & d & c1 & buffer & c2 & earlier & -> & Hr & Hd & Hf & Hs & Hs2 & Hh)];
          [now left|right].
        exists c, d, c1, buffer, c2, (conn' :: earlier).
        repeat split; try assumption. now rewrite Hh.
      * cbn. intros _.
        destruct (handle_connection_false env _ _ _ _ Hc)
          as (d & conn1 & buffer & conn2 & Hr & Hd & Hf & Hs & -> & Hs2 & _).
        exists [], (WorkerMain.Accepted conn). split; [reflexivity|right].
        exists conn, d, conn1, buffer, conn2, []. now repeat split.
    + intros Hexit. destruct (IH p Hexit) as (consumed & t & Hturns & Hcause).
      exists (WorkerMain.TimedOut :: consumed), t.
      split; [cbn; now rewrite <- Hturns|exact Hcause].
    + intros Hexit. destruct (IH p Hexit) as (consumed & t & Hturns & Hcause).
      exists (WorkerMain.AcceptFailed e :: consumed), t.
      split; [cbn; now rewrite <- Hturns|exact Hcause].
    + cbn. intros _. exists [], WorkerMain.Interrupted. split; [reflexivity|now left].
Qed.

End AcceptLoop.

(** The sample worker on [sample_turns]: it exits at the third outcome. *)
Lemma serve_exits_on_shutdown_or_interrupt_witness :
  exists consumed t,
    sample_turns
    = consumed ++ t :: WorkerMain.unserved
                         (WorkerMain.serve (rt := RefRuntime.runtime) Samples.worker_env
                            sample_turns Samples.fresh_process)
    /\ (t = WorkerMain.Interrupted
        \/ exists conn d conn1 buffer conn2 earlier,
             t = WorkerMain.Accepted conn
             /\ Worker.read_message (rt := RefRuntime.runtime) conn
                = (Returns (PyDict d), conn1)
             /\ dict_get (lit "command") d = Some (PyStr (lit "shutdown"))
             /\ frame_of (rt := RefRuntime.runtime)
                  (PyDict [(lit "status", PyStr (lit "shutdown_ack"))]) buffer
             /\ sendall buffer conn1 = (Returns tt, conn2)
             /\ sent conn2 = sent conn ++ [buffer]
             /\ WorkerMain.handled
                  (WorkerMain.serve (rt := RefRuntime.runtime) Samples.worker_env
                     sample_turns Samples.fresh_process)
                = earlier ++ [close conn2]).
Proof.
  apply (serve_exits_on_shutdown_or_interrupt (rt := RefRuntime.runtime)
           Samples.worker_env sample_turns Samples.fresh_process).
  vm_compute. reflexivity.
Defined.

(* ================================================================== *)
(** * Further properties of the gateway *)

(** ** Class loading *)

(** [rsplit(".", 1)] cuts at the last dot. *)
Lemma rsplit_dot_some (s a b : pystr) :
  DGPythonDelegate.rsplit_dot s = Some (a, b) ->
  s = a ++ lit "." ++ b /\ ~ In 46%N b.
Proof.
  revert a. induction s as [|c s IH]; intros a; cbn [DGPythonDelegate.rsplit_dot].
  - intros H; discriminate H.
  - destruct (DGPythonDelegate.rsplit_dot s) as [[a' b']|] eqn:E.
    + intros H. injection H as <- <-. destruct (IH a' eq_refl) as [-> Hb].
      split; [reflexivity|exact Hb].
    + destruct (N.eqb_spec c 46) as [->|Hc]; [|intros H; discriminate H].
      intros H. injection H as <- <-. split; [reflexivity|].
      clear IH. induction s as [|x s IHs]; [intros []|].
      cbn [DGPythonDelegate.rsplit_dot] in E.
      destruct (DGPythonDelegate.rsplit_dot s) as [[a' b']|]; [discriminate E|].
      destruct (N.eqb_spec x 46) as [->|Hx]; [discriminate E|].
      intros [Hin|Hin]; [now apply Hx|now apply IHs].
Qed.

Lemma rsplit_dot_none (s : pystr) :
  ~ In 46%N s -> DGPythonDelegate.rsplit_dot s = None.
Proof.
  induction s as [|c s IH]; [reflexivity|].
  intros Hin. cbn [DGPythonDelegate.rsplit_dot].
  rewrite IH by (intros H; apply Hin; now right).
  destruct (N.eqb_spec c 46) as [->|_]; [|reflexivity].
  exfalso. apply Hin. now left.
Qed.

Section ClassLoading.
Context {rt : PyRuntime}.
Variable import_attr : pystr -> pystr -> outcome DGHandler.handler_class.

(** X16.  A class [_load_class] returns is the cached one, or, on a cache
    miss, the attribute it imported under the name after the last dot from
    the module named by everything before it; the class is then cached
    under the full name and nothing else of the delegate changes. *)
Theorem load_class_imports_at_last_dot (name : pystr)
    (d d1 : DGPythonDelegate.delegate) (c : DGHandler.handler_class) :
  DGPythonDelegate._load_class import_attr name d = (Returns c, d1) ->
  (DGPythonDelegate.cache_get name (DGPythonDelegate._handler_cache d) = Some c
   /\ d1 = d)
  \/ (DGPythonDelegate.cache_get name (DGPythonDelegate._handler_cache d) = None
      /\ exists module_path class_name,
           name = module_path ++ lit "." ++ class_name
           /\ ~ In 46%N class_name
           /\ import_attr module_path class_name = Returns c
           /\ d1 = DGPythonDelegate.Delegate
                     (DGPythonDelegate.cache_set name c (DGPythonDelegate._handler_cache d))
                     (DGPythonDelegate._requests_handled d)
                     (DGPythonDelegate._errors d) (DGPythonDelegate.calls d)).
Proof.
  unfold DGPythonDelegate._load_class.
  destruct (DGPythonDelegate.cache_get name _) as [c0|] eqn:Hc.
  - intros H. injection H as <- <-. now left.
  - destruct (DGPythonDelegate.rsplit_dot name) as [[module_path class_name]|] eqn:Hs;
      [|intros H; discriminate H].
    destruct (import_attr module_path class_name) as [c0|e] eqn:Hi.
    + intros H. injection H as <- <-. right. split; [reflexivity|].
      destruct (rsplit_dot_some _ _ _ Hs) as [Hname Hdot].
      now exists module_path, class_name.
    + destruct (is_class ModuleNotFoundError e); [intros H; discriminate H|].
      destruct (is_class AttributeError e); intros H; discriminate H.
Qed.

(** X17.  A name without a dot that is not cached is refused with the
    [ImportError] "Invalid Python class name: '<name>'. Expected format:
    'module.path.ClassName'", whatever could be imported, and the delegate
    is unchanged. *)
Theorem load_class_rejects_undotted_name (name : pystr) (d : DGPythonDelegate.delegate) :
  ~ In 46%N name ->
  DGPythonDelegate.cache_get name (DGPythonDelegate._handler_cache d) = None ->
  DGPythonDelegate._load_class import_attr name d
  = (Raises (Exn ImportError
               (lit "Invalid Python class name: '" ++ name
                ++ lit "'. Expected format: 'module.path.ClassName'")), d).
Proof.
  intros Hdot Hc. unfold DGPythonDelegate._load_class.
  now rewrite Hc, (rsplit_dot_none _ Hdot).
Qed.

(** X18.  When [_load_class] raises, the delegate is unchanged (nothing is
    cached), and the exception is never a [ModuleNotFoundError] or an
    [AttributeError]: those of the import are replaced by [ImportError]. *)
Theorem load_class_failure (name : pystr) (d d1 : DGPythonDelegate.delegate) (e : exn) :
  DGPythonDelegate._load_class import_attr name d = (Raises e, d1) ->
  d1 = d
  /\ is_class ModuleNotFoundError e = false
  /\ is_class AttributeError e = false.
Proof.
  unfold DGPythonDelegate._load_class.
  destruct (DGPythonDelegate.cache_get name _) as [c0|]; [intros H; discriminate H|].
  destruct (DGPythonDelegate.rsplit_dot name) as [[module_path class_name]|].
  2:{ intros H. injection H as <- <-. now repeat split. }
  destruct (import_attr module_path class_name) as [c0|e0]; [intros H; discriminate H|].
  destruct (is_class ModuleNotFoundError e0) eqn:Hm;
    [intros H; injection H as <- <-; now repeat split|].
  destruct (is_class AttributeError e0) eqn:Ha;
    intros H; injection H as <- <-; now repeat split.
Qed.

End ClassLoading.

(** ** Every call is counted *)

Lemma delegate_cache_get_set (key : pystr) (c : DGHandler.handler_class)
    (l : list (pystr * DGHandler.handler_class)) :
  DGPythonDelegate.cache_get key (DGPythonDelegate.cache_set key c l) = Some c.
Proof.
  induction l as [|[k c'] l IH]; simpl.
  - now rewrite str_eqb_refl.
  - destruct (str_eqb key k) eqn:E; simpl; rewrite E; auto.
Qed.

Lemma delegate_cache_get_set_other (key k : pystr) (c : DGHandler.handler_class)
    (l : list (pystr * DGHandler.handler_class)) :
  key <> k ->
  DGPythonDelegate.cache_get key (DGPythonDelegate.cache_set k c l)
  = DGPythonDelegate.cache_get key l.
Proof.
  intros Hne. induction l as [|[k0 c0] l IH]; simpl.
  - apply str_eqb_neq in Hne. now rewrite Hne.
  - destruct (str_eqb k k0) eqn:E; simpl.
    + apply str_eqb_eq in E. subst k0. apply str_eqb_neq in Hne. now rewrite Hne.
    + destruct (str_eqb key k0); [reflexivity|exact IH].
Qed.

Section Counting.
Context {rt : PyRuntime}.
Variable import_attr : pystr -> pystr -> outcome DGHandler.handler_class.

Lemma on_exception_shape (name : pystr) (e : exn) (l : DGPythonDelegate.locals)
    (d : DGPythonDelegate.delegate) :
  let r := DGPythonDelegate.on_exception name e l d in
  (exists resp,
     DGPythonDelegate.response r = Some resp
     /\ DGPythonDelegate.returned r = json_dumps (PyDict resp)
     /\ dict_get (lit "status") resp = Some (PyStr (lit "ERROR"))
     /\ dict_get (lit "handlerType") resp = Some (PyStr name)
     /\ dict_get (lit "errorCode") resp = Some (PyStr (class_name (exn_class e))))
  /\ DGPythonDelegate._errors (DGPythonDelegate.after r)
     = (DGPythonDelegate._errors d + 1)%Z
  /\ DGPythonDelegate._requests_handled (DGPythonDelegate.after r)
     = DGPythonDelegate._requests_handled d
  /\ DGPythonDelegate._handler_cache (DGPythonDelegate.after r)
     = DGPythonDelegate._handler_cache d.
Proof.
  unfold DGPythonDelegate.on_exception.
  destruct (DGPythonDelegate.request_dict l) as [r0|];
    [destruct (py_get r0 (lit "requestId") (PyStr (lit "unknown")))|];
    (destruct (DGPythonDelegate.handler l) as [[c s]|];
     [destruct (DGHandler.call_stop c _ s)|]);
    cbn; (split; [eexists; repeat split|repeat split]).
Qed.

Lemma load_class_counters (name : pystr) (d d1 : DGPythonDelegate.delegate)
    (r : outcome DGHandler.handler_class) :
  DGPythonDelegate._load_class import_attr name d = (r, d1) ->
  DGPythonDelegate._errors d1 = DGPythonDelegate._errors d
  /\ DGPythonDelegate._requests_handled d1 = DGPythonDelegate._requests_handled d
  /\ (forall key c,
        DGPythonDelegate.cache_get key (DGPythonDelegate._handler_cache d) = Some c ->
        DGPythonDelegate.cache_get key (DGPythonDelegate._handler_cache d1) = Some c).
Proof.
  unfold DGPythonDelegate._load_class.
  destruct (DGPythonDelegate.cache_get name _) as [c0|] eqn:Hc;
    [intros H; injection H as _ <-; now repeat split|].
  destruct (DGPythonDelegate.rsplit_dot name) as [[module_path class_name]|];
    [|intros H; injection H as _ <-; now repeat split].
  destruct (import_attr module_path class_name) as [c0|e0].
  - intros H. injection H as _ <-. cbn. repeat split.
    intros key c Hk. rewrite delegate_cache_get_set_other; [exact Hk|].
    intros ->. congruence.
  - destruct (is_class ModuleNotFoundError e0);
      [intros H; injection H as _ <-; now repeat split|].
    destruct (is_class AttributeError e0);
      intros H; injection H as _ <-; now repeat split.
Qed.

End Counting.

Section Runs.
Context {rt : PyRuntime}.
Variable import_attr : pystr -> pystr -> outcome DGHandler.handler_class.

Lemma executeHandler_run_cases (name dg_request_json app_properties_json : pystr)
    (d : DGPythonDelegate.delegate) :
  let r := DGPythonDelegate.executeHandler_run import_attr name dg_request_json
             app_properties_json d in
  let d' := DGPythonDelegate.after r in
  classes_kept d d'
  /\ ((exists text, DGPythonDelegate.returned r = Returns text)
      /\ DGPythonDelegate._errors d' = DGPythonDelegate._errors d
      /\ DGPythonDelegate._requests_handled d'
         = (DGPythonDelegate._requests_handled d + 1)%Z
      \/ reports_error name r
         /\ DGPythonDelegate._errors d' = (DGPythonDelegate._errors d + 1)%Z
         /\ (DGPythonDelegate._requests_handled d' = DGPythonDelegate._requests_handled d
             \/ DGPythonDelegate._requests_handled d'
                = (DGPythonDelegate._requests_handled d + 1)%Z)).
Proof.
  cbv zeta.
  assert (Hfail : forall e l dd,
             classes_kept d dd ->
             DGPythonDelegate._errors dd = DGPythonDelegate._errors d ->
             (DGPythonDelegate._requests_handled dd = DGPythonDelegate._requests_handled d
              \/ DGPythonDelegate._requests_handled dd
                 = (DGPythonDelegate._requests_handled d + 1)%Z) ->
             let r := DGPythonDelegate.on_exception name e l dd in
             let d' := DGPythonDelegate.after r in
             classes_kept d d'
             /\ ((exists text, DGPythonDelegate.returned r = Returns text)
                 /\ DGPythonDelegate._errors d' = DGPythonDelegate._errors d
                 /\ DGPythonDelegate._requests_handled d'
                    = (DGPythonDelegate._requests_handled d + 1)%Z
                 \/ reports_error name r
                    /\ DGPythonDelegate._errors d' = (DGPythonDelegate._errors d + 1)%Z
                    /\ (DGPythonDelegate._requests_handled d'
                        = DGPythonDelegate._requests_handled d
                        \/ DGPythonDelegate._requests_handled d'
                           = (DGPythonDelegate._requests_handled d + 1)%Z))).
  { intros e l dd Hkept Herr Hreq. cbv zeta.
    destruct (on_exception_shape name e l dd) as (Hresp & He & Hh & Hc).
    split.
    - unfold classes_kept. rewrite Hc. exact Hkept.
    - right. split; [|split].
      + destruct Hresp as (resp & H1 & H2 & H3 & H4 & H5). now exists e, resp.
      + rewrite He, Herr. reflexivity.
      + rewrite Hh. exact Hreq. }
  assert (Hrefl : classes_kept d d) by (intros key c H; exact H).
  unfold DGPythonDelegate.executeHandler_run.
  destruct (json_loads_str dg_request_json) as [request_dict|e];
    [|apply Hfail; [exact Hrefl|reflexivity|now left]].
  destruct (DGPythonDelegate.load_app_props app_properties_json) as [app_props|e];
    [|apply Hfail; [exact Hrefl|reflexivity|now left]].
  destruct (py_get request_dict (lit "requestType") (PyStr (lit "UNKNOWN")))
    as [?|e]; [|apply Hfail; [exact Hrefl|reflexivity|now left]].
  destruct (py_get request_dict (lit "requestId") (PyStr (lit "unknown")))
    as [?|e]; [|apply Hfail; [exact Hrefl|reflexivity|now left]].
  destruct (DGPythonDelegate._load_class import_attr name d) as [[c|e] d1] eqn:Hload;
    destruct (load_class_counters _ _ _ _ _ Hload) as (Herr & Hreq & Hkept);
    [|apply Hfail; [exact Hkept|exact Herr|now left]].
  destruct (DGHandler.new c) as [self0|e];
    [|apply Hfail; [exact Hkept|exact Herr|now left]].
  destruct (DGHandler.call_start c request_dict _) as [[?|e] self1];
    [|apply Hfail; [exact Hkept|exact Herr|now left]].
  destruct (DGHandler.call_execute c self1) as [[response_dict|e] self2];
    [|apply Hfail; [exact Hkept|exact Herr|now left]].
  destruct (DGHandler.call_stop c response_dict self2) as [[?|e] self3];
    [|apply Hfail; [exact Hkept|exact Herr|now left]].
  destruct (py_get response_dict (lit "status") (PyStr (lit "?"))) as [?|e];
    [|apply Hfail; [exact Hkept|exact Herr|right; cbn; now rewrite Hreq]].
  destruct (json_dumps response_dict) as [text|e];
    [|apply Hfail; [exact Hkept|exact Herr|right; cbn; now rewrite Hreq]].
  cbn. split; [exact Hkept|]. left. split; [now exists text|].
  split; [exact Herr|now rewrite Hreq].
Qed.

(** X19.  Every call of [executeHandler] is counted: either it returns
    a text, [_requests_handled] grows by one and [_errors] is unchanged;
    or [_errors] grows by one,
    [_requests_handled] by at most one, and what it returns (or raises) is
    [json.dumps] of an ERROR response with the class name as [handlerType]
    and an exception's class name as [errorCode]. *)
Theorem executeHandler_counts_every_call (name dg_request_json app_properties_json : pystr)
    (d : DGPythonDelegate.delegate) :
  let r := DGPythonDelegate.executeHandler_run import_attr name dg_request_json
             app_properties_json d in
  let d' := DGPythonDelegate.after r in
  (exists text, DGPythonDelegate.returned r = Returns text)
  /\ DGPythonDelegate._errors d' = DGPythonDelegate._errors d
  /\ DGPythonDelegate._requests_handled d' = (DGPythonDelegate._requests_handled d + 1)%Z
  \/ reports_error name r
     /\ DGPythonDelegate._errors d' = (DGPythonDelegate._errors d + 1)%Z
     /\ (DGPythonDelegate._requests_handled d' = DGPythonDelegate._requests_handled d
         \/ DGPythonDelegate._requests_handled d'
            = (DGPythonDelegate._requests_handled d + 1)%Z).
Proof. exact (proj2 (executeHandler_run_cases name _ _ d)). Qed.

(** X20.  A class that is cached stays cached over any call of
    [executeHandler], and [_load_class] then returns it without importing
    anything, leaving the delegate as it is: a handler module is imported
    at most once per delegate. *)
Theorem executeHandler_keeps_loaded_classes
    (name dg_request_json app_properties_json : pystr)
    (d : DGPythonDelegate.delegate) (key : pystr) (c : DGHandler.handler_class)
    (import_attr' : pystr -> pystr -> outcome DGHandler.handler_class) :
  DGPythonDelegate.cache_get key (DGPythonDelegate._handler_cache d) = Some c ->
  let d' := DGPythonDelegate.after
              (DGPythonDelegate.executeHandler_run import_attr name dg_request_json
                 app_properties_json d) in
  DGPythonDelegate._load_class import_attr' key d' = (Returns c, d').
Proof.
  intros Hc d'.
  pose proof (proj1 (executeHandler_run_cases name dg_request_json app_properties_json d)
                key c Hc) as Hkept.
  unfold DGPythonDelegate._load_class. fold d'. fold d' in Hkept. now rewrite Hkept.
Qed.

End Runs.

(* ================================================================== *)
(** * Further properties of the handlers *)

(** ** [DGHandler.execute] *)

Section Containment.
Context {rt : PyRuntime}.

(** X21.  For a handler whose [compute] leaves [_request] alone and
    whose [get_request_type] returns, [DGHandler.execute] on a started
    instance always returns a response with the request's [requestId] (or
    ["unknown"]): SUCCESS with [compute]'s result, the instance left
    STOPPED, when [compute] returns; ERROR with the exception's class name
    and message, the instance left FAILED, when [compute] raises. *)
Theorem execute_contains_compute (c : DGHandler.handler_class)
    (self : DGHandler.instance) (r : pydict) :
  DGHandler._request self = PyDict r ->
  (forall request s o s',
     DGHandler.compute c request s = (o, s') ->
     DGHandler._request s' = DGHandler._request s) ->
  (forall s, exists t, DGHandler.get_request_type c s = (Returns t, s)) ->
  exists resp self',
    DGHandler.execute c self = (Returns (PyDict resp), self')
    /\ dict_get (lit "requestId") resp
       = Some (dict_get_default (lit "requestId") (PyStr (lit "unknown")) r)
    /\ match fst (DGHandler.compute c (PyDict r)
                    (DGHandler.set_status DGHandler.EXECUTING self)) with
       | Returns result =>
           dict_get (lit "status") resp = Some (PyStr (lit "SUCCESS"))
           /\ dict_get (lit "result") resp = Some result
           /\ DGHandler._status self' = DGHandler.STOPPED
       | Raises e =>
           dict_get (lit "status") resp = Some (PyStr (lit "ERROR"))
           /\ dict_get (lit "errorCode") resp = Some (PyStr (class_name (exn_class e)))
           /\ dict_get (lit "errorMessage") resp = Some (PyStr (exn_msg e))
           /\ DGHandler._status self' = DGHandler.FAILED
       end.
Proof.
  intros Hreq Hkeeps Htype. unfold DGHandler.execute.
  change (DGHandler._request (DGHandler.set_status DGHandler.EXECUTING self))
    with (DGHandler._request self).
  rewrite Hreq.
  destruct (DGHandler.compute c (PyDict r) _) as [[result|e] self1] eqn:Hc;
    pose proof (Hkeeps _ _ _ _ Hc) as Hr1; cbn [DGHandler._request DGHandler.set_status] in Hr1;
    rewrite Hreq in Hr1; cbn [fst].
  - rewrite Hr1. cbn [py_get]. destruct (Htype self1) as [t Ht]. rewrite Ht.
    eexists; eexists; split; [reflexivity|]. now repeat split.
  - cbn [DGHandler._request DGHandler.set_status]. rewrite Hr1. cbn [py_get].
    destruct (Htype (DGHandler.set_status DGHandler.FAILED self1)) as [t Ht].
    rewrite Ht. eexists; eexists; split; [reflexivity|]. now repeat split.
Qed.

End Containment.

(** ** The echo handler, end to end *)

Section EchoEndToEnd.
Context {rt : PyRuntime} (h : EchoPythonHandler.host).
Variable import_attr : pystr -> pystr -> outcome DGHandler.handler_class.

Lemma get_property_of_dict (key : pystr) (default : pyval) (self : DGHandler.instance)
    (a : pydict) :
  DGHandler._app_properties self = PyDict a ->
  DGHandler.get_property key default self = Returns (dict_get_default key default a).
Proof.
  intros H. unfold DGHandler.get_property. rewrite H.
  destruct a; reflexivity.
Qed.

Lemma echo_compute_result (request app_props : pydict) (self : DGHandler.instance) :
  DGHandler._app_properties self = PyDict app_props ->
  EchoPythonHandler.compute h (PyDict request) self
  = (Returns (PyDict (echo_result h request app_props)), self).
Proof.
  intros H. unfold EchoPythonHandler.compute. cbn [py_get].
  now rewrite !(get_property_of_dict _ _ _ _ H).
Qed.

(** X22.  Through [executeHandler], a request object is answered by
    [EchoPythonHandler] with the SUCCESS response whose [result.echo] is the
    request's [payload] (an empty object when it has none), whose
    [requestId] is the request's, and whose [appName] and [version] come from
    the application properties, provided these parse to an object and the
    response can be serialized; [start], [execute] and [stop] are each called
    once and the instance is left STOPPED. *)
Theorem echo_end_to_end (name dg_request_json app_properties_json : pystr)
    (d d1 : DGPythonDelegate.delegate) (request app_props : pydict) (text : pystr) :
  let response :=
    [(lit "status", PyStr (lit "SUCCESS"));
     (lit "requestId", dict_get_default (lit "requestId") (PyStr (lit "unknown")) request);
     (lit "handlerType", PyStr (lit "PYTHON_ECHO"));
     (lit "result", PyDict (echo_result h request app_props));
     (lit "executionTimeMs", elapsed_ms)] in
  json_loads_str dg_request_json = Returns (PyDict request) ->
  DGPythonDelegate.load_app_props app_properties_json = Returns (PyDict app_props) ->
  DGPythonDelegate._load_class import_attr name d
  = (Returns (EchoPythonHandler.class h), d1) ->
  json_dumps (PyDict response) = Returns text ->
  let r := DGPythonDelegate.executeHandler_run import_attr name dg_request_json
             app_properties_json d in
  DGPythonDelegate.returned r = Returns text
  /\ DGPythonDelegate.response r = Some response
  /\ (exists self, DGPythonDelegate.handler_instance r = Some self
                   /\ DGHandler._status self = DGHandler.STOPPED)
  /\ DGPythonDelegate.calls (DGPythonDelegate.after r)
     = DGPythonDelegate.calls d
       ++ [DGPythonDelegate.CallStart; DGPythonDelegate.CallExecute;
           DGPythonDelegate.CallStop].
Proof.
  intros response Hrequest Hprops Hload Hdumps r. subst r.
  pose proof (load_class_calls _ _ _ _ _ Hload) as Hcalls.
  unfold DGPythonDelegate.executeHandler_run.
  rewrite Hrequest, Hprops. cbn [py_get]. rewrite Hload.
  change (DGHandler.new (EchoPythonHandler.class h)) with (Returns DGHandler.__init__).
  change (DGHandler.call_start (EchoPythonHandler.class h)) with DGHandler.start.
  change (DGHandler.call_execute (EchoPythonHandler.class h))
    with (DGHandler.execute (EchoPythonHandler.class h)).
  change (DGHandler.call_stop (EchoPythonHandler.class h)) with DGHandler.stop.
  cbv beta iota zeta delta [DGHandler.start DGHandler.execute DGHandler.stop].
  change (DGHandler.compute (EchoPythonHandler.class h)) with (EchoPythonHandler.compute h).
  change (DGHandler.get_request_type (EchoPythonHandler.class h))
    with EchoPythonHandler.get_request_type.
  cbn [DGHandler._request DGHandler.set_status DGHandler.set_request
       DGHandler.set_app_properties DGHandler.__init__ DGHandler._status
       DGHandler._app_properties DGHandler.fields].
  rewrite (echo_compute_result request app_props) by reflexivity.
  cbn [DGHandler._request py_get EchoPythonHandler.get_request_type DGHandler._status
       DGHandler._app_properties DGHandler.fields DGHandler.set_status
       DGHandler.set_request DGHandler.set_app_properties DGHandler.__init__].
  fold response. rewrite Hdumps.
  cbn [DGPythonDelegate.returned DGPythonDelegate.response
       DGPythonDelegate.handler_instance DGPythonDelegate.after
       DGPythonDelegate.calls DGPythonDelegate.record_call
       DGPythonDelegate._handler_cache DGPythonDelegate._requests_handled
       DGPythonDelegate._errors].
  repeat split.
  - eexists. split; reflexivity.
  - rewrite Hcalls. now repeat rewrite <- app_assoc.
Qed.

End EchoEndToEnd.

(** ** The same on the reference runtime *)

(** The echo handler loaded by a fresh delegate. *)
Lemma load_class_imports_at_last_dot_witness :
  (DGPythonDelegate.cache_get Samples.echo_name
     (DGPythonDelegate._handler_cache Samples.fresh_delegate)
   = Some (EchoPythonHandler.class Samples.host)
   /\ DGPythonDelegate.Delegate
        [(Samples.echo_name, EchoPythonHandler.class Samples.host)] 0 0 []
      = Samples.fresh_delegate)
  \/ (DGPythonDelegate.cache_get Samples.echo_name
        (DGPythonDelegate._handler_cache Samples.fresh_delegate) = None
      /\ exists module_path class_name,
           Samples.echo_name = module_path ++ lit "." ++ class_name
           /\ ~ In 46%N class_name
           /\ Samples.gateway_import module_path class_name
              = Returns (EchoPythonHandler.class Samples.host)
           /\ DGPythonDelegate.Delegate
                [(Samples.echo_name, EchoPythonHandler.class Samples.host)] 0 0 []
              = DGPythonDelegate.Delegate
                  (DGPythonDelegate.cache_set Samples.echo_name
                     (EchoPythonHandler.class Samples.host)
                     (DGPythonDelegate._handler_cache Samples.fresh_delegate))
                  (DGPythonDelegate._requests_handled Samples.fresh_delegate)
                  (DGPythonDelegate._errors Samples.fresh_delegate)
                  (DGPythonDelegate.calls Samples.fresh_delegate)).
Proof.
  apply (load_class_imports_at_last_dot Samples.gateway_import Samples.echo_name
           Samples.fresh_delegate).
  reflexivity.
Defined.

(** The bare class name [EchoPythonHandler]. *)
Lemma load_class_rejects_undotted_name_witness :
  DGPythonDelegate._load_class Samples.gateway_import (lit "EchoPythonHandler")
    Samples.fresh_delegate
  = (Raises (Exn ImportError
               (lit "Invalid Python class name: '" ++ lit "EchoPythonHandler"
                ++ lit "'. Expected format: 'module.path.ClassName'")),
     Samples.fresh_delegate).
Proof.
  apply (load_class_rejects_undotted_name Samples.gateway_import
           (lit "EchoPythonHandler") Samples.fresh_delegate).
  - intros H. vm_compute in H.
    repeat (destruct H as [H|H]; [discriminate H|]). exact H.
  - reflexivity.
Defined.

(** A module the sample importer does not find. *)
Lemma load_class_failure_witness :
  Samples.fresh_delegate = Samples.fresh_delegate
  /\ is_class ModuleNotFoundError
       (Exn ImportError
          (lit "Cannot find module 'handlers.missing': No module named that. Check PYTHONPATH includes the handler directory."))
     = false
  /\ is_class AttributeError
       (Exn ImportError
          (lit "Cannot find module 'handlers.missing': No module named that. Check PYTHONPATH includes the handler directory."))
     = false.
Proof.
  apply (load_class_failure Samples.gateway_import (lit "handlers.missing.Handler")
           Samples.fresh_delegate Samples.fresh_delegate).
  vm_compute. reflexivity.
Defined.

(** A delegate that has the echo handler cached serves a request that does
    not parse; an importer that finds nothing then still loads the class. *)
Lemma executeHandler_keeps_loaded_classes_witness :
  DGPythonDelegate._load_class
    (fun _ _ => Raises (Exn ModuleNotFoundError (lit "No module named that")))
    Samples.echo_name
    (DGPythonDelegate.after
       (DGPythonDelegate.executeHandler_run (rt := RefRuntime.runtime)
          Samples.gateway_import (lit "handlers.missing.Handler") (lit "{") []
          (DGPythonDelegate.Delegate
             [(Samples.echo_name, EchoPythonHandler.class Samples.host)] 0 0 [])))
  = (Returns (EchoPythonHandler.class Samples.host),
     DGPythonDelegate.after
       (DGPythonDelegate.executeHandler_run (rt := RefRuntime.runtime)
          Samples.gateway_import (lit "handlers.missing.Handler") (lit "{") []
          (DGPythonDelegate.Delegate
             [(Samples.echo_name, EchoPythonHandler.class Samples.host)] 0 0 []))).
Proof.
  apply (executeHandler_keeps_loaded_classes (rt := RefRuntime.runtime)
           Samples.gateway_import (lit "handlers.missing.Handler") (lit "{") []
           (DGPythonDelegate.Delegate
              [(Samples.echo_name, EchoPythonHandler.class Samples.host)] 0 0 [])
           Samples.echo_name (EchoPythonHandler.class Samples.host)).
  reflexivity.
Defined.

(** A started echo handler. *)
Lemma execute_contains_compute_witness :
  exists resp self',
    DGHandler.execute (rt := RefRuntime.runtime) (EchoPythonHandler.class Samples.host)
      (DGHandler.Instance DGHandler.READY
         (PyDict [(lit "requestId", PyStr (lit "r-1"))]) (PyDict []) PyNone)
    = (Returns (PyDict resp), self')
    /\ dict_get (lit "requestId") resp = Some (PyStr (lit "r-1"))
    /\ dict_get (lit "status") resp = Some (PyStr (lit "SUCCESS"))
    /\ dict_get (lit "result") resp
       = Some (PyDict (echo_result Samples.host
                         [(lit "requestId", PyStr (lit "r-1"))] []))
    /\ DGHandler._status self' = DGHandler.STOPPED.
Proof.
  apply (execute_contains_compute (rt := RefRuntime.runtime)
           (EchoPythonHandler.class Samples.host)
           (DGHandler.Instance DGHandler.READY
              (PyDict [(lit "requestId", PyStr (lit "r-1"))]) (PyDict []) PyNone)
           [(lit "requestId", PyStr (lit "r-1"))]).
  - reflexivity.
  - intros request s o s' H.
    now rewrite (echo_compute_keeps_instance _ _ _ _ _ H).
  - intros s. eexists. reflexivity.
Defined.

(** The request [{"requestId": "r-42", "payload": {"a": 1}}] with empty
    application properties, on a fresh delegate. *)
Lemma echo_end_to_end_witness :
  DGPythonDelegate.response
    (DGPythonDelegate.executeHandler_run (rt := RefRuntime.runtime)
       Samples.gateway_import Samples.echo_name Samples.request_r42 []
       Samples.fresh_delegate)
  = Some [(lit "status", PyStr (lit "SUCCESS"));
          (lit "requestId", PyStr (lit "r-42"));
          (lit "handlerType", PyStr (lit "PYTHON_ECHO"));
          (lit "result",
           PyDict (echo_result Samples.host
                     [(lit "requestId", PyStr (lit "r-42"));
                      (lit "payload", PyDict [(lit "a", PyInt 1)])] []));
          (lit "executionTimeMs", @elapsed_ms RefRuntime.runtime)]
  /\ dict_get (lit "echo")
       (echo_result Samples.host
          [(lit "requestId", PyStr (lit "r-42"));
           (lit "payload", PyDict [(lit "a", PyInt 1)])] [])
     = Some (PyDict [(lit "a", PyInt 1)]).
Proof.
  split; [|reflexivity].
  refine (proj1 (proj2
    (echo_end_to_end (rt := RefRuntime.runtime) Samples.host Samples.gateway_import
       Samples.echo_name Samples.request_r42 [] Samples.fresh_delegate
       (DGPythonDelegate.Delegate
          [(Samples.echo_name, EchoPythonHandler.class Samples.host)] 0 0 [])
       [(lit "requestId", PyStr (lit "r-42"));
        (lit "payload", PyDict [(lit "a", PyInt 1)])] []
       (Samples.json_text
          (PyDict [(lit "status", PyStr (lit "SUCCESS"));
                   (lit "requestId", PyStr (lit "r-42"));
                   (lit "handlerType", PyStr (lit "PYTHON_ECHO"));
                   (lit "result",
                    PyDict (echo_result Samples.host
                              [(lit "requestId", PyStr (lit "r-42"));
                               (lit "payload", PyDict [(lit "a", PyInt 1)])] []));
                   (lit "executionTimeMs", @elapsed_ms RefRuntime.runtime)]))
       _ _ _ _))).
  - vm_compute. reflexivity.
  - reflexivity.
  - reflexivity.
  - vm_compute. reflexivity.
Defined.

(** ** The transforms *)

Lemma dict_set_fresh (k : pystr) (v : pyval) (d : pydict) :
  dict_get k d = None -> dict_set k v d = d ++ [(k, v)].
Proof.
  induction d as [|[k' v'] d IH]; [reflexivity|].
  simpl. destruct (str_eqb k k'); [intros H; discriminate H|].
  intros H. now rewrite (IH H).
Qed.

Lemma dict_get_app_fresh (k k' : pystr) (v : pyval) (d : pydict) :
  k <> k' -> dict_get k d = None -> dict_get k (d ++ [(k', v)]) = None.
Proof.
  intros Hne. induction d as [|[k0 v0] d IH]; simpl.
  - intros _. apply str_eqb_neq in Hne. now rewrite Hne.
  - destruct (str_eqb k k0); [intros H; discriminate H|exact IH].
Qed.

(** X23.  On an object without nested objects or lists, [_json_flatten]
    with the default prefix returns the object itself as [flattened], in
    its order, and its number of entries as [keyCount]. *)
Theorem json_flatten_flat_dict (data : pydict) :
  forallb (fun kv => is_leaf (snd kv)) data = true ->
  NoDup (map fst data) ->
  TransformPythonHandler._json_flatten data []
  = [(lit "flattened", PyDict data);
     (lit "keyCount", PyInt (Z.of_nat (length data)))].
Proof.
  intros Hleaf Hkeys.
  unfold TransformPythonHandler._json_flatten.
  cbn [TransformPythonHandler._json_flatten_rec].
  match goal with
  | |- TransformPythonHandler.flatten_result (?f data []) = _ =>
      assert (H : forall entries items,
                 forallb (fun kv => is_leaf (snd kv)) entries = true ->
                 NoDup (map fst entries) ->
                 (forall k, In k (map fst entries) -> dict_get k items = None) ->
                 f entries items = items ++ entries)
  end.
  { induction entries as [|[k v] entries IH]; intros items Hl Hk Hfresh.
    - now rewrite app_nil_r.
    - cbn [forallb snd] in Hl. apply andb_prop in Hl. destruct Hl as [Hv Hl].
      cbn [map fst] in Hk. inversion Hk as [|? ? Hnotin Hk']; subst.
      assert (Hnext : forall k0, In k0 (map fst entries) ->
                                 dict_get k0 (items ++ [(k, v)]) = None).
      { intros k0 H0. apply dict_get_app_fresh.
        - intros ->. contradiction.
        - apply Hfresh. now right. }
      assert (Hset : dict_set k v items = items ++ [(k, v)]).
      { apply dict_set_fresh. apply Hfresh. now left. }
      pose proof (IH (items ++ [(k, v)]) Hl Hk' Hnext) as Hi.
      rewrite <- app_assoc in Hi. rewrite <- Hset in Hi.
      destruct v; try discriminate Hv; exact Hi. }
  rewrite (H data [] Hleaf Hkeys (fun _ _ => eq_refl)).
  reflexivity.
Qed.

(** A flat object of three entries. *)
Lemma json_flatten_flat_dict_witness :
  TransformPythonHandler._json_flatten
    [(lit "a", PyInt 1); (lit "b", PyStr (lit "x")); (lit "c", PyNone)] []
  = [(lit "flattened",
      PyDict [(lit "a", PyInt 1); (lit "b", PyStr (lit "x")); (lit "c", PyNone)]);
     (lit "keyCount", PyInt (Z.of_nat 3))].
Proof.
  apply (json_flatten_flat_dict
           [(lit "a", PyInt 1); (lit "b", PyStr (lit "x")); (lit "c", PyNone)]).
  - reflexivity.
  - cbn [map fst].
    repeat (constructor;
            [intros H; vm_compute in H;
             repeat (destruct H as [H|H]; [discriminate H|]); exact H|]).
    constructor.
Defined.

Section WordCount.
Context {tx : TextRuntime}.

Lemma split_from_length (s : pystr) :
  forall word,
    (2 * length (Transform.split_from s word)
     <= length s + match word with [] => 1 | _ => 2 end)%nat.
Proof.
  induction s as [|c s IH]; intros word; cbn [Transform.split_from].
  - destruct word; simpl; lia.
  - destruct (isspace c).
    + destruct word as [|x word].
      * specialize (IH []). simpl in *. lia.
      * specialize (IH []). simpl in *. lia.
    + specialize (IH (word ++ [c])).
      destruct (word ++ [c]) as [|y rest] eqn:E.
      * destruct word; discriminate E.
      * destruct word; simpl in *; lia.
Qed.

Lemma split_from_concat (s : pystr) :
  forall word,
    concat (Transform.split_from s word)
    = word ++ filter (fun c => negb (isspace c)) s.
Proof.
  induction s as [|c s IH]; intros word; cbn [Transform.split_from filter].
  - destruct word; simpl; now rewrite ?app_nil_r.
  - destruct (isspace c); cbn [negb].
    + destruct word as [|x word]; [apply (IH [])|].
      cbn [concat]. now rewrite (IH []).
    + rewrite (IH (word ++ [c])). now rewrite <- app_assoc.
Qed.

Lemma split_from_words (s : pystr) :
  forall word,
    forallb (fun c => negb (isspace c)) word = true ->
    Forall (fun w => w <> [] /\ forallb (fun c => negb (isspace c)) w = true)
           (Transform.split_from s word).
Proof.
  induction s as [|c s IH]; intros word Hword; cbn [Transform.split_from].
  - destruct word; constructor; [|constructor]. split; [discriminate|exact Hword].
  - destruct (isspace c) eqn:Hc.
    + destruct word as [|x word]; [now apply IH|].
      constructor; [split; [discriminate|exact Hword]|now apply IH].
    + apply IH. rewrite forallb_app, Hword. cbn. now rewrite Hc.
Qed.

Lemma count_newlines_le (text : pystr) :
  (Transform.count_newlines text <= length text)%nat.
Proof. unfold Transform.count_newlines. apply filter_length_le. Qed.

(** X24.  [_word_count] on a text of [c] characters reports [c] as
    [charCount], at most [(c + 1) / 2] words, and between 1 and [c + 1]
    lines for a non-empty text (0 lines for the empty text); the words it
    counts are non-empty, free of whitespace, and together hold exactly the
    characters of the text that are not whitespace, in order. *)
Theorem word_count_bounds (text : pystr) :
  let words := Transform.split text in
  exists lines,
    Transform._word_count text
    = [(lit "wordCount", PyInt (Z.of_nat (length words)));
       (lit "charCount", PyInt (Z.of_nat (length text)));
       (lit "lineCount", PyInt lines)]
    /\ (2 * length words <= length text + 1)%nat
    /\ (text = [] -> lines = 0%Z)
    /\ (text <> [] -> (1 <= lines <= Z.of_nat (length text) + 1)%Z)
    /\ concat words = filter (fun c => negb (isspace c)) text
    /\ Forall (fun w => w <> [] /\ forallb (fun c => negb (isspace c)) w = true) words.
Proof.
  intros words. subst words. unfold Transform._word_count.
  eexists. split; [reflexivity|].
  split; [exact (split_from_length text [])|].
  split; [intros ->; reflexivity|].
  split; [|split; [exact (split_from_concat text [])
                  |exact (split_from_words text [] eq_refl)]].
  intros Hne. pose proof (count_newlines_le text).
  destruct text; [now contradiction Hne|]. lia.
Qed.

End WordCount.

(** ** Word frequencies *)

Lemma bump_counted (w w' : pystr) (freq : list (pystr * nat)) :
  counted w (Transform.bump w' freq)
  = ((if str_eqb w w' then 1 else 0) + counted w freq)%nat.
Proof.
  induction freq as [|[k n] freq IH]; simpl.
  - destruct (str_eqb w w'); reflexivity.
  - destruct (str_eqb w' k) eqn:E; simpl.
    + apply str_eqb_eq in E. subst k.
      destruct (str_eqb w w'); reflexivity.
    + destruct (str_eqb w k) eqn:Ek; [|exact IH].
      apply str_eqb_eq in Ek. subst k.
      destruct (str_eqb w w') eqn:Ew; [|reflexivity].
      apply str_eqb_eq in Ew. subst w'. rewrite str_eqb_refl in E. discriminate E.
Qed.

Lemma bump_keys (w k : pystr) (freq : list (pystr * nat)) :
  In k (map fst (Transform.bump w freq)) <-> k = w \/ In k (map fst freq).
Proof.
  induction freq as [|[k0 n] freq IH]; simpl.
  - intuition.
  - destruct (str_eqb w k0) eqn:E; simpl.
    + apply str_eqb_eq in E. subst k0. intuition.
    + rewrite IH. intuition.
Qed.

Lemma bump_nodup (w : pystr) (freq : list (pystr * nat)) :
  NoDup (map fst freq) -> NoDup (map fst (Transform.bump w freq)).
Proof.
  induction freq as [|[k0 n] freq IH]; simpl; intros H.
  - constructor; [intros []|constructor].
  - inversion H as [|? ? Hnotin Hrest]; subst.
    destruct (str_eqb w k0) eqn:E; simpl.
    + now constructor.
    + constructor; [|now apply IH].
      rewrite bump_keys. intros [->|Hin]; [|contradiction].
      rewrite str_eqb_refl in E. discriminate E.
Qed.

Lemma bump_positive (w : pystr) (freq : list (pystr * nat)) :
  Forall (fun x => 1 <= snd x)%nat freq ->
  Forall (fun x => 1 <= snd x)%nat (Transform.bump w freq).
Proof.
  induction freq as [|[k0 n] freq IH]; simpl; intros H.
  - constructor; [simpl; lia|constructor].
  - inversion H as [|? ? Hn Hrest]; subst.
    destruct (str_eqb w k0); constructor; simpl in *; auto; lia.
Qed.

Lemma bump_length (w : pystr) (freq : list (pystr * nat)) :
  (length (Transform.bump w freq) <= S (length freq))%nat.
Proof.
  induction freq as [|[k0 n] freq IH]; simpl; [lia|].
  destruct (str_eqb w k0); simpl; lia.
Qed.

Lemma counted_in (w : pystr) (n : nat) (freq : list (pystr * nat)) :
  NoDup (map fst freq) -> In (w, n) freq -> counted w freq = n.
Proof.
  induction freq as [|[k0 m] freq IH]; simpl; intros Hnd Hin; [contradiction|].
  inversion Hnd as [|? ? Hnotin Hrest]; subst.
  destruct Hin as [Heq|Hin].
  - injection Heq as -> ->. now rewrite str_eqb_refl.
  - destruct (str_eqb w k0) eqn:E; [|now apply IH].
    apply str_eqb_eq in E. subst k0.
    exfalso. apply Hnotin. change w with (fst (w, n)). now apply in_map.
Qed.

(** What [Counter(words)] holds, starting from the counter [freq]. *)
Lemma counter_from (words : list pystr) :
  forall freq,
    NoDup (map fst freq) ->
    Forall (fun x => 1 <= snd x)%nat freq ->
    let freq' := fold_left (fun f w => Transform.bump w f) words freq in
    NoDup (map fst freq')
    /\ Forall (fun x => 1 <= snd x)%nat freq'
    /\ (length freq' <= length freq + length words)%nat
    /\ forall w, counted w freq' = (counted w freq + occurrences w words)%nat.
Proof.
  induction words as [|x words IH]; intros freq Hnd Hpos; cbn [fold_left].
  - repeat split; try assumption; [lia|]. intros w. simpl. lia.
  - destruct (IH (Transform.bump x freq) (bump_nodup x freq Hnd)
                (bump_positive x freq Hpos)) as (H1 & H2 & H3 & H4).
    repeat split; try assumption.
    + pose proof (bump_length x freq). simpl. lia.
    + intros w. rewrite H4, bump_counted. simpl. lia.
Qed.

Lemma insert_by_count_in (x y : pystr * nat) (l : list (pystr * nat)) :
  In y (Transform.insert_by_count x l) <-> y = x \/ In y l.
Proof.
  induction l as [|z l IH]; simpl.
  - intuition.
  - destruct (snd z <=? snd x)%nat; simpl; [intuition|]. rewrite IH. intuition.
Qed.

Lemma insert_by_count_length (x : pystr * nat) (l : list (pystr * nat)) :
  length (Transform.insert_by_count x l) = S (length l).
Proof.
  induction l as [|z l IH]; simpl; [reflexivity|].
  destruct (snd z <=? snd x)%nat; simpl; [reflexivity|now rewrite IH].
Qed.

Lemma insert_by_count_nodup (x : pystr * nat) (l : list (pystr * nat)) :
  ~ In (fst x) (map fst l) -> NoDup (map fst l) ->
  NoDup (map fst (Transform.insert_by_count x l)).
Proof.
  induction l as [|z l IH]; simpl; intros Hx Hl.
  - constructor; [intros []|constructor].
  - destruct (snd z <=? snd x)%nat; simpl.
    + constructor; [exact Hx|exact Hl].
    + inversion Hl as [|? ? Hz Hl']; subst. constructor.
      * intros Hin. apply in_map_iff in Hin. destruct Hin as (y & Hy & Hin).
        apply insert_by_count_in in Hin. destruct Hin as [->|Hin].
        -- apply Hx. now left.
        -- apply Hz. rewrite <- Hy. now apply in_map.
      * apply IH; [|exact Hl']. intros Hin. apply Hx. now right.
Qed.

Lemma insert_by_count_descending (x : pystr * nat) (l : list (pystr * nat)) :
  descending l -> descending (Transform.insert_by_count x l).
Proof.
  induction l as [|z l IH]; intros Hl.
  - simpl. auto.
  - cbn [Transform.insert_by_count].
    destruct (Nat.leb_spec (snd z) (snd x)) as [Hle|Hlt].
    + split; [exact Hle|exact Hl].
    + destruct Hl as [Hhead Hl]. specialize (IH Hl).
      split; [|exact IH].
      destruct l as [|u l]; cbn [Transform.insert_by_count].
      * lia.
      * destruct (snd u <=? snd x)%nat; [lia|exact Hhead].
Qed.

Lemma descending_firstn (n : nat) (l : list (pystr * nat)) :
  descending l -> descending (firstn n l).
Proof.
  revert l. induction n as [|n IH]; intros l Hl; [exact I|].
  destruct l as [|x l]; [exact I|]. destruct Hl as [Hhead Hl].
  cbn [firstn]. split; [|now apply IH].
  destruct n; [exact I|]. destruct l; [exact I|exact Hhead].
Qed.

Lemma firstn_incl {A : Type} (n : nat) (l : list A) (x : A) :
  In x (firstn n l) -> In x l.
Proof.
  intros H. rewrite <- (firstn_skipn n l). apply in_or_app. now left.
Qed.

Lemma firstn_nodup {A : Type} (n : nat) (l : list A) :
  NoDup l -> NoDup (firstn n l).
Proof.
  intros H. rewrite <- (firstn_skipn n l) in H. exact (NoDup_app_remove_r _ _ H).
Qed.

(** What [most_common(n)] returns for a counter without repeated keys. *)
Lemma most_common_spec (n : nat) (freq : list (pystr * nat)) :
  NoDup (map fst freq) ->
  length (Transform.most_common n freq) = Nat.min n (length freq)
  /\ descending (Transform.most_common n freq)
  /\ NoDup (map fst (Transform.most_common n freq))
  /\ forall x, In x (Transform.most_common n freq) -> In x freq.
Proof.
  intros Hnd. unfold Transform.most_common.
  assert (H : length (fold_right Transform.insert_by_count [] freq) = length freq
              /\ descending (fold_right Transform.insert_by_count [] freq)
              /\ NoDup (map fst (fold_right Transform.insert_by_count [] freq))
              /\ forall x, In x (fold_right Transform.insert_by_count [] freq)
                           <-> In x freq).
  { induction freq as [|y freq IH]; cbn [fold_right].
    - repeat split; auto; constructor.
    - cbn [map] in Hnd. inversion Hnd as [|? ? Hy Hnd']; subst.
      destruct (IH Hnd') as (H1 & H2 & H3 & H4).
      split; [rewrite insert_by_count_length; simpl; now rewrite H1|].
      split; [now apply insert_by_count_descending|].
      split.
      + apply insert_by_count_nodup; [|exact H3].
        intros Hin. apply in_map_iff in Hin. destruct Hin as (z & Hz & Hin).
        apply H4 in Hin. apply Hy. rewrite <- Hz. now apply in_map.
      + intros x. rewrite insert_by_count_in, H4. simpl. intuition. }
  destruct H as (H1 & H2 & H3 & H4).
  split; [now rewrite length_firstn, H1|].
  split; [now apply descending_firstn|].
  split; [rewrite <- firstn_map; now apply firstn_nodup|].
  intros x Hx. apply H4. exact (firstn_incl _ _ _ Hx).
Qed.

Section WordFreq.
Context {tx : TextRuntime}.

(** X25.  [_word_freq] reports as [totalWords] the number of words found
    in the lower-cased text and as [uniqueWords] a number that is not
    larger; [topWords] lists [min(10, uniqueWords)] distinct words, each
    with the number of times it occurs among the words found, in
    non-increasing order of that number. *)
Theorem word_freq_top_words (text : pystr) :
  let words := findall_words (str_lower text) in
  exists unique top,
    Transform._word_freq text
    = [(lit "totalWords", PyInt (Z.of_nat (length words)));
       (lit "uniqueWords", PyInt (Z.of_nat unique));
       (lit "topWords",
        PyList (map (fun wc => PyDict [(lit "word", PyStr (fst wc));
                                       (lit "count", PyInt (Z.of_nat (snd wc)))])
                    top))]
    /\ (unique <= length words)%nat
    /\ length top = Nat.min 10 unique
    /\ descending top
    /\ NoDup (map fst top)
    /\ forall w n, In (w, n) top -> n = occurrences w words /\ (1 <= n)%nat.
Proof.
  intros words.
  destruct (counter_from words [] (NoDup_nil _) (Forall_nil _))
    as (Hnd & Hpos & Hlen & Hcount).
  fold (Transform.Counter words) in Hnd, Hpos, Hlen, Hcount.
  destruct (most_common_spec 10 (Transform.Counter words) Hnd)
    as (Htop & Hdesc & Hdistinct & Hin).
  exists (length (Transform.Counter words)), (Transform.most_common 10 (Transform.Counter words)).
  split; [reflexivity|].
  split; [simpl in Hlen; exact Hlen|].
  split; [exact Htop|]. split; [exact Hdesc|]. split; [exact Hdistinct|].
  intros w n Hw. apply Hin in Hw. split.
  - rewrite <- (counted_in w n _ Hnd Hw), Hcount. reflexivity.
  - rewrite Forall_forall in Hpos. exact (Hpos _ Hw).
Qed.

End WordFreq.

(** ** The transform dispatch *)

Section Dispatching.
Context {tx : TextRuntime}.

Lemma run_operation_supported (operation : pystr) (text data : pyval)
    (o : outcome pydict) :
  Transform.run_operation operation text data = Some o ->
  In operation supported_operations.
Proof.
  unfold Transform.run_operation, supported_operations.
  repeat match goal with
         | |- context [str_eqb operation ?name] =>
             let E := fresh "E" in
             destruct (str_eqb operation name) eqn:E;
             [apply str_eqb_eq in E; rewrite E; intros _;
              cbn [In]; repeat (first [left; reflexivity|right])|]
         end.
  intros H; discriminate H.
Qed.

Lemma run_operation_unsupported (operation : pystr) (text data : pyval) :
  ~ In operation supported_operations ->
  Transform.run_operation operation text data = None.
Proof.
  intros Hnot.
  destruct (Transform.run_operation operation text data) as [o|] eqn:E;
    [|reflexivity].
  contradiction (Hnot (run_operation_supported _ _ _ _ E)).
Qed.

(** X26.  Whenever [compute] returns, the request is an object whose
    [payload] is an object whose [operation] is a string, the result is an
    object, and its [operation] entry is that string in upper case, which is
    one of the seven supported names; the handler instance is unchanged. *)
Theorem compute_result_names_operation (request result : pyval)
    (self self' : DGHandler.instance) :
  Transform.compute request self = (Returns result, self') ->
  self' = self
  /\ exists r payload name d,
       request = PyDict r
       /\ dict_get_default (lit "payload") (PyDict []) r = PyDict payload
       /\ dict_get_default (lit "operation") (PyStr []) payload = PyStr name
       /\ result = PyDict d
       /\ dict_get (lit "operation") d = Some (PyStr (str_upper name))
       /\ In (str_upper name) supported_operations.
Proof.
  unfold Transform.compute. intros H. injection H as H <-. split; [reflexivity|].
  destruct request as [|b|z|t|s|l|r|n]; try discriminate H.
  cbn [py_get] in H.
  destruct (dict_get_default (lit "payload") (PyDict []) r)
    as [|b|z|t|s|l|payload|n] eqn:Hpayload; try discriminate H.
  cbn [py_get] in H.
  destruct (dict_get_default (lit "operation") (PyStr []) payload)
    as [|b|z|t|name|l|d0|n] eqn:Hname; try discriminate H.
  destruct (Transform.run_operation (str_upper name) _ _) as [[res|e]|] eqn:Hrun;
    try discriminate H.
  injection H as <-.
  exists r, payload, name, (dict_set (lit "operation") (PyStr (str_upper name)) res).
  repeat split; try assumption.
  - apply dict_get_set_same.
  - exact (run_operation_supported _ _ _ _ Hrun).
Qed.

(** X27.  For a payload object whose [operation] string does not
    upper-case to a supported name (the empty string when the key is
    missing), [compute] raises the [ValueError] that quotes the upper-cased
    name and lists the seven names in sorted order. *)
Theorem compute_unknown_operation (r payload : pydict) (name : pystr)
    (self : DGHandler.instance) :
  dict_get_default (lit "payload") (PyDict []) r = PyDict payload ->
  dict_get_default (lit "operation") (PyStr []) payload = PyStr name ->
  ~ In (str_upper name) supported_operations ->
  Transform.compute (PyDict r) self
  = (Raises (Exn ValueError
               (lit "Unknown operation: '" ++ str_upper name
                ++ lit "'. Supported: JSON_FLATTEN, LOWERCASE, REVERSE, SHA256, UPPERCASE, WORD_COUNT, WORD_FREQ")),
     self).
Proof.
  intros Hpayload Hname Hnot. unfold Transform.compute.
  cbn [py_get]. rewrite Hpayload. cbn [py_get]. rewrite Hname.
  rewrite (run_operation_unsupported _ _ _ Hnot).
  reflexivity.
Qed.

End Dispatching.

(** ** The transform handler under the delegate *)

Section TransformUnderDelegate.
Context {rt : PyRuntime} {tx : TextRuntime}.
Variable import_attr : pystr -> pystr -> outcome DGHandler.handler_class.

(** X28.  Through [executeHandler], a request object whose [payload] is
    an object without [operation] (or that has no [payload]) is refused by
    [TransformPythonHandler.start]: the answer is the delegate's ERROR
    response for the [ValueError] "Missing 'operation' in payload. ...",
    [execute] is never called, and [stop] is called once. *)
Theorem transform_requires_operation (name dg_request_json app_properties_json : pystr)
    (d d1 : DGPythonDelegate.delegate) (request payload : pydict) (app_props : pyval) :
  json_loads_str dg_request_json = Returns (PyDict request) ->
  DGPythonDelegate.load_app_props app_properties_json = Returns app_props ->
  DGPythonDelegate._load_class import_attr name d = (Returns Transform.class, d1) ->
  dict_get_default (lit "payload") (PyDict []) request = PyDict payload ->
  dict_mem (lit "operation") payload = false ->
  let missing :=
    Exn ValueError
      (lit "Missing 'operation' in payload. Supported: UPPERCASE, LOWERCASE, REVERSE, WORD_COUNT, SHA256, WORD_FREQ, JSON_FLATTEN") in
  let r := DGPythonDelegate.executeHandler_run import_attr name dg_request_json
             app_properties_json d in
  DGPythonDelegate.response r = Some (delegate_error_response name missing request)
  /\ DGPythonDelegate.returned r
     = json_dumps (PyDict (delegate_error_response name missing request))
  /\ DGPythonDelegate.calls (DGPythonDelegate.after r)
     = DGPythonDelegate.calls d ++ [DGPythonDelegate.CallStart; DGPythonDelegate.CallStop].
Proof.
  intros Hrequest Hprops Hload Hpayload Hmem missing r. subst r.
  pose proof (load_class_calls _ _ _ _ _ Hload) as Hcalls.
  unfold DGPythonDelegate.executeHandler_run.
  rewrite Hrequest, Hprops. cbn [py_get]. rewrite Hload.
  change (DGHandler.new Transform.class) with (Returns DGHandler.__init__).
  change (DGHandler.call_start Transform.class) with Transform.start.
  unfold Transform.start. cbv beta iota zeta delta [DGHandler.start].
  cbn [py_get]. rewrite Hpayload. cbn [Transform.py_contains]. rewrite Hmem.
  match goal with
  | |- context [DGPythonDelegate.on_exception name ?e
                  (DGPythonDelegate.Locals (Some (PyDict request)) ?h) ?dd] =>
      change e with missing;
      destruct (on_exception_effect name missing request h dd) as (H1 & H2 & H3)
  end.
  rewrite H1, H2, H3. repeat split.
  cbn [DGPythonDelegate.calls DGPythonDelegate.record_call]. rewrite Hcalls.
  now rewrite <- app_assoc.
Qed.

End TransformUnderDelegate.

(** ** The same on the reference runtimes *)

(** The payload [{"operation": "reverse", "text": "abc"}]. *)
Lemma compute_result_names_operation_witness :
  DGHandler.__init__ = DGHandler.__init__
  /\ exists r payload name d,
       PyDict [(lit "payload",
                PyDict [(lit "operation", PyStr (lit "reverse"));
                        (lit "text", PyStr (lit "abc"))])]
       = PyDict r
       /\ dict_get_default (lit "payload") (PyDict []) r = PyDict payload
       /\ dict_get_default (lit "operation") (PyStr []) payload = PyStr name
       /\ PyDict [(lit "result", PyStr (lit "cba"));
                  (lit "original", PyStr (lit "abc"));
                  (lit "operation", PyStr (lit "REVERSE"))]
          = PyDict d
       /\ dict_get (lit "operation") d
          = Some (PyStr (str_upper (TextRuntime := RefText.text) name))
       /\ In (str_upper (TextRuntime := RefText.text) name) supported_operations.
Proof.
  apply (compute_result_names_operation (tx := RefText.text)
           (PyDict [(lit "payload",
                     PyDict [(lit "operation", PyStr (lit "reverse"));
                             (lit "text", PyStr (lit "abc"))])])
           (PyDict [(lit "result", PyStr (lit "cba"));
                    (lit "original", PyStr (lit "abc"));
                    (lit "operation", PyStr (lit "REVERSE"))])
           DGHandler.__init__ DGHandler.__init__).
  vm_compute. reflexivity.
Defined.

(** The payload [{"operation": "rot13"}]. *)
Lemma compute_unknown_operation_witness :
  Transform.compute (tx := RefText.text)
    (PyDict [(lit "payload", PyDict [(lit "operation", PyStr (lit "rot13"))])])
    DGHandler.__init__
  = (Raises (Exn ValueError
               (lit "Unknown operation: '"
                ++ str_upper (TextRuntime := RefText.text) (lit "rot13")
                ++ lit "'. Supported: JSON_FLATTEN, LOWERCASE, REVERSE, SHA256, UPPERCASE, WORD_COUNT, WORD_FREQ")),
     DGHandler.__init__).
Proof.
  apply (compute_unknown_operation (tx := RefText.text)
           [(lit "payload", PyDict [(lit "operation", PyStr (lit "rot13"))])]
           [(lit "operation", PyStr (lit "rot13"))] (lit "rot13") DGHandler.__init__).
  - reflexivity.
  - reflexivity.
  - intros H. vm_compute in H.
    repeat (destruct H as [H|H]; [discriminate H|]). exact H.
Defined.

(** The request [{"requestId": "r-7", "payload": {"text": "abc"}}]. *)
Lemma transform_requires_operation_witness :
  let missing :=
    Exn ValueError
      (lit "Missing 'operation' in payload. Supported: UPPERCASE, LOWERCASE, REVERSE, WORD_COUNT, SHA256, WORD_FREQ, JSON_FLATTEN") in
  let request :=
    [(lit "requestId", PyStr (lit "r-7"));
     (lit "payload", PyDict [(lit "text", PyStr (lit "abc"))])] in
  let r := DGPythonDelegate.executeHandler_run (rt := RefRuntime.runtime)
             transform_import transform_name
             (Samples.json_text (PyDict request)) [] Samples.fresh_delegate in
  DGPythonDelegate.response r
  = Some (delegate_error_response (rt := RefRuntime.runtime) transform_name missing request)
  /\ DGPythonDelegate.returned r
     = json_dumps (PyRuntime := RefRuntime.runtime)
         (PyDict (delegate_error_response (rt := RefRuntime.runtime)
                    transform_name missing request))
  /\ DGPythonDelegate.calls (DGPythonDelegate.after r)
     = DGPythonDelegate.calls Samples.fresh_delegate
       ++ [DGPythonDelegate.CallStart; DGPythonDelegate.CallStop].
Proof.
  apply (transform_requires_operation (rt := RefRuntime.runtime) (tx := RefText.text)
           transform_import transform_name
           (Samples.json_text
              (PyDict [(lit "requestId", PyStr (lit "r-7"));
                       (lit "payload", PyDict [(lit "text", PyStr (lit "abc"))])]))
           [] Samples.fresh_delegate
           (DGPythonDelegate.Delegate
              [(transform_name, Transform.class (tx := RefText.text))] 0 0 [])
           [(lit "requestId", PyStr (lit "r-7"));
            (lit "payload", PyDict [(lit "text", PyStr (lit "abc"))])]
           [(lit "text", PyStr (lit "abc"))] (PyDict [])).
  - vm_compute. reflexivity.
  - reflexivity.
  - reflexivity.
  - reflexivity.
  - reflexivity.
Defined.

(** ** Validation in [start] and the payload [compute] needs *)

Section Validation.
Context {tx : TextRuntime}.

(** X29.  [start] only tests ["operation" in payload]: a payload that is
    not an object but contains the word (a list with the element
    ["operation"], a string with that substring) passes [start], and
    [compute] then raises [AttributeError] at [payload.get]. *)
Theorem start_accepts_payload_that_compute_rejects (r : pydict) (payload : pyval)
    (self : DGHandler.instance) :
  dict_get_default (lit "payload") (PyDict []) r = payload ->
  (forall d, payload <> PyDict d) ->
  Transform.py_contains (lit "operation") payload = Returns true ->
  fst (Transform.start (PyDict r) self) = Returns tt
  /\ exists message,
       forall self',
         Transform.compute (PyDict r) self'
         = (Raises (Exn AttributeError message), self').
Proof.
  intros Hpayload Hdict Hin. split.
  - unfold Transform.start. cbv beta iota zeta delta [DGHandler.start].
    cbn [py_get]. now rewrite Hpayload, Hin.
  - eexists. intros self'. unfold Transform.compute. cbn [py_get].
    rewrite Hpayload.
    destruct payload as [|b|z|t|s|l|d|n]; try reflexivity.
    now contradiction (Hdict d).
Qed.

End Validation.

(** The request [{"payload": ["operation"]}]. *)
Lemma start_accepts_payload_that_compute_rejects_witness :
  fst (Transform.start
         (PyDict [(lit "payload", PyList [PyStr (lit "operation")])])
         DGHandler.__init__)
  = Returns tt
  /\ exists message,
       forall self',
         Transform.compute (tx := RefText.text)
           (PyDict [(lit "payload", PyList [PyStr (lit "operation")])]) self'
         = (Raises (Exn AttributeError message), self').
Proof.
  apply (start_accepts_payload_that_compute_rejects (tx := RefText.text)
           [(lit "payload", PyList [PyStr (lit "operation")])]
           (PyList [PyStr (lit "operation")]) DGHandler.__init__).
  - reflexivity.
  - intros d H. discriminate H.
  - reflexivity.
Defined.
